(** * libESMTP: the external API of the SMTP client library (smtp-api.c)

    A shallow embedding of the session / message / recipient graph that
    smtp-api.c builds on the C heap, together with the properties of its
    public operations.

    The C heap is a finite map from addresses to typed objects.  Every
    function of smtp-api.c is a computation in a state-and-fault monad:
    the state carries the heap, the library's error variable and the log
    of calls that leave this file (visitor callbacks, the protocol engine,
    the teardown hooks); a fault stands for undefined behaviour
    (dereferencing or freeing a pointer that is not allocated, calling a
    null function pointer, strdup of a null pointer). *)

From Stdlib Require Import ZArith NArith String Ascii List Bool.
From stdpp Require Import base gmap strings list.

Local Open Scope Z_scope.

(** ** Pointers *)

(** Addresses are natural numbers; address 0 is the null pointer.  Function
    pointers and opaque [void *] values are addresses too. *)
Abbreviation ptr := N.
Abbreviation fnptr := N.
Definition NULL : ptr := 0%N.

Definition is_null (p : ptr) : bool := N.eqb p NULL.

(** ** Enumerations of the public header

    The enumerators are the ones smtp-api.c names; a zero-filled structure
    holds the first enumerator of each type. *)

Inductive ret_flags := Ret_NOTSET | Ret_FULL | Ret_HDRS.
Inductive e8bitmime_body :=
  E8bitmime_NOTSET | E8bitmime_7BIT | E8bitmime_8BITMIME | E8bitmime_BINARYMIME.
Inductive by_mode := By_NOTSET | By_NOTIFY | By_RETURN.

(** [enum notify_flags] is a set of or-able flags, kept as an integer. *)
Definition notify_flags := Z.
Definition Notify_NOTSET : notify_flags := 0.

#[global] Instance ret_flags_eq_dec : EqDecision ret_flags.
Proof. solve_decision. Defined.
#[global] Instance e8bitmime_body_eq_dec : EqDecision e8bitmime_body.
Proof. solve_decision. Defined.
#[global] Instance by_mode_eq_dec : EqDecision by_mode.
Proof. solve_decision. Defined.

(** ** Build configuration

    The preprocessor symbols smtp-api.c tests. *)
Record config := {
  HAVE_GETADDRINFO : bool;
  HAVE_GETHOSTNAME : bool;
  USE_ETRN : bool;
  USE_REQUIRE_ALL_RECIPIENTS : bool
}.

(** ** Structures *)

(** Modelled from the spec: [struct smtp_status] is declared in the public
    header, which is not part of the sources at hand.  A status record is an
    outcome code and an outcome text owned by the record. *)
Module Status.
Record t := { code : Z; text : ptr }.
Definition zero : t := {| code := 0; text := NULL |}.
End Status.

(** The [port] member of a session: a [const char *] when getaddrinfo is
    available (null, the literal ["587"], or a pointer into the host buffer
    at some offset), an [int] otherwise. *)
Inductive port_t :=
| PortNull
| PortLiteral (s : string)
| PortInHost (base : ptr) (off : nat)
| PortInt (n : Z).

(** Modelled from the spec: [struct smtp_session], [struct smtp_message] and
    [struct smtp_recipient] are declared in libesmtp-private.h, which is not
    part of the sources at hand.  The members are those smtp-api.c reads or
    writes, with the types of the values it stores in them. *)
Module Session.
Record t := {
  localhost : ptr;
  host : ptr;
  port : port_t;
  application_data : ptr;
  messages : ptr;
  end_messages : ptr;
  event_cb : fnptr;
  event_cb_arg : ptr;
  monitor_cb : fnptr;
  monitor_cb_arg : ptr;
  monitor_cb_headers : Z;
  mta_status : Status.t;
  msg_source : ptr;
  required_extensions : Z;
  require_all_recipients : Z
}.

Definition zero (cfg : config) : t :=
  {| localhost := NULL; host := NULL;
     port := if HAVE_GETADDRINFO cfg then PortNull else PortInt 0;
     application_data := NULL; messages := NULL; end_messages := NULL;
     event_cb := NULL; event_cb_arg := NULL;
     monitor_cb := NULL; monitor_cb_arg := NULL; monitor_cb_headers := 0;
     mta_status := Status.zero; msg_source := NULL;
     required_extensions := 0; require_all_recipients := 0 |}.

Definition set_localhost v (s : t) : t :=
  let 'Build_t _ a2 a3 a4 a5 a6 a7 a8 a9 a10 a11 a12 a13 a14 a15 := s in
  Build_t v a2 a3 a4 a5 a6 a7 a8 a9 a10 a11 a12 a13 a14 a15.
Definition set_host v (s : t) : t :=
  let 'Build_t a1 _ a3 a4 a5 a6 a7 a8 a9 a10 a11 a12 a13 a14 a15 := s in
  Build_t a1 v a3 a4 a5 a6 a7 a8 a9 a10 a11 a12 a13 a14 a15.
Definition set_port v (s : t) : t :=
  let 'Build_t a1 a2 _ a4 a5 a6 a7 a8 a9 a10 a11 a12 a13 a14 a15 := s in
  Build_t a1 a2 v a4 a5 a6 a7 a8 a9 a10 a11 a12 a13 a14 a15.
Definition set_application_data v (s : t) : t :=
  let 'Build_t a1 a2 a3 _ a5 a6 a7 a8 a9 a10 a11 a12 a13 a14 a15 := s in
  Build_t a1 a2 a3 v a5 a6 a7 a8 a9 a10 a11 a12 a13 a14 a15.
Definition set_messages v (s : t) : t :=
  let 'Build_t a1 a2 a3 a4 _ a6 a7 a8 a9 a10 a11 a12 a13 a14 a15 := s in
  Build_t a1 a2 a3 a4 v a6 a7 a8 a9 a10 a11 a12 a13 a14 a15.
Definition set_end_messages v (s : t) : t :=
  let 'Build_t a1 a2 a3 a4 a5 _ a7 a8 a9 a10 a11 a12 a13 a14 a15 := s in
  Build_t a1 a2 a3 a4 a5 v a7 a8 a9 a10 a11 a12 a13 a14 a15.
Definition set_event_cb v (s : t) : t :=
  let 'Build_t a1 a2 a3 a4 a5 a6 _ a8 a9 a10 a11 a12 a13 a14 a15 := s in
  Build_t a1 a2 a3 a4 a5 a6 v a8 a9 a10 a11 a12 a13 a14 a15.
Definition set_event_cb_arg v (s : t) : t :=
  let 'Build_t a1 a2 a3 a4 a5 a6 a7 _ a9 a10 a11 a12 a13 a14 a15 := s in
  Build_t a1 a2 a3 a4 a5 a6 a7 v a9 a10 a11 a12 a13 a14 a15.
Definition set_monitor_cb v (s : t) : t :=
  let 'Build_t a1 a2 a3 a4 a5 a6 a7 a8 _ a10 a11 a12 a13 a14 a15 := s in
  Build_t a1 a2 a3 a4 a5 a6 a7 a8 v a10 a11 a12 a13 a14 a15.
Definition set_monitor_cb_arg v (s : t) : t :=
  let 'Build_t a1 a2 a3 a4 a5 a6 a7 a8 a9 _ a11 a12 a13 a14 a15 := s in
  Build_t a1 a2 a3 a4 a5 a6 a7 a8 a9 v a11 a12 a13 a14 a15.
Definition set_monitor_cb_headers v (s : t) : t :=
  let 'Build_t a1 a2 a3 a4 a5 a6 a7 a8 a9 a10 _ a12 a13 a14 a15 := s in
  Build_t a1 a2 a3 a4 a5 a6 a7 a8 a9 a10 v a12 a13 a14 a15.
Definition set_mta_status v (s : t) : t :=
  let 'Build_t a1 a2 a3 a4 a5 a6 a7 a8 a9 a10 a11 _ a13 a14 a15 := s in
  Build_t a1 a2 a3 a4 a5 a6 a7 a8 a9 a10 a11 v a13 a14 a15.
Definition set_required_extensions v (s : t) : t :=
  let 'Build_t a1 a2 a3 a4 a5 a6 a7 a8 a9 a10 a11 a12 a13 _ a15 := s in
  Build_t a1 a2 a3 a4 a5 a6 a7 a8 a9 a10 a11 a12 a13 v a15.
Definition set_require_all_recipients v (s : t) : t :=
  let 'Build_t a1 a2 a3 a4 a5 a6 a7 a8 a9 a10 a11 a12 a13 a14 _ := s in
  Build_t a1 a2 a3 a4 a5 a6 a7 a8 a9 a10 a11 a12 a13 a14 v.
End Session.

Module Message.
Record t := {
  next : ptr;
  session : ptr;
  application_data : ptr;
  reverse_path_mailbox : ptr;
  reverse_path_status : Status.t;
  message_status : Status.t;
  recipients : ptr;
  end_recipients : ptr;
  cb : fnptr;
  cb_arg : ptr;
  dsn_envid : ptr;
  dsn_ret : ret_flags;
  size_estimate : Z;
  by_time : Z;
  by_mode : by_mode;
  by_trace : Z;
  e8bitmime : e8bitmime_body
}.

Definition zero : t :=
  {| next := NULL; session := NULL; application_data := NULL;
     reverse_path_mailbox := NULL;
     reverse_path_status := Status.zero; message_status := Status.zero;
     recipients := NULL; end_recipients := NULL;
     cb := NULL; cb_arg := NULL;
     dsn_envid := NULL; dsn_ret := Ret_NOTSET; size_estimate := 0;
     by_time := 0; by_mode := By_NOTSET; by_trace := 0;
     e8bitmime := E8bitmime_NOTSET |}.

Definition set_next v (m : t) : t :=
  let 'Build_t _ a2 a3 a4 a5 a6 a7 a8 a9 a10 a11 a12 a13 a14 a15 a16 a17 := m in
  Build_t v a2 a3 a4 a5 a6 a7 a8 a9 a10 a11 a12 a13 a14 a15 a16 a17.
Definition set_session v (m : t) : t :=
  let 'Build_t a1 _ a3 a4 a5 a6 a7 a8 a9 a10 a11 a12 a13 a14 a15 a16 a17 := m in
  Build_t a1 v a3 a4 a5 a6 a7 a8 a9 a10 a11 a12 a13 a14 a15 a16 a17.
Definition set_application_data v (m : t) : t :=
  let 'Build_t a1 a2 _ a4 a5 a6 a7 a8 a9 a10 a11 a12 a13 a14 a15 a16 a17 := m in
  Build_t a1 a2 v a4 a5 a6 a7 a8 a9 a10 a11 a12 a13 a14 a15 a16 a17.
Definition set_reverse_path_mailbox v (m : t) : t :=
  let 'Build_t a1 a2 a3 _ a5 a6 a7 a8 a9 a10 a11 a12 a13 a14 a15 a16 a17 := m in
  Build_t a1 a2 a3 v a5 a6 a7 a8 a9 a10 a11 a12 a13 a14 a15 a16 a17.
Definition set_reverse_path_status v (m : t) : t :=
  let 'Build_t a1 a2 a3 a4 _ a6 a7 a8 a9 a10 a11 a12 a13 a14 a15 a16 a17 := m in
  Build_t a1 a2 a3 a4 v a6 a7 a8 a9 a10 a11 a12 a13 a14 a15 a16 a17.
Definition set_message_status v (m : t) : t :=
  let 'Build_t a1 a2 a3 a4 a5 _ a7 a8 a9 a10 a11 a12 a13 a14 a15 a16 a17 := m in
  Build_t a1 a2 a3 a4 a5 v a7 a8 a9 a10 a11 a12 a13 a14 a15 a16 a17.
Definition set_recipients v (m : t) : t :=
  let 'Build_t a1 a2 a3 a4 a5 a6 _ a8 a9 a10 a11 a12 a13 a14 a15 a16 a17 := m in
  Build_t a1 a2 a3 a4 a5 a6 v a8 a9 a10 a11 a12 a13 a14 a15 a16 a17.
Definition set_end_recipients v (m : t) : t :=
  let 'Build_t a1 a2 a3 a4 a5 a6 a7 _ a9 a10 a11 a12 a13 a14 a15 a16 a17 := m in
  Build_t a1 a2 a3 a4 a5 a6 a7 v a9 a10 a11 a12 a13 a14 a15 a16 a17.
Definition set_cb v (m : t) : t :=
  let 'Build_t a1 a2 a3 a4 a5 a6 a7 a8 _ a10 a11 a12 a13 a14 a15 a16 a17 := m in
  Build_t a1 a2 a3 a4 a5 a6 a7 a8 v a10 a11 a12 a13 a14 a15 a16 a17.
Definition set_cb_arg v (m : t) : t :=
  let 'Build_t a1 a2 a3 a4 a5 a6 a7 a8 a9 _ a11 a12 a13 a14 a15 a16 a17 := m in
  Build_t a1 a2 a3 a4 a5 a6 a7 a8 a9 v a11 a12 a13 a14 a15 a16 a17.
Definition set_dsn_envid v (m : t) : t :=
  let 'Build_t a1 a2 a3 a4 a5 a6 a7 a8 a9 a10 _ a12 a13 a14 a15 a16 a17 := m in
  Build_t a1 a2 a3 a4 a5 a6 a7 a8 a9 a10 v a12 a13 a14 a15 a16 a17.
Definition set_dsn_ret v (m : t) : t :=
  let 'Build_t a1 a2 a3 a4 a5 a6 a7 a8 a9 a10 a11 _ a13 a14 a15 a16 a17 := m in
  Build_t a1 a2 a3 a4 a5 a6 a7 a8 a9 a10 a11 v a13 a14 a15 a16 a17.
Definition set_size_estimate v (m : t) : t :=
  let 'Build_t a1 a2 a3 a4 a5 a6 a7 a8 a9 a10 a11 a12 _ a14 a15 a16 a17 := m in
  Build_t a1 a2 a3 a4 a5 a6 a7 a8 a9 a10 a11 a12 v a14 a15 a16 a17.
Definition set_by_time v (m : t) : t :=
  let 'Build_t a1 a2 a3 a4 a5 a6 a7 a8 a9 a10 a11 a12 a13 _ a15 a16 a17 := m in
  Build_t a1 a2 a3 a4 a5 a6 a7 a8 a9 a10 a11 a12 a13 v a15 a16 a17.
Definition set_by_mode v (m : t) : t :=
  let 'Build_t a1 a2 a3 a4 a5 a6 a7 a8 a9 a10 a11 a12 a13 a14 _ a16 a17 := m in
  Build_t a1 a2 a3 a4 a5 a6 a7 a8 a9 a10 a11 a12 a13 a14 v a16 a17.
Definition set_by_trace v (m : t) : t :=
  let 'Build_t a1 a2 a3 a4 a5 a6 a7 a8 a9 a10 a11 a12 a13 a14 a15 _ a17 := m in
  Build_t a1 a2 a3 a4 a5 a6 a7 a8 a9 a10 a11 a12 a13 a14 a15 v a17.
Definition set_e8bitmime v (m : t) : t :=
  let 'Build_t a1 a2 a3 a4 a5 a6 a7 a8 a9 a10 a11 a12 a13 a14 a15 a16 _ := m in
  Build_t a1 a2 a3 a4 a5 a6 a7 a8 a9 a10 a11 a12 a13 a14 a15 a16 v.
End Message.

Module Recipient.
Record t := {
  next : ptr;
  message : ptr;
  application_data : ptr;
  mailbox : ptr;
  status : Status.t;
  complete : Z;
  dsn_addrtype : ptr;
  dsn_orcpt : ptr;
  dsn_notify : notify_flags
}.

Definition zero : t :=
  {| next := NULL; message := NULL; application_data := NULL;
     mailbox := NULL; status := Status.zero; complete := 0;
     dsn_addrtype := NULL; dsn_orcpt := NULL; dsn_notify := Notify_NOTSET |}.

Definition set_next v (r : t) : t :=
  let 'Build_t _ a2 a3 a4 a5 a6 a7 a8 a9 := r in Build_t v a2 a3 a4 a5 a6 a7 a8 a9.
Definition set_message v (r : t) : t :=
  let 'Build_t a1 _ a3 a4 a5 a6 a7 a8 a9 := r in Build_t a1 v a3 a4 a5 a6 a7 a8 a9.
Definition set_application_data v (r : t) : t :=
  let 'Build_t a1 a2 _ a4 a5 a6 a7 a8 a9 := r in Build_t a1 a2 v a4 a5 a6 a7 a8 a9.
Definition set_mailbox v (r : t) : t :=
  let 'Build_t a1 a2 a3 _ a5 a6 a7 a8 a9 := r in Build_t a1 a2 a3 v a5 a6 a7 a8 a9.
Definition set_status v (r : t) : t :=
  let 'Build_t a1 a2 a3 a4 _ a6 a7 a8 a9 := r in Build_t a1 a2 a3 a4 v a6 a7 a8 a9.
Definition set_complete v (r : t) : t :=
  let 'Build_t a1 a2 a3 a4 a5 _ a7 a8 a9 := r in Build_t a1 a2 a3 a4 a5 v a7 a8 a9.
Definition set_dsn_addrtype v (r : t) : t :=
  let 'Build_t a1 a2 a3 a4 a5 a6 _ a8 a9 := r in Build_t a1 a2 a3 a4 a5 a6 v a8 a9.
Definition set_dsn_orcpt v (r : t) : t :=
  let 'Build_t a1 a2 a3 a4 a5 a6 a7 _ a9 := r in Build_t a1 a2 a3 a4 a5 a6 a7 v a9.
Definition set_dsn_notify v (r : t) : t :=
  let 'Build_t a1 a2 a3 a4 a5 a6 a7 a8 _ := r in Build_t a1 a2 a3 a4 a5 a6 a7 a8 v.
End Recipient.

(** ** The heap, the state and the monad *)

Inductive obj :=
| ORaw                          (* allocated, not yet initialised *)
| OString (buf : string)        (* a character buffer, terminator excluded *)
| OSession (s : Session.t)
| OMessage (m : Message.t)
| ORecipient (r : Recipient.t).

(** The two values smtp-api.c stores in the library's error variable:
    [set_error (SMTP_ERR_INVAL)] and [set_errno (ENOMEM)]. *)
Inductive api_error := SMTP_ERR_INVAL | ENOMEM.

(** Calls that leave smtp-api.c, in the order they are made. *)
Inductive event :=
| EvMessageCb (cb : fnptr) (message arg : ptr)
| EvRecipientCb (cb : fnptr) (recipient mailbox arg : ptr)
| EvDoSession (session : ptr)
| EvDestroyAuthMechanisms (session : ptr)
| EvDestroyEtrnNodes (session : ptr)
| EvMsgSourceDestroy (source : ptr)
| EvDestroyHeaderTable (message : ptr).

Record state := {
  heap : gmap N obj;
  smtp_errno : option api_error;
  trace : list event
}.

Definition with_heap (h : gmap N obj) (st : state) : state :=
  {| heap := h; smtp_errno := smtp_errno st; trace := trace st |}.
Definition with_errno (e : option api_error) (st : state) : state :=
  {| heap := heap st; smtp_errno := e; trace := trace st |}.
Definition with_trace (t : list event) (st : state) : state :=
  {| heap := heap st; smtp_errno := smtp_errno st; trace := t |}.

Inductive fault :=
| BadPointer (p : ptr)     (* access through a pointer to no live object of the type *)
| BadFree (p : ptr)        (* free of a pointer that is not allocated *)
| NullCall                 (* call through a null function pointer *)
| StrdupNull.              (* strdup of a null pointer *)

Inductive result (A : Type) :=
| Ok (a : A) (st : state)
| Fault (f : fault)
| OutOfFuel.
Arguments Ok {A} a st.
Arguments Fault {A} f.
Arguments OutOfFuel {A}.

Definition M (A : Type) := state -> result A.

Definition ret {A} (a : A) : M A := fun st => Ok a st.
Definition bind {A B} (m : M A) (k : A -> M B) : M B :=
  fun st => match m st with
            | Ok a st' => k a st'
            | Fault f => Fault f
            | OutOfFuel => OutOfFuel
            end.
Definition fail {A} (f : fault) : M A := fun _ => Fault f.

Notation "x <- m ;; k" := (bind m (fun x => k))
  (at level 90, m at next level, right associativity).
Notation "m ;;; k" := (bind m (fun _ => k))
  (at level 90, right associativity).

(** ** Primitive operations *)

Definition set_error (e : api_error) : M unit :=
  fun st => Ok tt (with_errno (Some e) st).
Definition set_errno (e : api_error) : M unit :=
  fun st => Ok tt (with_errno (Some e) st).

Definition log (e : event) : M unit :=
  fun st => Ok tt (with_trace (trace st ++ [e]) st).

(** [malloc a]: the allocator is asked for a block and answers [a].  A null
    answer, or an answer that is already in use (which no allocator gives),
    is an allocation failure. *)
Definition malloc (a : ptr) : M ptr := fun st =>
  if is_null a then Ok NULL st
  else match heap st !! a with
       | None => Ok a (with_heap (<[a := ORaw]> (heap st)) st)
       | Some _ => Ok NULL st
       end.

(** [free p]: nothing for a null pointer, undefined behaviour for a pointer
    that is not allocated. *)
Definition free (p : ptr) : M unit := fun st =>
  if is_null p then Ok tt st
  else match heap st !! p with
       | Some _ => Ok tt (with_heap (delete p (heap st)) st)
       | None => Fault (BadFree p)
       end.

(** A C string stops at its first NUL. *)
Fixpoint c_str (s : string) : string :=
  match s with
  | EmptyString => EmptyString
  | String c s' => if Ascii.eqb c Ascii.zero then EmptyString else String c (c_str s')
  end.

Fixpoint string_drop (n : nat) (s : string) : string :=
  match n, s with
  | O, _ => s
  | S n', EmptyString => EmptyString
  | S n', String _ s' => string_drop n' s'
  end.

Fixpoint string_take (n : nat) (s : string) : string :=
  match n, s with
  | O, _ => EmptyString
  | S n', EmptyString => EmptyString
  | S n', String c s' => String c (string_take n' s')
  end.

Fixpoint string_poke (n : nat) (c : ascii) (s : string) : string :=
  match s, n with
  | EmptyString, _ => EmptyString
  | String _ s', O => String c s'
  | String d s', S n' => String d (string_poke n' c s')
  end.

(** Index of the first occurrence of [c]. *)
Fixpoint strchr_index (c : ascii) (s : string) : option nat :=
  match s with
  | EmptyString => None
  | String d s' => if Ascii.eqb d c then Some O else S <$> strchr_index c s'
  end.

(** [strdup a s]: a copy of the C string [s] in a block the allocator answers
    with [a]; a null [s] is undefined behaviour. *)
Definition strdup (a : ptr) (s : option string) : M ptr := fun st =>
  match s with
  | None => Fault StrdupNull
  | Some str =>
      match malloc a st with
      | Ok p st' =>
          if is_null p then Ok NULL st'
          else Ok p (with_heap (<[p := OString (c_str str)]> (heap st')) st')
      | Fault f => Fault f
      | OutOfFuel => OutOfFuel
      end
  end.

Definition load_string (p : ptr) : M string := fun st =>
  match heap st !! p with
  | Some (OString b) => Ok b st
  | _ => Fault (BadPointer p)
  end.
Definition store_string (p : ptr) (b : string) : M unit := fun st =>
  match heap st !! p with
  | Some (OString _) => Ok tt (with_heap (<[p := OString b]> (heap st)) st)
  | _ => Fault (BadPointer p)
  end.

Definition load_session (p : ptr) : M Session.t := fun st =>
  match heap st !! p with
  | Some (OSession s) => Ok s st
  | _ => Fault (BadPointer p)
  end.
Definition load_message (p : ptr) : M Message.t := fun st =>
  match heap st !! p with
  | Some (OMessage m) => Ok m st
  | _ => Fault (BadPointer p)
  end.
Definition load_recipient (p : ptr) : M Recipient.t := fun st =>
  match heap st !! p with
  | Some (ORecipient r) => Ok r st
  | _ => Fault (BadPointer p)
  end.

(** [p->field = v] is [update_session p (Session.set_field v)], and likewise
    for the other two structures. *)
Definition update_session (p : ptr) (f : Session.t -> Session.t) : M unit := fun st =>
  match heap st !! p with
  | Some (OSession s) => Ok tt (with_heap (<[p := OSession (f s)]> (heap st)) st)
  | _ => Fault (BadPointer p)
  end.
Definition update_message (p : ptr) (f : Message.t -> Message.t) : M unit := fun st =>
  match heap st !! p with
  | Some (OMessage m) => Ok tt (with_heap (<[p := OMessage (f m)]> (heap st)) st)
  | _ => Fault (BadPointer p)
  end.
Definition update_recipient (p : ptr) (f : Recipient.t -> Recipient.t) : M unit := fun st =>
  match heap st !! p with
  | Some (ORecipient r) => Ok tt (with_heap (<[p := ORecipient (f r)]> (heap st)) st)
  | _ => Fault (BadPointer p)
  end.

(** [memset (p, 0, sizeof *p)] on a freshly allocated structure. *)
Definition memset_zero (p : ptr) (zero : obj) : M unit := fun st =>
  match heap st !! p with
  | Some _ => Ok tt (with_heap (<[p := zero]> (heap st)) st)
  | None => Fault (BadPointer p)
  end.

(** Modelled from the spec: the macro [SMTPAPI_CHECK_ARGS (test, ret)] is
    defined in api.h, which is not part of the sources at hand.  A failed
    test reports InvalidArgument and returns [ret] at once. *)
Definition SMTPAPI_CHECK_ARGS {A} (test : bool) (r : A) (k : M A) : M A :=
  if test then k else set_error SMTP_ERR_INVAL ;;; ret r.

(** Modelled from the spec: [reset_status] belongs to the protocol engine,
    which is not part of the sources at hand.  It releases the outcome text
    and leaves the record at its unset value (zero code, no text). *)
Definition reset_status (s : Status.t) : M Status.t :=
  free (Status.text s) ;;; ret Status.zero.

(** The address of a status member, as the status accessors return it. *)
Inductive status_ref :=
| StatusNull
| MessageStatusOf (message : ptr)
| ReversePathStatusOf (message : ptr)
| RecipientStatusOf (recipient : ptr).

Definition isdigit (c : ascii) : bool :=
  let n := nat_of_ascii c in (Nat.leb 48 n && Nat.leb n 57)%bool.

Definition first_char (s : string) : ascii :=
  match s with EmptyString => Ascii.zero | String c _ => c end.

(** The integer types are those of the LP64 targets: [long] has 64 bits
    and [int] has 32. *)
Definition LONG_MAX : Z := 2 ^ 63 - 1.
Definition INT_MIN : Z := - 2 ^ 31.
Definition INT_MAX : Z := 2 ^ 31 - 1.

(** The conversion of a [long] to [int] that an assignment to an [int]
    member makes: the value is reduced modulo 2^32 into the range of
    [int]. *)
Definition int_of_long (z : Z) : Z := (z + 2 ^ 31) mod 2 ^ 32 - 2 ^ 31.

(** [strtol (s, NULL, 10)] on a string that starts with a digit: the value
    of the leading digits, LONG_MAX when it does not fit. *)
Fixpoint strtol_digits (acc : Z) (s : string) : Z :=
  match s with
  | EmptyString => acc
  | String c s' =>
      if isdigit c then strtol_digits (acc * 10 + (Z.of_nat (nat_of_ascii c) - 48)) s'
      else acc
  end.
Definition strtol (s : string) : Z := Z.min (strtol_digits 0 s) LONG_MAX.

(** ** The public operations of smtp-api.c *)

Section Api.

(** The build configuration. *)
Variable cfg : config.

(** The extension bits [EXT_DSN] and [EXT_8BITMIME] are constants of
    libesmtp-private.h. *)
Variable EXT_DSN : Z.
Variable EXT_8BITMIME : Z.

(** The protocol engine behind [do_session]: from the session and the
    state to the engine's result and the state it leaves. *)
Variable engine : ptr -> state -> Z * state.

(** The service database: [getservbyname (name, proto)] gives the entry's
    [s_port], and [ntohs] converts it to host byte order. *)
Variable getservbyname : string -> string -> option Z.
Variable ntohs : Z -> Z.

Definition do_session (session : ptr) : M Z := fun st =>
  let st1 := with_trace (trace st ++ [EvDoSession session]) st in
  let '(r, st2) := engine session st1 in Ok r st2.

Definition smtp_create_session (a : ptr) : M ptr :=
  session <- malloc a ;;
  if is_null session then set_errno ENOMEM ;;; ret NULL
  else
    memset_zero session (OSession (Session.zero cfg)) ;;;
    ret session.

(** [a] is the allocator's answer to the strdup of [hostport]. *)
Definition smtp_set_server (a : ptr) (session : ptr) (hostport : option string) : M Z :=
  SMTPAPI_CHECK_ARGS (negb (is_null session) && bool_decide (is_Some hostport)) 0 (
    host <- strdup a hostport ;;
    if is_null host then set_errno ENOMEM ;;; ret 0
    else
      buf <- load_string host ;;
      let service := strchr_index ":" buf in
      match service with
      | Some i => store_string host (string_poke i Ascii.zero buf)
      | None => ret tt
      end ;;;
      if HAVE_GETADDRINFO cfg then
        match service with
        | None => update_session session (Session.set_port (PortLiteral "587"))
        | Some i => update_session session (Session.set_port (PortInHost host (S i)))
        end ;;;
        update_session session (Session.set_host host) ;;;
        ret 1
      else
        match service with
        | None =>
            update_session session (Session.set_port (PortInt 587)) ;;;
            update_session session (Session.set_host host) ;;;
            ret 1
        | Some i =>
            buf' <- load_string host ;;
            let svc := c_str (string_drop (S i) buf') in
            if isdigit (first_char svc) then
              update_session session
                (Session.set_port (PortInt (int_of_long (strtol svc)))) ;;;
              update_session session (Session.set_host host) ;;;
              ret 1
            else
              match getservbyname svc "tcp" with
              | Some s_port =>
                  update_session session (Session.set_port (PortInt (ntohs s_port))) ;;;
                  update_session session (Session.set_host host) ;;;
                  ret 1
              | None =>
                  set_error SMTP_ERR_INVAL ;;;
                  free host ;;;
                  ret 0
              end
        end).

Definition smtp_set_hostname (a : ptr) (session : ptr) (hostname : option string) : M Z :=
  SMTPAPI_CHECK_ARGS
    (if HAVE_GETHOSTNAME cfg then negb (is_null session)
     else negb (is_null session) && bool_decide (is_Some hostname)) 0 (
    s <- load_session session ;;
    (if negb (is_null (Session.localhost s)) then free (Session.localhost s) else ret tt) ;;;
    if HAVE_GETHOSTNAME cfg && negb (bool_decide (is_Some hostname)) then
      update_session session (Session.set_localhost NULL) ;;;
      ret 1
    else
      p <- strdup a hostname ;;
      update_session session (Session.set_localhost p) ;;;
      if is_null p then set_errno ENOMEM ;;; ret 0
      else ret 1).

(** Modelled from the spec: the macro [APPEND_LIST (start, end, item)] is
    defined in libesmtp-private.h, which is not part of the sources at
    hand.  It appends [item] to the list kept by its first and last link. *)
Definition APPEND_LIST_messages (session item : ptr) : M unit :=
  s <- load_session session ;;
  (if is_null (Session.messages s)
   then update_session session (Session.set_messages item)
   else update_message (Session.end_messages s) (Message.set_next item)) ;;;
  update_session session (Session.set_end_messages item) ;;;
  update_message item (Message.set_next NULL).

Definition APPEND_LIST_recipients (message item : ptr) : M unit :=
  m <- load_message message ;;
  (if is_null (Message.recipients m)
   then update_message message (Message.set_recipients item)
   else update_recipient (Message.end_recipients m) (Recipient.set_next item)) ;;;
  update_message message (Message.set_end_recipients item) ;;;
  update_recipient item (Recipient.set_next NULL).

Definition smtp_add_message (a : ptr) (session : ptr) : M ptr :=
  SMTPAPI_CHECK_ARGS (negb (is_null session)) NULL (
    message <- malloc a ;;
    if is_null message then set_errno ENOMEM ;;; ret NULL
    else
      memset_zero message (OMessage Message.zero) ;;;
      update_message message (Message.set_session session) ;;;
      APPEND_LIST_messages session message ;;;
      ret message).

(** Calling a visitor: a call through a null function pointer is undefined
    behaviour; a visitor reads the entity it is given and returns. *)
Definition call_messagecb (cb : fnptr) (message arg : ptr) : M unit :=
  if is_null cb then fail NullCall else log (EvMessageCb cb message arg).
Definition call_recipientcb (cb : fnptr) (recipient mailbox arg : ptr) : M unit :=
  if is_null cb then fail NullCall else log (EvRecipientCb cb recipient mailbox arg).

Fixpoint enumerate_messages_loop (fuel : nat) (message : ptr) (cb : fnptr) (arg : ptr)
  : M unit :=
  match fuel with
  | O => fun _ => OutOfFuel
  | S fuel' =>
      if is_null message then ret tt
      else
        call_messagecb cb message arg ;;;
        m <- load_message message ;;
        enumerate_messages_loop fuel' (Message.next m) cb arg
  end.

Definition smtp_enumerate_messages (fuel : nat) (session : ptr) (cb : fnptr) (arg : ptr)
  : M Z :=
  SMTPAPI_CHECK_ARGS (negb (is_null session) && negb (is_null cb)) 0 (
    s <- load_session session ;;
    enumerate_messages_loop fuel (Session.messages s) cb arg ;;;
    ret 1).

Definition smtp_message_transfer_status (message : ptr) : M status_ref :=
  SMTPAPI_CHECK_ARGS (negb (is_null message)) StatusNull (
    ret (MessageStatusOf message)).

Definition smtp_set_reverse_path (a : ptr) (message : ptr) (mailbox : option string)
  : M Z :=
  SMTPAPI_CHECK_ARGS (negb (is_null message)) 0 (
    m <- load_message message ;;
    (if negb (is_null (Message.reverse_path_mailbox m))
     then free (Message.reverse_path_mailbox m) else ret tt) ;;;
    match mailbox with
    | None =>
        update_message message (Message.set_reverse_path_mailbox NULL) ;;;
        ret 1
    | Some _ =>
        p <- strdup a mailbox ;;
        update_message message (Message.set_reverse_path_mailbox p) ;;;
        if is_null p then set_errno ENOMEM ;;; ret 0
        else ret 1
    end).

Definition smtp_reverse_path_status (message : ptr) : M status_ref :=
  SMTPAPI_CHECK_ARGS (negb (is_null message)) StatusNull (
    ret (ReversePathStatusOf message)).

Definition smtp_message_reset_status (message : ptr) : M Z :=
  SMTPAPI_CHECK_ARGS (negb (is_null message)) 0 (
    m <- load_message message ;;
    s1 <- reset_status (Message.reverse_path_status m) ;;
    update_message message (Message.set_reverse_path_status s1) ;;;
    m' <- load_message message ;;
    s2 <- reset_status (Message.message_status m') ;;
    update_message message (Message.set_message_status s2) ;;;
    ret 1).

(** [a1] answers the malloc of the recipient, [a2] the strdup of the
    mailbox. *)
Definition smtp_add_recipient (a1 a2 : ptr) (message : ptr) (mailbox : option string)
  : M ptr :=
  SMTPAPI_CHECK_ARGS (negb (is_null message) && bool_decide (is_Some mailbox)) NULL (
    recipient <- malloc a1 ;;
    if is_null recipient then set_errno ENOMEM ;;; ret NULL
    else
      memset_zero recipient (ORecipient Recipient.zero) ;;;
      update_recipient recipient (Recipient.set_message message) ;;;
      p <- strdup a2 mailbox ;;
      update_recipient recipient (Recipient.set_mailbox p) ;;;
      r <- load_recipient recipient ;;
      if is_null (Recipient.mailbox r) then
        free recipient ;;;
        set_errno ENOMEM ;;;
        ret NULL
      else
        APPEND_LIST_recipients message recipient ;;;
        ret recipient).

Fixpoint enumerate_recipients_loop (fuel : nat) (recipient : ptr) (cb : fnptr) (arg : ptr)
  : M unit :=
  match fuel with
  | O => fun _ => OutOfFuel
  | S fuel' =>
      if is_null recipient then ret tt
      else
        r <- load_recipient recipient ;;
        call_recipientcb cb recipient (Recipient.mailbox r) arg ;;;
        r' <- load_recipient recipient ;;
        enumerate_recipients_loop fuel' (Recipient.next r') cb arg
  end.

Definition smtp_enumerate_recipients (fuel : nat) (message : ptr) (cb : fnptr) (arg : ptr)
  : M Z :=
  SMTPAPI_CHECK_ARGS (negb (is_null message)) 0 (
    m <- load_message message ;;
    enumerate_recipients_loop fuel (Message.recipients m) cb arg ;;;
    ret 1).

Definition smtp_recipient_status (recipient : ptr) : M status_ref :=
  SMTPAPI_CHECK_ARGS (negb (is_null recipient)) StatusNull (
    ret (RecipientStatusOf recipient)).

Definition smtp_recipient_check_complete (recipient : ptr) : M Z :=
  SMTPAPI_CHECK_ARGS (negb (is_null recipient)) 0 (
    r <- load_recipient recipient ;;
    ret (Recipient.complete r)).

Definition smtp_recipient_reset_status (recipient : ptr) : M Z :=
  SMTPAPI_CHECK_ARGS (negb (is_null recipient)) 0 (
    r <- load_recipient recipient ;;
    s <- reset_status (Recipient.status r) ;;
    update_recipient recipient (Recipient.set_status s) ;;;
    update_recipient recipient (Recipient.set_complete 0) ;;;
    ret 1).

(** [p->session->required_extensions |= bits] *)
Definition require_extension (session : ptr) (bits : Z) : M unit :=
  update_session session
    (fun s => Session.set_required_extensions
                (Z.lor (Session.required_extensions s) bits) s).

(** DSN (RFC 1891) *)
Definition smtp_dsn_set_ret (message : ptr) (flags : ret_flags) : M Z :=
  SMTPAPI_CHECK_ARGS (negb (is_null message)) 0 (
    update_message message (Message.set_dsn_ret flags) ;;;
    (if bool_decide (flags <> Ret_NOTSET) then
       m <- load_message message ;;
       require_extension (Message.session m) EXT_DSN
     else ret tt) ;;;
    ret 1).

Definition smtp_dsn_set_envid (a : ptr) (message : ptr) (envid : option string) : M Z :=
  SMTPAPI_CHECK_ARGS (negb (is_null message)) 0 (
    p <- strdup a envid ;;
    update_message message (Message.set_dsn_envid p) ;;;
    m <- load_message message ;;
    if is_null (Message.dsn_envid m) then set_errno ENOMEM ;;; ret 0
    else
      require_extension (Message.session m) EXT_DSN ;;;
      ret 1).

Definition smtp_dsn_set_notify (recipient : ptr) (flags : notify_flags) : M Z :=
  SMTPAPI_CHECK_ARGS (negb (is_null recipient)) 0 (
    update_recipient recipient (Recipient.set_dsn_notify flags) ;;;
    (if negb (flags =? Notify_NOTSET) then
       r <- load_recipient recipient ;;
       m <- load_message (Recipient.message r) ;;
       require_extension (Message.session m) EXT_DSN
     else ret tt) ;;;
    ret 1).

(** [a1] answers the strdup of the address type, [a2] that of the
    address. *)
Definition smtp_dsn_set_orcpt (a1 a2 : ptr) (recipient : ptr)
    (address_type address : option string) : M Z :=
  SMTPAPI_CHECK_ARGS (negb (is_null recipient)) 0 (
    p1 <- strdup a1 address_type ;;
    update_recipient recipient (Recipient.set_dsn_addrtype p1) ;;;
    r <- load_recipient recipient ;;
    if is_null (Recipient.dsn_addrtype r) then set_errno ENOMEM ;;; ret 0
    else
      p2 <- strdup a2 address ;;
      update_recipient recipient (Recipient.set_dsn_orcpt p2) ;;;
      r' <- load_recipient recipient ;;
      if is_null (Recipient.dsn_orcpt r') then
        free (Recipient.dsn_addrtype r') ;;;
        set_errno ENOMEM ;;;
        ret 0
      else
        m <- load_message (Recipient.message r') ;;
        require_extension (Message.session m) EXT_DSN ;;;
        ret 1).

(** SIZE (RFC 1870) *)
Definition smtp_size_set_estimate (message : ptr) (size : Z) : M Z :=
  SMTPAPI_CHECK_ARGS (negb (is_null message)) 0 (
    update_message message (Message.set_size_estimate size) ;;;
    ret 1).

(** 8BITMIME (RFC 1652) *)
Definition smtp_8bitmime_set_body (message : ptr) (body : e8bitmime_body) : M Z :=
  SMTPAPI_CHECK_ARGS (negb (is_null message)) 0 (
    update_message message (Message.set_e8bitmime body) ;;;
    (if bool_decide (body <> E8bitmime_NOTSET) then
       m <- load_message message ;;
       require_extension (Message.session m) EXT_8BITMIME
     else ret tt) ;;;
    ret 1).

(** DELIVERBY (RFC 2852) *)
Definition smtp_deliverby_set_mode (message : ptr) (time : Z) (mode : by_mode)
    (trace : Z) : M Z :=
  SMTPAPI_CHECK_ARGS (negb (is_null message)) 0 (
  SMTPAPI_CHECK_ARGS ((-999999999 <=? time) && (time <=? 999999999)) 0 (
  SMTPAPI_CHECK_ARGS (negb (bool_decide (mode = By_RETURN) && (time <=? 0))) 0 (
    update_message message (Message.set_by_time time) ;;;
    update_message message (Message.set_by_mode mode) ;;;
    update_message message
      (Message.set_by_trace (if trace =? 0 then 0 else 1)) ;;;
    ret 1))).

Definition smtp_set_messagecb (message : ptr) (cb : fnptr) (arg : ptr) : M Z :=
  SMTPAPI_CHECK_ARGS (negb (is_null message) && negb (is_null cb)) 0 (
    update_message message (Message.set_cb cb) ;;;
    update_message message (Message.set_cb_arg arg) ;;;
    ret 1).

Definition smtp_set_eventcb (session : ptr) (cb : fnptr) (arg : ptr) : M Z :=
  SMTPAPI_CHECK_ARGS (negb (is_null session)) 0 (
    update_session session (Session.set_event_cb cb) ;;;
    update_session session (Session.set_event_cb_arg arg) ;;;
    ret 1).

Definition smtp_set_monitorcb (session : ptr) (cb : fnptr) (arg : ptr) (headers : Z)
  : M Z :=
  SMTPAPI_CHECK_ARGS (negb (is_null session)) 0 (
    update_session session (Session.set_monitor_cb cb) ;;;
    update_session session (Session.set_monitor_cb_arg arg) ;;;
    update_session session (Session.set_monitor_cb_headers headers) ;;;
    ret 1).

(** The loop of [smtp_start_session]: is there a message without a
    callback? *)
Fixpoint start_session_loop (fuel : nat) (message : ptr) : M bool :=
  match fuel with
  | O => fun _ => OutOfFuel
  | S fuel' =>
      if is_null message then ret true
      else
        m <- load_message message ;;
        if is_null (Message.cb m) then ret false
        else start_session_loop fuel' (Message.next m)
  end.

Definition smtp_start_session (fuel : nat) (session : ptr) : M Z :=
  test <- (if is_null session then ret false
           else s <- load_session session ;;
                ret (negb (is_null (Session.host s)))) ;;
  SMTPAPI_CHECK_ARGS test 0 (
    test' <- (if HAVE_GETHOSTNAME cfg then ret true
              else s <- load_session session ;;
                   ret (negb (is_null (Session.localhost s)))) ;;
    SMTPAPI_CHECK_ARGS test' 0 (
      s <- load_session session ;;
      all_set <- start_session_loop fuel (Session.messages s) ;;
      if all_set then do_session session
      else set_error SMTP_ERR_INVAL ;;; ret 0)).

(** The teardown hooks of the engine and of the header and message-source
    modules own nothing that smtp-api.c allocates; the calls are logged. *)
Definition destroy_auth_mechanisms (session : ptr) : M unit :=
  log (EvDestroyAuthMechanisms session).
Definition destroy_etrn_nodes (session : ptr) : M unit :=
  log (EvDestroyEtrnNodes session).
Definition msg_source_destroy (source : ptr) : M unit :=
  log (EvMsgSourceDestroy source).
Definition destroy_header_table (message : ptr) : M unit :=
  log (EvDestroyHeaderTable message).

(** [session->messages] and [session->messages->recipients], read anew at
    every use as the source does. *)
Definition first_message (session : ptr) : M ptr :=
  s <- load_session session ;; ret (Session.messages s).
Definition first_recipient (session : ptr) : M ptr :=
  message <- first_message session ;;
  m <- load_message message ;; ret (Message.recipients m).

(** The inner loop of [smtp_destroy_session]. *)
Fixpoint destroy_recipients_loop (fuel : nat) (session : ptr) : M unit :=
  match fuel with
  | O => fun _ => OutOfFuel
  | S fuel' =>
      cur <- first_recipient session ;;
      if is_null cur then ret tt
      else
        r0 <- load_recipient cur ;;
        let recipient := Recipient.next r0 in
        cur1 <- first_recipient session ;;
        r1 <- load_recipient cur1 ;;
        s1 <- reset_status (Recipient.status r1) ;;
        update_recipient cur1 (Recipient.set_status s1) ;;;
        cur2 <- first_recipient session ;;
        r2 <- load_recipient cur2 ;;
        free (Recipient.mailbox r2) ;;;
        cur3 <- first_recipient session ;;
        r3 <- load_recipient cur3 ;;
        (if negb (is_null (Recipient.dsn_addrtype r3))
         then free (Recipient.dsn_addrtype r3) else ret tt) ;;;
        cur4 <- first_recipient session ;;
        r4 <- load_recipient cur4 ;;
        (if negb (is_null (Recipient.dsn_orcpt r4))
         then free (Recipient.dsn_orcpt r4) else ret tt) ;;;
        cur5 <- first_recipient session ;;
        free cur5 ;;;
        message <- first_message session ;;
        update_message message (Message.set_recipients recipient) ;;;
        destroy_recipients_loop fuel' session
  end.

(** The outer loop of [smtp_destroy_session]. *)
Fixpoint destroy_messages_loop (fuel_r fuel : nat) (session : ptr) : M unit :=
  match fuel with
  | O => fun _ => OutOfFuel
  | S fuel' =>
      cur <- first_message session ;;
      if is_null cur then ret tt
      else
        m0 <- load_message cur ;;
        let message := Message.next m0 in
        cur1 <- first_message session ;;
        m1 <- load_message cur1 ;;
        s1 <- reset_status (Message.reverse_path_status m1) ;;
        update_message cur1 (Message.set_reverse_path_status s1) ;;;
        cur2 <- first_message session ;;
        m2 <- load_message cur2 ;;
        free (Message.reverse_path_mailbox m2) ;;;
        destroy_recipients_loop fuel_r session ;;;
        cur3 <- first_message session ;;
        destroy_header_table cur3 ;;;
        cur4 <- first_message session ;;
        m4 <- load_message cur4 ;;
        (if negb (is_null (Message.dsn_envid m4))
         then free (Message.dsn_envid m4) else ret tt) ;;;
        cur5 <- first_message session ;;
        free cur5 ;;;
        update_session session (Session.set_messages message) ;;;
        destroy_messages_loop fuel_r fuel' session
  end.

Definition smtp_destroy_session (fuel : nat) (session : ptr) : M Z :=
  SMTPAPI_CHECK_ARGS (negb (is_null session)) 0 (
    s <- load_session session ;;
    st <- reset_status (Session.mta_status s) ;;
    update_session session (Session.set_mta_status st) ;;;
    destroy_auth_mechanisms session ;;;
    (if USE_ETRN cfg then destroy_etrn_nodes session else ret tt) ;;;
    s1 <- load_session session ;;
    (if negb (is_null (Session.host s1)) then free (Session.host s1) else ret tt) ;;;
    s2 <- load_session session ;;
    (if negb (is_null (Session.localhost s2))
     then free (Session.localhost s2) else ret tt) ;;;
    s3 <- load_session session ;;
    (if negb (is_null (Session.msg_source s3))
     then msg_source_destroy (Session.msg_source s3) else ret tt) ;;;
    destroy_messages_loop fuel fuel session ;;;
    free session ;;;
    ret 1).

Definition smtp_set_application_data (session : ptr) (data : ptr) : M ptr :=
  SMTPAPI_CHECK_ARGS (negb (is_null session)) NULL (
    s <- load_session session ;;
    let old := Session.application_data s in
    update_session session (Session.set_application_data data) ;;;
    ret old).

Definition smtp_get_application_data (session : ptr) : M ptr :=
  SMTPAPI_CHECK_ARGS (negb (is_null session)) NULL (
    s <- load_session session ;;
    ret (Session.application_data s)).

Definition smtp_message_set_application_data (message : ptr) (data : ptr) : M ptr :=
  SMTPAPI_CHECK_ARGS (negb (is_null message)) NULL (
    m <- load_message message ;;
    let old := Message.application_data m in
    update_message message (Message.set_application_data data) ;;;
    ret old).

Definition smtp_message_get_application_data (message : ptr) : M ptr :=
  SMTPAPI_CHECK_ARGS (negb (is_null message)) NULL (
    m <- load_message message ;;
    ret (Message.application_data m)).

Definition smtp_recipient_set_application_data (recipient : ptr) (data : ptr) : M ptr :=
  SMTPAPI_CHECK_ARGS (negb (is_null recipient)) NULL (
    r <- load_recipient recipient ;;
    let old := Recipient.application_data r in
    update_recipient recipient (Recipient.set_application_data data) ;;;
    ret old).

Definition smtp_recipient_get_application_data (recipient : ptr) : M ptr :=
  SMTPAPI_CHECK_ARGS (negb (is_null recipient)) NULL (
    r <- load_recipient recipient ;;
    ret (Recipient.application_data r)).

(** Deprecated; compiled only with USE_REQUIRE_ALL_RECIPIENTS. *)
Definition smtp_option_require_all_recipients (session : ptr) (state_ : Z) : M Z :=
  SMTPAPI_CHECK_ARGS (negb (is_null session)) 0 (
    update_session session
      (Session.set_require_all_recipients (if state_ =? 0 then 0 else 1)) ;;;
    ret 1).

End Api.

(** ** Linked lists on the heap *)

(** [msg_chain h p l]: starting at [p] and following [next], the messages
    met are exactly [l], in this order, and the last link is null. *)
Fixpoint msg_chain (h : gmap N obj) (p : ptr) (l : list ptr) : Prop :=
  match l with
  | [] => p = NULL
  | q :: l' =>
      p = q /\ q <> NULL /\
      exists m, h !! q = Some (OMessage m) /\ msg_chain h (Message.next m) l'
  end.

Fixpoint rcpt_chain (h : gmap N obj) (p : ptr) (l : list ptr) : Prop :=
  match l with
  | [] => p = NULL
  | q :: l' =>
      p = q /\ q <> NULL /\
      exists r, h !! q = Some (ORecipient r) /\ rcpt_chain h (Recipient.next r) l'
  end.

(** The mailbox pointer stored in the recipient at [q]. *)
Definition mailbox_of (h : gmap N obj) (q : ptr) : ptr :=
  match h !! q with
  | Some (ORecipient r) => Recipient.mailbox r
  | _ => NULL
  end.

(** The transfer callback stored in the message at [q]. *)
Definition cb_of (h : gmap N obj) (q : ptr) : fnptr :=
  match h !! q with
  | Some (OMessage m) => Message.cb m
  | _ => NULL
  end.

(** ** Building a session graph: the creation log *)

(** The entities created so far: the messages in the order [smtp_add_message]
    returned them, each with its recipients in the order
    [smtp_add_recipient] returned them. *)
Abbreviation creation_log := (list (ptr * list ptr)).

(** One construction call.  A recipient is added to the [k]-th message
    created so far (to the null message when there is none); the remaining
    arguments are the mailbox and the allocator's answers. *)
Inductive build_call :=
| AddMessage (a : ptr)
| AddRecipient (k : nat) (mailbox : option string) (a1 a2 : ptr).

Definition nth_message (g : creation_log) (k : nat) : ptr :=
  match g !! k with
  | Some (q, _) => q
  | None => NULL
  end.

Definition log_recipient (r : ptr) (e : ptr * list ptr) : ptr * list ptr :=
  (fst e, snd e ++ [r]).

Definition run_build_call (session : ptr) (c : build_call) (g : creation_log)
  : M creation_log :=
  match c with
  | AddMessage a =>
      message <- smtp_add_message a session ;;
      ret (if is_null message then g else g ++ [(message, [])])
  | AddRecipient k mailbox a1 a2 =>
      recipient <- smtp_add_recipient a1 a2 (nth_message g k) mailbox ;;
      ret (if is_null recipient then g else alter (log_recipient recipient) k g)
  end.

Fixpoint run_build (session : ptr) (script : list build_call) (g : creation_log)
  : M creation_log :=
  match script with
  | [] => ret g
  | c :: script' =>
      g' <- run_build_call session c g ;;
      run_build session script' g'
  end.

(** The heap holds the graph that the creation log describes: the session's
    list links the logged messages in order, each message's list links its
    logged recipients in order, the last-link members point to the last
    entries, and no entity is logged twice. *)
Definition graph_inv (h : gmap N obj) (session : ptr) (g : creation_log) : Prop :=
  session <> NULL /\
  exists s, h !! session = Some (OSession s)
    /\ msg_chain h (Session.messages s) (g.*1)
    /\ (forall e, last (g.*1) = Some e -> Session.end_messages s = e)
    /\ NoDup (g.*1)
    /\ (forall i q rl, g !! i = Some (q, rl) ->
          NoDup rl /\
          exists m, h !! q = Some (OMessage m)
            /\ rcpt_chain h (Message.recipients m) rl
            /\ (forall x, last rl = Some x -> Message.end_recipients m = x))
    /\ (forall i j q1 rl1 q2 rl2 x,
          g !! i = Some (q1, rl1) -> g !! j = Some (q2, rl2) ->
          x ∈ rl1 -> x ∈ rl2 -> i = j).

(** The visitor calls a traversal is expected to make. *)
Definition message_visits (cb : fnptr) (arg : ptr) (l : list ptr) : list event :=
  map (fun q => EvMessageCb cb q arg) l.
Definition recipient_visits (h : gmap N obj) (cb : fnptr) (arg : ptr) (l : list ptr)
  : list event :=
  map (fun q => EvRecipientCb cb q (mailbox_of h q) arg) l.

(** ** The public operations as one type of calls *)

Inductive api_call :=
| Call_create_session (a : ptr)
| Call_set_server (a : ptr) (session : ptr) (hostport : option string)
| Call_set_hostname (a : ptr) (session : ptr) (hostname : option string)
| Call_add_message (a : ptr) (session : ptr)
| Call_enumerate_messages (fuel : nat) (session : ptr) (cb : fnptr) (arg : ptr)
| Call_message_transfer_status (message : ptr)
| Call_set_reverse_path (a : ptr) (message : ptr) (mailbox : option string)
| Call_reverse_path_status (message : ptr)
| Call_message_reset_status (message : ptr)
| Call_add_recipient (a1 a2 : ptr) (message : ptr) (mailbox : option string)
| Call_enumerate_recipients (fuel : nat) (message : ptr) (cb : fnptr) (arg : ptr)
| Call_recipient_status (recipient : ptr)
| Call_recipient_check_complete (recipient : ptr)
| Call_recipient_reset_status (recipient : ptr)
| Call_dsn_set_ret (message : ptr) (flags : ret_flags)
| Call_dsn_set_envid (a : ptr) (message : ptr) (envid : option string)
| Call_dsn_set_notify (recipient : ptr) (flags : notify_flags)
| Call_dsn_set_orcpt (a1 a2 : ptr) (recipient : ptr) (address_type address : option string)
| Call_size_set_estimate (message : ptr) (size : Z)
| Call_8bitmime_set_body (message : ptr) (body : e8bitmime_body)
| Call_deliverby_set_mode (message : ptr) (time : Z) (mode : by_mode) (trace : Z)
| Call_set_messagecb (message : ptr) (cb : fnptr) (arg : ptr)
| Call_set_eventcb (session : ptr) (cb : fnptr) (arg : ptr)
| Call_set_monitorcb (session : ptr) (cb : fnptr) (arg : ptr) (headers : Z)
| Call_start_session (fuel : nat) (session : ptr)
| Call_destroy_session (fuel : nat) (session : ptr)
| Call_set_application_data (session : ptr) (data : ptr)
| Call_get_application_data (session : ptr)
| Call_message_set_application_data (message : ptr) (data : ptr)
| Call_message_get_application_data (message : ptr)
| Call_recipient_set_application_data (recipient : ptr) (data : ptr)
| Call_recipient_get_application_data (recipient : ptr)
| Call_option_require_all_recipients (session : ptr) (state_ : Z).

Inductive retval :=
| RInt (z : Z)
| RPtr (p : ptr)
| RStatus (r : status_ref).

Definition returning {A} (f : A -> retval) (m : M A) : M retval :=
  x <- m ;; ret (f x).

Section Calls.
Variable cfg : config.
Variable EXT_DSN EXT_8BITMIME : Z.
Variable engine : ptr -> state -> Z * state.
Variable getservbyname : string -> string -> option Z.
Variable ntohs : Z -> Z.

Definition run_call (c : api_call) : M retval :=
  match c with
  | Call_create_session a => returning RPtr (smtp_create_session cfg a)
  | Call_set_server a s hp =>
      returning RInt (smtp_set_server cfg getservbyname ntohs a s hp)
  | Call_set_hostname a s hn => returning RInt (smtp_set_hostname cfg a s hn)
  | Call_add_message a s => returning RPtr (smtp_add_message a s)
  | Call_enumerate_messages fuel s cb arg =>
      returning RInt (smtp_enumerate_messages fuel s cb arg)
  | Call_message_transfer_status m => returning RStatus (smtp_message_transfer_status m)
  | Call_set_reverse_path a m mb => returning RInt (smtp_set_reverse_path a m mb)
  | Call_reverse_path_status m => returning RStatus (smtp_reverse_path_status m)
  | Call_message_reset_status m => returning RInt (smtp_message_reset_status m)
  | Call_add_recipient a1 a2 m mb => returning RPtr (smtp_add_recipient a1 a2 m mb)
  | Call_enumerate_recipients fuel m cb arg =>
      returning RInt (smtp_enumerate_recipients fuel m cb arg)
  | Call_recipient_status r => returning RStatus (smtp_recipient_status r)
  | Call_recipient_check_complete r => returning RInt (smtp_recipient_check_complete r)
  | Call_recipient_reset_status r => returning RInt (smtp_recipient_reset_status r)
  | Call_dsn_set_ret m flags => returning RInt (smtp_dsn_set_ret EXT_DSN m flags)
  | Call_dsn_set_envid a m envid => returning RInt (smtp_dsn_set_envid EXT_DSN a m envid)
  | Call_dsn_set_notify r flags => returning RInt (smtp_dsn_set_notify EXT_DSN r flags)
  | Call_dsn_set_orcpt a1 a2 r t addr =>
      returning RInt (smtp_dsn_set_orcpt EXT_DSN a1 a2 r t addr)
  | Call_size_set_estimate m size => returning RInt (smtp_size_set_estimate m size)
  | Call_8bitmime_set_body m body =>
      returning RInt (smtp_8bitmime_set_body EXT_8BITMIME m body)
  | Call_deliverby_set_mode m time mode trace =>
      returning RInt (smtp_deliverby_set_mode m time mode trace)
  | Call_set_messagecb m cb arg => returning RInt (smtp_set_messagecb m cb arg)
  | Call_set_eventcb s cb arg => returning RInt (smtp_set_eventcb s cb arg)
  | Call_set_monitorcb s cb arg headers =>
      returning RInt (smtp_set_monitorcb s cb arg headers)
  | Call_start_session fuel s => returning RInt (smtp_start_session cfg engine fuel s)
  | Call_destroy_session fuel s => returning RInt (smtp_destroy_session cfg fuel s)
  | Call_set_application_data s d => returning RPtr (smtp_set_application_data s d)
  | Call_get_application_data s => returning RPtr (smtp_get_application_data s)
  | Call_message_set_application_data m d =>
      returning RPtr (smtp_message_set_application_data m d)
  | Call_message_get_application_data m =>
      returning RPtr (smtp_message_get_application_data m)
  | Call_recipient_set_application_data r d =>
      returning RPtr (smtp_recipient_set_application_data r d)
  | Call_recipient_get_application_data r =>
      returning RPtr (smtp_recipient_get_application_data r)
  | Call_option_require_all_recipients s v =>
      returning RInt (smtp_option_require_all_recipients s v)
  end.

(** The extension a setter call asks for: the bit its source ors into the
    session when the value it is given is not the unset one. *)
Definition extension_of (c : api_call) : option Z :=
  match c with
  | Call_dsn_set_ret _ flags =>
      if bool_decide (flags <> Ret_NOTSET) then Some EXT_DSN else None
  | Call_dsn_set_envid _ _ _ => Some EXT_DSN
  | Call_dsn_set_notify _ flags =>
      if negb (flags =? Notify_NOTSET) then Some EXT_DSN else None
  | Call_dsn_set_orcpt _ _ _ _ _ => Some EXT_DSN
  | Call_8bitmime_set_body _ body =>
      if bool_decide (body <> E8bitmime_NOTSET) then Some EXT_8BITMIME else None
  | _ => None
  end.
End Calls.

(** The session that owns the entity a setter call is applied to, found
    through the back links. *)
Definition session_of_message (h : gmap N obj) (message : ptr) : option ptr :=
  match h !! message with
  | Some (OMessage m) => Some (Message.session m)
  | _ => None
  end.
Definition session_of_recipient (h : gmap N obj) (recipient : ptr) : option ptr :=
  match h !! recipient with
  | Some (ORecipient r) => session_of_message h (Recipient.message r)
  | _ => None
  end.
Definition owner_of (h : gmap N obj) (c : api_call) : option ptr :=
  match c with
  | Call_dsn_set_ret m _ | Call_dsn_set_envid _ m _ | Call_8bitmime_set_body m _
  | Call_size_set_estimate m _ | Call_deliverby_set_mode m _ _ _ =>
      session_of_message h m
  | Call_dsn_set_notify r _ | Call_dsn_set_orcpt _ _ r _ _ => session_of_recipient h r
  | _ => None
  end.

Definition requirements_of (h : gmap N obj) (session : ptr) : option Z :=
  match h !! session with
  | Some (OSession s) => Some (Session.required_extensions s)
  | _ => None
  end.

(** ** Allocator answers *)

(** An answer the allocator can give for a new block, and an answer that
    stands for a failed allocation. *)
Definition fresh_in (st : state) (a : ptr) : Prop :=
  a <> NULL /\ heap st !! a = None.
Definition refused_in (st : state) (a : ptr) : Prop :=
  a = NULL \/ is_Some (heap st !! a).

(** ** Requirements of the sessions of two states *)

(** [sessions_from st st']: every session of [st'] is a session of [st]
    whose requirements have only been or-ed with further bits. *)
Definition sessions_from (st st' : state) : Prop :=
  forall p s', heap st' !! p = Some (OSession s') ->
    exists s, heap st !! p = Some (OSession s)
      /\ exists bits, Session.required_extensions s'
                      = Z.lor (Session.required_extensions s) bits.

(** [requirements_kept st st']: a session that lives in both states has in
    [st'] the requirements it had in [st], or-ed with further bits. *)
Definition requirements_kept (st st' : state) : Prop :=
  forall p s s', heap st !! p = Some (OSession s) ->
    heap st' !! p = Some (OSession s') ->
    exists bits, Session.required_extensions s'
                 = Z.lor (Session.required_extensions s) bits.

(** A computation that, when it returns, leaves [sessions_from]. *)
Definition keeps {A} (m : M A) : Prop :=
  forall st a st', m st = Ok a st' -> sessions_from st st'.


(** ** Handles and failure values *)

(** The session, message or recipient a call is applied to; the creation of
    a session has none. *)
Definition handle_of (c : api_call) : option ptr :=
  match c with
  | Call_create_session _ => None
  | Call_set_server _ p _ | Call_set_hostname _ p _ | Call_add_message _ p
  | Call_enumerate_messages _ p _ _ | Call_message_transfer_status p
  | Call_set_reverse_path _ p _ | Call_reverse_path_status p
  | Call_message_reset_status p | Call_add_recipient _ _ p _
  | Call_enumerate_recipients _ p _ _ | Call_recipient_status p
  | Call_recipient_check_complete p | Call_recipient_reset_status p
  | Call_dsn_set_ret p _ | Call_dsn_set_envid _ p _ | Call_dsn_set_notify p _
  | Call_dsn_set_orcpt _ _ p _ _ | Call_size_set_estimate p _
  | Call_8bitmime_set_body p _ | Call_deliverby_set_mode p _ _ _
  | Call_set_messagecb p _ _ | Call_set_eventcb p _ _
  | Call_set_monitorcb p _ _ _ | Call_start_session _ p
  | Call_destroy_session _ p | Call_set_application_data p _
  | Call_get_application_data p | Call_message_set_application_data p _
  | Call_message_get_application_data p
  | Call_recipient_set_application_data p _
  | Call_recipient_get_application_data p
  | Call_option_require_all_recipients p _ => Some p
  end.

(** The value a call returns when it rejects its arguments: a null pointer
    or 0, by the type of its result. *)
Definition failure_of (c : api_call) : retval :=
  match c with
  | Call_create_session _ | Call_add_message _ _ | Call_add_recipient _ _ _ _
  | Call_set_application_data _ _ | Call_get_application_data _
  | Call_message_set_application_data _ _ | Call_message_get_application_data _
  | Call_recipient_set_application_data _ _
  | Call_recipient_get_application_data _ => RPtr NULL
  | Call_message_transfer_status _ | Call_reverse_path_status _
  | Call_recipient_status _ => RStatus StatusNull
  | _ => RInt 0
  end.

(** ** Release of a block *)

(** The heap after [free p] for a pointer that is null or allocated. *)
Definition released (p : ptr) (h : gmap N obj) : gmap N obj :=
  if is_null p then h else delete p h.

(** ** Links kept by an operation *)

(** Two objects of the same kind with the same link members (and, for a
    recipient, the same mailbox pointer; for a string, the same text). *)
Definition same_links (o o' : obj) : Prop :=
  match o, o' with
  | ORaw, ORaw => True
  | OString b, OString b' => b' = b
  | OSession s, OSession s' =>
      Session.messages s' = Session.messages s
      /\ Session.end_messages s' = Session.end_messages s
  | OMessage m, OMessage m' =>
      Message.next m' = Message.next m
      /\ Message.recipients m' = Message.recipients m
      /\ Message.end_recipients m' = Message.end_recipients m
  | ORecipient r, ORecipient r' =>
      Recipient.next r' = Recipient.next r
      /\ Recipient.mailbox r' = Recipient.mailbox r
  | _, _ => False
  end.

(** [links_kept st st']: every object of [st] is still there in [st'], with
    the same links. *)
Definition links_kept (st st' : state) : Prop :=
  forall p o, heap st !! p = Some o ->
    exists o', heap st' !! p = Some o' /\ same_links o o'.

Definition keeps_links {A} (m : M A) : Prop :=
  forall st a st', m st = Ok a st' -> links_kept st st'.

(** The calls that neither allocate a structure, nor write a link, nor
    release a block that was allocated before the call: the traversals, the
    status and completion accessors, every option setter (DSN RET, ENVID,
    NOTIFY and ORCPT, SIZE, 8BITMIME, DELIVERBY, require-all-recipients),
    the callback registrations and the application-data slots.  The other
    calls create or destroy a structure, release a string or a status text
    that the graph may hold, or hand the session to the engine. *)
Definition leaves_links (c : api_call) : bool :=
  match c with
  | Call_enumerate_messages _ _ _ _ | Call_message_transfer_status _
  | Call_reverse_path_status _ | Call_enumerate_recipients _ _ _ _
  | Call_recipient_status _ | Call_recipient_check_complete _
  | Call_dsn_set_ret _ _ | Call_dsn_set_envid _ _ _ | Call_dsn_set_notify _ _
  | Call_dsn_set_orcpt _ _ _ _ _ | Call_size_set_estimate _ _
  | Call_8bitmime_set_body _ _ | Call_deliverby_set_mode _ _ _ _
  | Call_set_messagecb _ _ _ | Call_set_eventcb _ _ _
  | Call_set_monitorcb _ _ _ _ | Call_set_application_data _ _
  | Call_get_application_data _ | Call_message_set_application_data _ _
  | Call_message_get_application_data _
  | Call_recipient_set_application_data _ _
  | Call_recipient_get_application_data _
  | Call_option_require_all_recipients _ _ => true
  | Call_create_session _ | Call_set_server _ _ _ | Call_set_hostname _ _ _
  | Call_add_message _ _ | Call_add_recipient _ _ _ _
  | Call_set_reverse_path _ _ _ | Call_message_reset_status _
  | Call_recipient_reset_status _
  | Call_start_session _ _ | Call_destroy_session _ _ => false
  end.

(** A client loop: [smtp_set_messagecb] on each message of a list, up to
    the first call that returns 0. *)
Fixpoint set_all_messagecb (cb : fnptr) (arg : ptr) (l : list ptr) : M Z :=
  match l with
  | [] => ret 1
  | q :: l' =>
      ok <- smtp_set_messagecb q cb arg ;;
      if ok =? 0 then ret 0 else set_all_messagecb cb arg l'
  end.

(** ** Objects that differ in their links only *)

(** [relinked o o']: [o'] is [o] up to the link members ([next], the list
    heads and the last-link members); a raw block may have become anything. *)
Definition relinked (o o' : obj) : Prop :=
  match o, o' with
  | ORaw, _ => True
  | OString b, OString b' => b' = b
  | OSession s, OSession s' =>
      Session.set_messages (Session.messages s)
        (Session.set_end_messages (Session.end_messages s) s') = s
  | OMessage m, OMessage m' =>
      Message.set_next (Message.next m)
        (Message.set_recipients (Message.recipients m)
           (Message.set_end_recipients (Message.end_recipients m) m')) = m
  | ORecipient r, ORecipient r' => Recipient.set_next (Recipient.next r) r' = r
  | _, _ => False
  end.

(** [relinked_heap h h' new touched]: the addresses [new] were free in [h];
    elsewhere [h'] has the objects of [h] and nothing more, the objects at
    [touched] relinked and the others as they were. *)
Definition relinked_heap (h h' : gmap N obj) (new touched : list ptr) : Prop :=
  (forall x, x ∈ new -> h !! x = None)
  /\ (forall x o, h !! x = Some o ->
        exists o', h' !! x = Some o' /\ relinked o o' /\ (x ∈ touched \/ o' = o))
  /\ (forall x, x ∉ new -> h !! x = None -> h' !! x = None).

(** ** Sessions built by the constructors alone *)

(** A session, a message and a recipient as [smtp_create_session],
    [smtp_add_message] and [smtp_add_recipient] leave them: the status is
    zero, the optional strings are unset, and a recipient has a mailbox
    string of its own. *)
Definition plain_session (h : gmap N obj) (session : ptr) : Prop :=
  exists s, h !! session = Some (OSession s)
    /\ Session.mta_status s = Status.zero
    /\ Session.host s = NULL
    /\ Session.localhost s = NULL
    /\ Session.msg_source s = NULL.

Definition plain_message (h : gmap N obj) (q : ptr) : Prop :=
  exists m, h !! q = Some (OMessage m)
    /\ Message.reverse_path_status m = Status.zero
    /\ Message.reverse_path_mailbox m = NULL
    /\ Message.dsn_envid m = NULL.

Definition plain_recipient (h : gmap N obj) (q : ptr) : Prop :=
  exists r b, h !! q = Some (ORecipient r)
    /\ Recipient.status r = Status.zero
    /\ Recipient.dsn_addrtype r = NULL
    /\ Recipient.dsn_orcpt r = NULL
    /\ Recipient.mailbox r <> NULL
    /\ h !! Recipient.mailbox r = Some (OString b).

(** [logged g r]: the recipient [r] is in the creation log. *)
Definition logged (g : creation_log) (r : ptr) : Prop :=
  exists q rl, (q, rl) ∈ g /\ r ∈ rl.

(** The blocks a built session owns: the session, its messages, their
    recipients and the recipients' mailboxes. *)
Definition owned (h : gmap N obj) (session : ptr) (g : creation_log) (x : ptr) : Prop :=
  x = session \/ x ∈ g.*1
  \/ exists r, logged g r /\ (x = r \/ x = mailbox_of h r).

(** [plain_graph h0 h session g]: [h] is [h0], where the owned blocks were
    free, with the session graph of [g] on top; the graph is plain and no
    two recipients share a mailbox. *)
Definition plain_graph (h0 h : gmap N obj) (session : ptr) (g : creation_log) : Prop :=
  graph_inv h session g
  /\ plain_session h session
  /\ (forall q, q ∈ g.*1 -> plain_message h q)
  /\ (forall r, logged g r -> plain_recipient h r)
  /\ (forall r r', logged g r -> logged g r' ->
        mailbox_of h r = mailbox_of h r' -> r = r')
  /\ (forall x, owned h session g x -> h0 !! x = None)
  /\ (forall x, h !! x = h0 !! x \/ owned h session g x).

(** ** A concrete platform for the examples *)

Definition example_cfg : config :=
  {| HAVE_GETADDRINFO := false; HAVE_GETHOSTNAME := true;
     USE_ETRN := false; USE_REQUIRE_ALL_RECIPIENTS := false |}.
Definition example_cfg_getaddrinfo : config :=
  {| HAVE_GETADDRINFO := true; HAVE_GETHOSTNAME := true;
     USE_ETRN := false; USE_REQUIRE_ALL_RECIPIENTS := false |}.
Definition example_EXT_DSN : Z := 4.
Definition example_EXT_8BITMIME : Z := 256.
Definition example_engine (session : ptr) (st : state) : Z * state := (1, st).
Definition example_services (name proto : string) : option Z :=
  if String.eqb name "smtp" then Some 6400 else None.
Definition example_ntohs (n : Z) : Z := Z.lor (Z.shiftl (Z.land n 255) 8) (Z.shiftr n 8).

Definition empty_state : state := {| heap := ∅; smtp_errno := None; trace := [] |}.

(** The state a computation leaves (the given one when it does not return). *)
Definition state_after {A} (m : M A) (st : state) : state :=
  match m st with
  | Ok _ st' => st'
  | _ => st
  end.

(** A session at address 1 with one message at 2 and one recipient at 3,
    whose mailbox is at 4. *)
Definition example_graph : M ptr :=
  session <- smtp_create_session example_cfg 1%N ;;
  message <- smtp_add_message 2%N session ;;
  smtp_add_recipient 3%N 4%N message (Some "rcpt@example.org"%string).
Definition example_state : state := state_after example_graph empty_state.

Definition example_session : Session.t :=
  match heap example_state !! 1%N with
  | Some (OSession s) => s
  | _ => Session.zero example_cfg
  end.
Definition example_message : Message.t :=
  match heap example_state !! 2%N with
  | Some (OMessage m) => m
  | _ => Message.zero
  end.
Definition example_recipient : Recipient.t :=
  match heap example_state !! 3%N with
  | Some (ORecipient r) => r
  | _ => Recipient.zero
  end.

(** The same graph with the server set (host buffer at 5) and the transfer
    callback of the message set. *)
Definition example_ready : M Z :=
  example_graph ;;;
  smtp_set_server example_cfg example_services example_ntohs 5%N 1%N
    (Some "mail.example.org:smtp"%string) ;;;
  smtp_set_messagecb 2%N 77%N NULL.
Definition example_ready_state : state := state_after example_ready empty_state.
Definition example_ready_session : Session.t :=
  match heap example_ready_state !! 1%N with
  | Some (OSession s) => s
  | _ => Session.zero example_cfg
  end.

(** A fresh session in a build with getaddrinfo. *)
Definition example_state_getaddrinfo : state :=
  state_after (smtp_create_session example_cfg_getaddrinfo 1%N) empty_state.

(** Two ENVID settings on one message, then teardown. *)
Definition example_envid_twice : M Z :=
  session <- smtp_create_session example_cfg 1%N ;;
  message <- smtp_add_message 2%N session ;;
  smtp_dsn_set_envid example_EXT_DSN 3%N message (Some "a"%string) ;;;
  smtp_dsn_set_envid example_EXT_DSN 4%N message (Some "b"%string) ;;;
  smtp_destroy_session example_cfg 8 session.

(** An ORCPT setting whose second duplication gets no memory, then
    teardown. *)
Definition example_orcpt_failure : M Z :=
  session <- smtp_create_session example_cfg 1%N ;;
  message <- smtp_add_message 2%N session ;;
  recipient <- smtp_add_recipient 3%N 4%N message (Some "rcpt@example.org"%string) ;;
  smtp_dsn_set_orcpt example_EXT_DSN 5%N NULL recipient
    (Some "rfc822"%string) (Some "rcpt@example.org"%string) ;;;
  smtp_destroy_session example_cfg 8 session.

(** A construction script: two messages, two recipients for the first and
    one for the second, one allocation refused on the way. *)
Definition example_script : list build_call :=
  [ AddMessage 2%N;
    AddRecipient 0 (Some "a@example.org"%string) 3%N 4%N;
    AddMessage 5%N;
    AddRecipient 0 (Some "b@example.org"%string) 6%N NULL;
    AddRecipient 1 (Some "c@example.org"%string) 6%N 7%N;
    AddRecipient 0 (Some "d@example.org"%string) 8%N 9%N ].

(** * Properties *)

(** ** Basic facts *)

Lemma is_null_true (p : ptr) : is_null p = true <-> p = NULL.
Proof. unfold is_null. apply N.eqb_eq. Qed.

Lemma is_null_false (p : ptr) : is_null p = false <-> p <> NULL.
Proof. unfold is_null. apply N.eqb_neq. Qed.

Lemma is_null_NULL : is_null NULL = true.
Proof. reflexivity. Qed.

Lemma with_heap_same (st : state) : with_heap (heap st) st = st.
Proof. by destruct st. Qed.

Lemma state_eq (st st' : state) :
  heap st = heap st' -> smtp_errno st = smtp_errno st' -> trace st = trace st' ->
  st = st'.
Proof. destruct st, st'; simpl; congruence. Qed.

Lemma malloc_fresh (st : state) (a : ptr) :
  fresh_in st a -> malloc a st = Ok a (with_heap (<[a := ORaw]> (heap st)) st).
Proof.
  intros [Ha Hh]. unfold malloc.
  apply is_null_false in Ha. by rewrite Ha, Hh.
Qed.

Lemma malloc_refused (st : state) (a : ptr) :
  refused_in st a -> malloc a st = Ok NULL st.
Proof.
  intros [Ha | [x Hx]]; unfold malloc.
  - apply is_null_true in Ha. by rewrite Ha.
  - rewrite Hx. by destruct (is_null a).
Qed.

Lemma strdup_fresh (st : state) (a : ptr) (s : string) :
  fresh_in st a ->
  strdup a (Some s) st = Ok a (with_heap (<[a := OString (c_str s)]> (heap st)) st).
Proof.
  intros Hf. unfold strdup. rewrite (malloc_fresh _ _ Hf).
  destruct Hf as [Ha _]. apply is_null_false in Ha. rewrite Ha.
  f_equal. apply state_eq; simpl; try done. by rewrite insert_insert_eq.
Qed.

Lemma strdup_refused (st : state) (a : ptr) (s : string) :
  refused_in st a -> strdup a (Some s) st = Ok NULL st.
Proof. intros Hr. unfold strdup. by rewrite (malloc_refused _ _ Hr). Qed.

(** Symbolic execution of one call: unfold the monad, the primitive
    operations and the structure accessors, and resolve the heap lookups. *)
Ltac api_unfold :=
  unfold bind, ret, fail, set_error, set_errno, log, free,
    load_session, load_message, load_recipient, load_string,
    update_session, update_message, update_recipient, store_string,
    memset_zero, reset_status, require_extension, returning,
    SMTPAPI_CHECK_ARGS, call_messagecb, call_recipientcb, do_session,
    destroy_auth_mechanisms, destroy_etrn_nodes, msg_source_destroy,
    destroy_header_table, first_message, first_recipient.

Ltac api_cbn :=
  cbn [
       heap smtp_errno trace with_heap with_errno with_trace
       is_null NULL N.eqb negb andb orb fst snd
       Status.code Status.text Status.zero
       Session.localhost Session.host Session.port Session.application_data
       Session.messages Session.end_messages Session.event_cb Session.event_cb_arg
       Session.monitor_cb Session.monitor_cb_arg Session.monitor_cb_headers
       Session.mta_status Session.msg_source Session.required_extensions
       Session.require_all_recipients Session.zero
       Session.set_localhost Session.set_host Session.set_port
       Session.set_application_data Session.set_messages Session.set_end_messages
       Session.set_event_cb Session.set_event_cb_arg Session.set_monitor_cb
       Session.set_monitor_cb_arg Session.set_monitor_cb_headers
       Session.set_mta_status Session.set_required_extensions
       Session.set_require_all_recipients
       Message.next Message.session Message.application_data
       Message.reverse_path_mailbox Message.reverse_path_status
       Message.message_status Message.recipients Message.end_recipients
       Message.cb Message.cb_arg Message.dsn_envid Message.dsn_ret
       Message.size_estimate Message.by_time Message.by_mode Message.by_trace
       Message.e8bitmime Message.zero
       Message.set_next Message.set_session Message.set_application_data
       Message.set_reverse_path_mailbox Message.set_reverse_path_status
       Message.set_message_status Message.set_recipients Message.set_end_recipients
       Message.set_cb Message.set_cb_arg Message.set_dsn_envid Message.set_dsn_ret
       Message.set_size_estimate Message.set_by_time Message.set_by_mode
       Message.set_by_trace Message.set_e8bitmime
       Recipient.next Recipient.message Recipient.application_data
       Recipient.mailbox Recipient.status Recipient.complete
       Recipient.dsn_addrtype Recipient.dsn_orcpt Recipient.dsn_notify
       Recipient.zero
       Recipient.set_next Recipient.set_message Recipient.set_application_data
       Recipient.set_mailbox Recipient.set_status Recipient.set_complete
       Recipient.set_dsn_addrtype Recipient.set_dsn_orcpt Recipient.set_dsn_notify].

Ltac heap_rw :=
  first
    [ rewrite lookup_insert_eq
    | rewrite lookup_delete_eq
    | rewrite lookup_insert_ne by (done || congruence)
    | rewrite lookup_delete_ne by (done || congruence)
    | match goal with
      | H : is_null ?p = _ |- context [is_null ?p] => rewrite H
      | H : heap ?st !! ?p = _ |- context [heap ?st !! ?p] => rewrite H
      | H : ?h !! ?p = _ |- context [?h !! ?p] => rewrite H
      end ].

Ltac exec := repeat first [progress api_unfold | progress api_cbn | heap_rw].

(** Equality of two heaps, address by address. *)
Ltac heap_eq :=
  apply map_eq; intros ?k;
  repeat first [rewrite lookup_insert | rewrite lookup_delete];
  repeat case_decide; subst; try done; try congruence.

Ltac state_eq := f_equal; apply state_eq; cbn; try done; try heap_eq.

(** ** Recipients: failure paths of [smtp_add_recipient] *)

Lemma add_recipient_null_mailbox (st : state) (a1 a2 message : ptr) :
  message <> NULL ->
  smtp_add_recipient a1 a2 message None st
    = Ok NULL (with_errno (Some SMTP_ERR_INVAL) st).
Proof.
  intros Hm. apply is_null_false in Hm.
  unfold smtp_add_recipient. rewrite Hm. reflexivity.
Qed.

Lemma add_recipient_malloc_refused
    (st : state) (a1 a2 message : ptr) (mailbox : string) :
  message <> NULL ->
  refused_in st a1 ->
  smtp_add_recipient a1 a2 message (Some mailbox) st
    = Ok NULL (with_errno (Some ENOMEM) st).
Proof.
  intros Hm Hr. apply is_null_false in Hm.
  unfold smtp_add_recipient, SMTPAPI_CHECK_ARGS. rewrite Hm.
  rewrite bool_decide_eq_true_2 by (by eexists). cbn [negb andb].
  unfold bind at 1. by rewrite malloc_refused.
Qed.

Lemma add_recipient_strdup_refused
    (st : state) (a1 a2 message : ptr) (mailbox : string) :
  message <> NULL ->
  fresh_in st a1 ->
  a2 = a1 \/ refused_in st a2 ->
  smtp_add_recipient a1 a2 message (Some mailbox) st
    = Ok NULL (with_errno (Some ENOMEM) st).
Proof.
  intros Hm Hf Hr. apply is_null_false in Hm.
  unfold smtp_add_recipient. rewrite Hm.
  unfold SMTPAPI_CHECK_ARGS. cbn [negb andb].
  rewrite bool_decide_eq_true_2 by (by eexists).
  unfold bind at 1. rewrite (malloc_fresh _ _ Hf).
  destruct Hf as [Ha1 Hh1]. pose proof Ha1 as Hn1. apply is_null_false in Hn1.
  rewrite Hn1.
  unfold bind at 1. unfold memset_zero at 1. cbn [heap with_heap].
  rewrite lookup_insert_eq.
  unfold bind at 1. unfold update_recipient at 1. cbn [heap with_heap].
  rewrite lookup_insert_eq.
  unfold bind at 1. rewrite strdup_refused.
  2:{ destruct Hr as [-> | [-> | [x Hx]]].
      - right. cbn [heap with_heap]. rewrite lookup_insert_eq. by eexists.
      - by left.
      - right. cbn [heap with_heap].
        destruct (decide (a1 = a2)) as [-> | Hne].
        + rewrite lookup_insert_eq. by eexists.
        + rewrite !lookup_insert_ne by done. by eexists. }
  exec. state_eq.
Qed.

(** C4.  With a non-null message, [smtp_add_recipient (message, NULL)]
    returns NULL with InvalidArgument; and when the recipient is allocated
    but the duplication of the mailbox gets no memory, the call returns NULL
    with OutOfMemory.  In both cases the heap is the one before the call, so
    the partially built recipient is released and the recipient list has the
    length and the contents it had. *)
Theorem smtp_add_recipient_failures
    (st : state) (a1 a2 message : ptr) (mailbox : string) :
  message <> NULL ->
  smtp_add_recipient a1 a2 message None st
    = Ok NULL (with_errno (Some SMTP_ERR_INVAL) st)
  /\ (fresh_in st a1 ->
      a2 = a1 \/ refused_in st a2 ->
      smtp_add_recipient a1 a2 message (Some mailbox) st
        = Ok NULL (with_errno (Some ENOMEM) st)).
Proof.
  intros Hm. split.
  - by apply add_recipient_null_mailbox.
  - intros Hf Hr. by apply add_recipient_strdup_refused.
Qed.

(** ** DSN: the ORCPT pair under allocation failure *)

(** C1.  On a recipient whose address-type / original-recipient pair is
    unset, when the first duplication succeeds and the second gets no memory,
    [smtp_dsn_set_orcpt] returns 0 with OutOfMemory.  The block of the first
    copy is released, but the recipient keeps its address in [dsn_addrtype]:
    the member is not reset to null, so the recipient is not in the state it
    had before the call and holds a pointer to a block that is no longer
    allocated. *)
Theorem smtp_dsn_set_orcpt_second_alloc_failure
    (EXT_DSN : Z) (st : state) (a1 a2 recipient : ptr) (r : Recipient.t)
    (address_type address : string) :
  recipient <> NULL ->
  heap st !! recipient = Some (ORecipient r) ->
  Recipient.dsn_addrtype r = NULL ->
  Recipient.dsn_orcpt r = NULL ->
  fresh_in st a1 ->
  a2 = a1 \/ refused_in st a2 ->
  exists st',
    smtp_dsn_set_orcpt EXT_DSN a1 a2 recipient (Some address_type) (Some address) st
      = Ok 0 st'
    /\ smtp_errno st' = Some ENOMEM
    /\ heap st' !! recipient = Some (ORecipient (Recipient.set_dsn_addrtype a1 r))
    /\ Recipient.dsn_addrtype (Recipient.set_dsn_addrtype a1 r) = a1
    /\ Recipient.dsn_orcpt (Recipient.set_dsn_addrtype a1 r) = NULL
    /\ a1 <> NULL
    /\ heap st' !! a1 = None
    /\ Recipient.set_dsn_addrtype a1 r <> r.
Proof.
  intros Hr Hh Ht Ho Hf Ha2.
  assert (Hne : a1 <> recipient).
  { intros ->. destruct Hf as [_ Hf]. congruence. }
  pose proof Hf as [Ha1 Hh1].
  pose proof Ha1 as Hn1. apply is_null_false in Hn1.
  apply is_null_false in Hr.
  unfold smtp_dsn_set_orcpt, SMTPAPI_CHECK_ARGS. rewrite Hr. cbn [negb].
  unfold bind at 1. rewrite (strdup_fresh _ _ _ Hf).
  unfold bind at 1, update_recipient at 1. cbn [heap with_heap].
  rewrite lookup_insert_ne, Hh by done.
  unfold bind at 1, load_recipient at 1. cbn [heap with_heap].
  rewrite lookup_insert_eq.
  destruct r as [nx ms ad mb sts cm at_ oc nt]. cbn in Ht, Ho. subst at_ oc.
  api_cbn. rewrite Hn1.
  unfold bind at 1. rewrite strdup_refused.
  2:{ destruct Ha2 as [-> | [-> | [x Hx]]].
      - right. cbn [heap with_heap].
        rewrite lookup_insert_ne, lookup_insert_eq by done. by eexists.
      - by left.
      - right. cbn [heap with_heap].
        destruct (decide (recipient = a2)) as [<- | Hne2].
        + rewrite lookup_insert_eq. by eexists.
        + rewrite lookup_insert_ne by done.
          destruct (decide (a1 = a2)) as [<- | Hne3].
          * rewrite lookup_insert_eq. by eexists.
          * rewrite lookup_insert_ne by done. by eexists. }
  exec. eexists. split; [reflexivity |]. api_cbn.
  repeat split; try done.
  - rewrite lookup_delete_ne, lookup_insert_eq by done. done.
  - by rewrite lookup_delete_eq.
  - intros Heq. injection Heq as Heq. done.
Qed.

(** ** DELIVERBY *)

(** C3.  On a live message, [smtp_deliverby_set_mode] returns 0 with
    InvalidArgument and leaves the whole state as it was when [time] is
    outside [-999999999, 999999999] or [mode] is [By_RETURN] with
    [time <= 0].  Otherwise it returns 1 and the stored values are the
    supplied [time], [mode] and trace flag: the flag is stored as [!!trace],
    so the stored flag is set exactly when the supplied one is, and a flag
    given as false (0) or true (1) is stored as it was given. *)
Theorem smtp_deliverby_set_mode_spec
    (st : state) (message : ptr) (m : Message.t) (time : Z) (mode : by_mode)
    (trace_ : Z) :
  message <> NULL ->
  heap st !! message = Some (OMessage m) ->
  (time < -999999999 \/ 999999999 < time \/ (mode = By_RETURN /\ time <= 0) ->
   smtp_deliverby_set_mode message time mode trace_ st
     = Ok 0 (with_errno (Some SMTP_ERR_INVAL) st))
  /\ (-999999999 <= time <= 999999999 ->
      ~ (mode = By_RETURN /\ time <= 0) ->
      let m' := Message.set_by_trace (if trace_ =? 0 then 0 else 1)
                  (Message.set_by_mode mode (Message.set_by_time time m)) in
      smtp_deliverby_set_mode message time mode trace_ st
        = Ok 1 (with_heap (<[message := OMessage m']> (heap st)) st)
      /\ Message.by_time m' = time
      /\ Message.by_mode m' = mode
      /\ Message.by_trace m' = (if trace_ =? 0 then 0 else 1)
      /\ (trace_ = 0 \/ trace_ = 1 -> Message.by_trace m' = trace_)
      /\ (Message.by_trace m' <> 0 <-> trace_ <> 0)).
Proof.
  intros Hm Hh. apply is_null_false in Hm.
  unfold smtp_deliverby_set_mode, SMTPAPI_CHECK_ARGS. rewrite Hm. cbn [negb].
  split.
  - intros Hbad.
    destruct (andb (-999999999 <=? time) (time <=? 999999999)) eqn:Hrange;
      [| reflexivity].
    apply andb_true_iff in Hrange as [H1 H2].
    apply Z.leb_le in H1, H2.
    destruct Hbad as [Hbad | [Hbad | [-> Hbad]]]; [lia | lia |].
    rewrite bool_decide_eq_true_2 by done.
    apply Z.leb_le in Hbad. rewrite Hbad. reflexivity.
  - intros [H1 H2] Hok.
    apply Z.leb_le in H1, H2. rewrite H1, H2. cbn [andb].
    assert (Hgate : andb (bool_decide (mode = By_RETURN)) (time <=? 0) = false).
    { apply andb_false_iff.
      destruct (decide (mode = By_RETURN)) as [Hmode | Hmode].
      - right. apply Z.leb_gt. apply Z.nle_gt. intros Hle. apply Hok. done.
      - left. by apply bool_decide_eq_false_2. }
    rewrite Hgate. cbn [negb].
    destruct m. exec. split.
    + f_equal. apply state_eq; cbn; try done. by rewrite !insert_insert_eq.
    + cbn [Message.by_trace Message.set_by_trace].
      split; [done |]. split; [done |]. split; [done |].
      split; [intros [-> | ->]; reflexivity |].
      destruct (trace_ =? 0) eqn:Ht.
      * apply Z.eqb_eq in Ht. by subst.
      * apply Z.eqb_neq in Ht. done.
Qed.

(** ** Traversals and their callback argument *)

(** C9.  [smtp_enumerate_messages] checks its callback: with a null
    callback it returns 0 with InvalidArgument and calls nothing.
    [smtp_enumerate_recipients] has no such check: on a message with at
    least one recipient a null callback is called, which is undefined
    behaviour and not a rejected argument. *)
Theorem enumerate_callback_checks
    (st : state) (fuel : nat) (session message arg : ptr) (m : Message.t)
    (r : Recipient.t) :
  session <> NULL ->
  message <> NULL ->
  heap st !! message = Some (OMessage m) ->
  Message.recipients m <> NULL ->
  heap st !! Message.recipients m = Some (ORecipient r) ->
  smtp_enumerate_messages fuel session NULL arg st
    = Ok 0 (with_errno (Some SMTP_ERR_INVAL) st)
  /\ smtp_enumerate_recipients (S fuel) message NULL arg st = Fault NullCall.
Proof.
  intros Hs Hm Hh Hr Hhr.
  apply is_null_false in Hs, Hm, Hr. split.
  - unfold smtp_enumerate_messages, SMTPAPI_CHECK_ARGS.
    rewrite Hs, is_null_NULL. reflexivity.
  - unfold smtp_enumerate_recipients, SMTPAPI_CHECK_ARGS. rewrite Hm.
    cbn [negb enumerate_recipients_loop]. exec. reflexivity.
Qed.

(** ** DSN: the envelope identifier *)

(** C10.  [smtp_dsn_set_envid] does not check [envid]: a null [envid]
    reaches [strdup], which is undefined behaviour, instead of being rejected
    with InvalidArgument.  With a non-null [envid] and memory available the
    call returns 1 and stores the new copy; a block holding an earlier ENVID
    is left allocated and the message no longer points to it. *)
Theorem smtp_dsn_set_envid_unchecked
    (EXT_DSN : Z) (st : state) (a message : ptr) (m : Message.t)
    (s : Session.t) (envid : string) :
  message <> NULL ->
  heap st !! message = Some (OMessage m) ->
  heap st !! Message.session m = Some (OSession s) ->
  fresh_in st a ->
  smtp_dsn_set_envid EXT_DSN a message None st = Fault StrdupNull
  /\ exists st',
      smtp_dsn_set_envid EXT_DSN a message (Some envid) st = Ok 1 st'
      /\ heap st' !! message = Some (OMessage (Message.set_dsn_envid a m))
      /\ Message.dsn_envid (Message.set_dsn_envid a m) = a
      /\ heap st' !! a = Some (OString (c_str envid))
      /\ forall old, heap st !! Message.dsn_envid m = Some (OString old) ->
           heap st' !! Message.dsn_envid m = Some (OString old)
           /\ Message.dsn_envid m <> a.
Proof.
  intros Hm Hh Hs Hf.
  pose proof Hf as [Ha Hha]. pose proof Ha as Hn. apply is_null_false in Hn.
  apply is_null_false in Hm.
  assert (Hne : a <> message) by (intros ->; congruence).
  assert (Hne' : a <> Message.session m) by (intros ->; congruence).
  assert (Hne'' : message <> Message.session m) by (intros Heq; congruence).
  unfold smtp_dsn_set_envid, SMTPAPI_CHECK_ARGS. rewrite Hm. cbn [negb].
  split; [reflexivity |].
  unfold bind at 1. rewrite (strdup_fresh _ _ _ Hf).
  destruct m as [nx ss]. cbn [Message.session Message.dsn_envid] in *. exec.
  eexists. split; [reflexivity |]. api_cbn.
  split; [by repeat heap_rw |]. split; [done |].
  split; [by repeat heap_rw |].
  intros old Hold. split; [| congruence].
  rewrite !lookup_insert_ne by congruence. done.
Qed.

(** ** Starting a session *)

Lemma start_session_loop_all_set (st : state) (l : list ptr) :
  forall (fuel : nat) (p : ptr),
    msg_chain (heap st) p l ->
    Forall (fun q => cb_of (heap st) q <> NULL) l ->
    (length l < fuel)%nat ->
    start_session_loop fuel p st = Ok true st.
Proof.
  induction l as [| q l IH]; intros fuel p Hc Hall Hfuel.
  - destruct fuel; [cbn in Hfuel; lia |]. cbn in Hc. subst p. reflexivity.
  - destruct fuel; [cbn in Hfuel; lia |].
    destruct Hc as (-> & Hq & m & Hm & Hc).
    apply Forall_cons in Hall as [Hcb Hall].
    unfold cb_of in Hcb. rewrite Hm in Hcb.
    apply is_null_false in Hq, Hcb.
    cbn [start_session_loop]. rewrite Hq. exec.
    apply IH; [done | done | cbn in Hfuel; lia].
Qed.

Lemma start_session_loop_some_unset (st : state) (l : list ptr) :
  forall (fuel : nat) (p : ptr),
    msg_chain (heap st) p l ->
    Exists (fun q => cb_of (heap st) q = NULL) l ->
    (length l < fuel)%nat ->
    start_session_loop fuel p st = Ok false st.
Proof.
  induction l as [| q l IH]; intros fuel p Hc Hex Hfuel.
  - by apply Exists_nil in Hex.
  - destruct fuel; [cbn in Hfuel; lia |].
    destruct Hc as (-> & Hq & m & Hm & Hc).
    apply is_null_false in Hq.
    cbn [start_session_loop]. rewrite Hq. exec.
    destruct (is_null (Message.cb m)) eqn:Hcb; [reflexivity |].
    apply Exists_cons in Hex as [Hex | Hex].
    + unfold cb_of in Hex. rewrite Hm in Hex.
      apply is_null_true in Hex. congruence.
    + apply IH; [done | done | cbn in Hfuel; lia].
Qed.

(** C2.  For a live session whose message list is well linked,
    [smtp_start_session] returns 0 with InvalidArgument, and the state is
    otherwise the one before the call (so the engine has not been entered),
    when the host is unset, when the build cannot detect the local host name
    and none is set, or when some message has no transfer callback.  When
    every precondition holds, the call is the call of the engine: its result
    and its state, unchanged. *)
Theorem smtp_start_session_spec
    (cfg : config) (engine : ptr -> state -> Z * state)
    (st : state) (fuel : nat) (session : ptr) (s : Session.t) (l : list ptr) :
  session <> NULL ->
  heap st !! session = Some (OSession s) ->
  msg_chain (heap st) (Session.messages s) l ->
  (length l < fuel)%nat ->
  (Session.host s = NULL
   \/ (HAVE_GETHOSTNAME cfg = false /\ Session.localhost s = NULL)
   \/ Exists (fun q => cb_of (heap st) q = NULL) l ->
   smtp_start_session cfg engine fuel session st
     = Ok 0 (with_errno (Some SMTP_ERR_INVAL) st))
  /\ (Session.host s <> NULL ->
      (HAVE_GETHOSTNAME cfg = false -> Session.localhost s <> NULL) ->
      Forall (fun q => cb_of (heap st) q <> NULL) l ->
      smtp_start_session cfg engine fuel session st
        = let '(r, st') :=
            engine session (with_trace (trace st ++ [EvDoSession session]) st)
          in Ok r st').
Proof.
  intros Hs Hh Hc Hfuel. apply is_null_false in Hs.
  unfold smtp_start_session. rewrite Hs. split.
  - intros Hbad. exec.
    destruct (is_null (Session.host s)) eqn:Hhost; [reflexivity |].
    api_cbn.
    destruct (HAVE_GETHOSTNAME cfg) eqn:Hcfg.
    + destruct Hbad as [Hbad | [[? _] | Hbad]]; [| done |].
      { apply is_null_true in Hbad. congruence. }
      exec. rewrite (start_session_loop_some_unset st l) by done. reflexivity.
    + exec.
      destruct (is_null (Session.localhost s)) eqn:Hlocal; [reflexivity |].
      api_cbn. exec.
      destruct Hbad as [Hbad | [[_ Hbad] | Hbad]].
      * apply is_null_true in Hbad. congruence.
      * apply is_null_true in Hbad. congruence.
      * rewrite (start_session_loop_some_unset st l) by done. reflexivity.
  - intros Hhost Hlocal Hall. apply is_null_false in Hhost. exec.
    destruct (HAVE_GETHOSTNAME cfg) eqn:Hcfg.
    + exec. rewrite (start_session_loop_all_set st l) by done. reflexivity.
    + specialize (Hlocal eq_refl). apply is_null_false in Hlocal. exec.
      rewrite (start_session_loop_all_set st l) by done. reflexivity.
Qed.

(** ** The server specification *)

Lemma int_of_long_in_range (z : Z) :
  INT_MIN <= z <= INT_MAX -> int_of_long z = z.
Proof.
  unfold INT_MIN, INT_MAX, int_of_long. intros Hz.
  rewrite Z.mod_small by lia. lia.
Qed.

Lemma strtol_digits_nonneg (s : string) :
  forall acc, 0 <= acc -> 0 <= strtol_digits acc s.
Proof.
  induction s as [| c s IH]; intros acc Hacc; cbn [strtol_digits]; [done |].
  destruct (isdigit c) eqn:Hc; [| done].
  apply IH. unfold isdigit in Hc. cbv zeta in Hc.
  apply andb_true_iff in Hc as [Hc _]. apply Nat.leb_le in Hc. lia.
Qed.

Lemma strtol_nonneg (s : string) : 0 <= strtol s.
Proof.
  unfold strtol, LONG_MAX. apply Z.min_glb; [| lia].
  by apply strtol_digits_nonneg.
Qed.

Lemma c_str_idemp (s : string) : c_str (c_str s) = c_str s.
Proof.
  induction s as [| c s IH]; [done |]. cbn.
  destruct (Ascii.eqb c Ascii.zero) eqn:Hc; [done |]. cbn. by rewrite Hc, IH.
Qed.

Lemma c_str_tail (c : ascii) (s : string) :
  c_str (String c s) = String c s -> Ascii.eqb c Ascii.zero = false /\ c_str s = s.
Proof.
  cbn. destruct (Ascii.eqb c Ascii.zero); [done |]. intros H. by injection H.
Qed.

Lemma c_str_drop (n : nat) (s : string) :
  c_str s = s -> c_str (string_drop n s) = string_drop n s.
Proof.
  revert s. induction n as [| n IH]; intros s Hs; [done |].
  destruct s as [| c s]; [done |]. cbn [string_drop].
  apply c_str_tail in Hs as [_ Hs]. by apply IH.
Qed.

Lemma string_drop_poke (i : nat) (c : ascii) (s : string) :
  string_drop (S i) (string_poke i c s) = string_drop (S i) s.
Proof.
  revert s. induction i as [| i IH]; intros [| d s]; try done.
  cbn [string_poke string_drop]. apply (IH s).
Qed.

Lemma c_str_poke (c : ascii) (s : string) (i : nat) :
  c_str s = s ->
  strchr_index c s = Some i ->
  c_str (string_poke i Ascii.zero s) = string_take i s.
Proof.
  revert i. induction s as [| d s IH]; intros i Hs Hi; [done |].
  apply c_str_tail in Hs as [Hd Hs]. cbn in Hi.
  destruct (Ascii.eqb d c).
  - injection Hi as <-. reflexivity.
  - destruct (strchr_index c s) as [j |] eqn:Hj; [| done].
    injection Hi as <-. cbn. rewrite Hd. f_equal. by apply IH.
Qed.

(** C8, as the code has it.  For a live session and a non-null [hostport],
    [smtp_set_server] returns 0 with OutOfMemory, and changes nothing else,
    when the copy of [hostport] gets no memory.  Otherwise the copy is split
    at its first colon into the host and the service.  Without a service
    part the port is the default: the integer 587, or the text ["587"] in a
    build with getaddrinfo.  With a service part, a build with getaddrinfo
    stores a pointer to the service text inside the host buffer and
    succeeds without looking the service up; a build without getaddrinfo
    stores what [strtol] reads from a service that starts with a digit,
    converted to the [int] member (the number itself when it fits), or the
    port the service database gives for the name, and returns 0 with
    InvalidArgument, releasing the copy, when the name is not found. *)
Theorem smtp_set_server_spec
    (cfg : config) (getservbyname : string -> string -> option Z)
    (ntohs : Z -> Z) (st : state) (a session : ptr) (s : Session.t)
    (hostport : string) :
  session <> NULL ->
  heap st !! session = Some (OSession s) ->
  let call := smtp_set_server cfg getservbyname ntohs a session (Some hostport) st in
  let hp := c_str hostport in
  let stored buf port_ :=
    with_heap (<[session := OSession (Session.set_host a (Session.set_port port_ s))]>
                 (<[a := OString buf]> (heap st))) st in
  (refused_in st a -> call = Ok 0 (with_errno (Some ENOMEM) st))
  /\ (fresh_in st a ->
      strchr_index ":" hp = None ->
      call = Ok 1 (stored hp (if HAVE_GETADDRINFO cfg
                              then PortLiteral "587" else PortInt 587)))
  /\ (fresh_in st a ->
      forall i, strchr_index ":" hp = Some i ->
      let buf := string_poke i Ascii.zero hp in
      let svc := string_drop (S i) hp in
      c_str buf = string_take i hp
      /\ c_str (string_drop (S i) buf) = svc
      /\ (HAVE_GETADDRINFO cfg = true ->
          call = Ok 1 (stored buf (PortInHost a (S i))))
      /\ (HAVE_GETADDRINFO cfg = false ->
          isdigit (first_char svc) = true ->
          call = Ok 1 (stored buf (PortInt (int_of_long (strtol svc))))
          /\ (strtol svc <= INT_MAX -> int_of_long (strtol svc) = strtol svc))
      /\ (HAVE_GETADDRINFO cfg = false ->
          isdigit (first_char svc) = false ->
          forall s_port, getservbyname svc "tcp" = Some s_port ->
          call = Ok 1 (stored buf (PortInt (ntohs s_port))))
      /\ (HAVE_GETADDRINFO cfg = false ->
          isdigit (first_char svc) = false ->
          getservbyname svc "tcp" = None ->
          call = Ok 0 (with_errno (Some SMTP_ERR_INVAL) st))).
Proof.
  intros Hs Hh call hp stored. apply is_null_false in Hs.
  assert (Hargs : bool_decide (is_Some (Some hostport)) = true)
    by (apply bool_decide_eq_true_2; by eexists).
  assert (Hrun : fresh_in st a -> forall k : ptr -> M Z,
             (host <- strdup a (Some hostport) ;; k host) st
             = k a (with_heap (<[a := OString hp]> (heap st)) st)).
  { intros Hf k. unfold bind. by rewrite (strdup_fresh _ _ _ Hf). }
  assert (Hne : fresh_in st a -> a <> session).
  { intros [_ Hha] ->. congruence. }
  assert (Hn : fresh_in st a -> is_null a = false).
  { intros [Ha _]. by apply is_null_false. }
  split; [| split].
  - intros Hr. subst call. unfold smtp_set_server, SMTPAPI_CHECK_ARGS.
    rewrite Hs, Hargs. cbn [negb andb].
    unfold bind at 1. by rewrite strdup_refused.
  - intros Hf Hi. specialize (Hrun Hf). specialize (Hne Hf). specialize (Hn Hf).
    destruct Hf as [Ha Hha]. destruct s. subst stored call.
    unfold smtp_set_server, SMTPAPI_CHECK_ARGS.
    rewrite Hs, Hargs. cbn [negb andb]. rewrite Hrun, Hn.
    exec. rewrite ?Hi. destruct (HAVE_GETADDRINFO cfg); exec; state_eq.
  - intros Hf i Hi. specialize (Hrun Hf). specialize (Hne Hf). specialize (Hn Hf).
    destruct Hf as [Ha Hha]. destruct s. subst stored.
    assert (Hsvc : c_str (string_drop (S i) (string_poke i Ascii.zero hp))
                   = string_drop (S i) hp).
    { rewrite string_drop_poke. apply c_str_drop, c_str_idemp. }
    cbv zeta.
    split; [apply (c_str_poke ":"); [apply c_str_idemp | done] |].
    split; [done |].
    (split; [| split; [| split]]); intros Hcfg; subst call;
      unfold smtp_set_server, SMTPAPI_CHECK_ARGS;
      rewrite Hs, Hargs; cbn [negb andb];
      rewrite Hrun, Hn, Hcfg; exec; rewrite ?Hi; exec.
    + state_eq.
    + intros Hd. split; [rewrite Hsvc, Hd; exec; state_eq |].
      intros Hfit. apply int_of_long_in_range.
      pose proof (strtol_nonneg (string_drop (S i) hp)). unfold INT_MIN. lia.
    + intros Hd s_port Hsp. rewrite Hsvc, Hd, Hsp. exec. state_eq.
    + intros Hd Hsp. rewrite Hsvc, Hd, Hsp. exec. state_eq.
Qed.

(** ** Linked lists: chains and traversals *)

Lemma msg_chain_preserved (h h' : gmap N obj) (l : list ptr) :
  forall p : ptr,
    (forall q m, q ∈ l -> h !! q = Some (OMessage m) ->
       exists m', h' !! q = Some (OMessage m') /\ Message.next m' = Message.next m) ->
    msg_chain h p l -> msg_chain h' p l.
Proof.
  induction l as [| q l IH]; intros p Hsame Hc; [done |].
  destruct Hc as (-> & Hq & m & Hm & Hc).
  destruct (Hsame q m) as (m' & Hm' & Hnext); [left | done |].
  cbn. split; [done |]. split; [done |]. exists m'. split; [done |].
  rewrite Hnext. apply IH; [| done].
  intros q' m0 Hin. apply Hsame. by right.
Qed.

Lemma rcpt_chain_preserved (h h' : gmap N obj) (l : list ptr) :
  forall p : ptr,
    (forall q r, q ∈ l -> h !! q = Some (ORecipient r) ->
       exists r', h' !! q = Some (ORecipient r')
                  /\ Recipient.next r' = Recipient.next r) ->
    rcpt_chain h p l -> rcpt_chain h' p l.
Proof.
  induction l as [| q l IH]; intros p Hsame Hc; [done |].
  destruct Hc as (-> & Hq & r & Hr & Hc).
  destruct (Hsame q r) as (r' & Hr' & Hnext); [left | done |].
  cbn. split; [done |]. split; [done |]. exists r'. split; [done |].
  rewrite Hnext. apply IH; [| done].
  intros q' r0 Hin. apply Hsame. by right.
Qed.

Lemma msg_chain_elem (h : gmap N obj) (l : list ptr) :
  forall p x, msg_chain h p l -> x ∈ l ->
    x <> NULL /\ exists m, h !! x = Some (OMessage m).
Proof.
  induction l as [| q l IH]; intros p x Hc Hin; [by apply elem_of_nil in Hin |].
  destruct Hc as (-> & Hq & m & Hm & Hc).
  apply elem_of_cons in Hin as [-> | Hin]; [eauto | by eapply IH].
Qed.

Lemma rcpt_chain_elem (h : gmap N obj) (l : list ptr) :
  forall p x, rcpt_chain h p l -> x ∈ l ->
    x <> NULL /\ exists r, h !! x = Some (ORecipient r).
Proof.
  induction l as [| q l IH]; intros p x Hc Hin; [by apply elem_of_nil in Hin |].
  destruct Hc as (-> & Hq & r & Hr & Hc).
  apply elem_of_cons in Hin as [-> | Hin]; [eauto | by eapply IH].
Qed.

Lemma msg_chain_head (h : gmap N obj) (p : ptr) (l : list ptr) :
  msg_chain h p l -> (p = NULL <-> l = []).
Proof.
  destruct l as [| q l]; cbn; [done |].
  intros (-> & Hq & _). split; [done | discriminate].
Qed.

Lemma rcpt_chain_head (h : gmap N obj) (p : ptr) (l : list ptr) :
  rcpt_chain h p l -> (p = NULL <-> l = []).
Proof.
  destruct l as [| q l]; cbn; [done |].
  intros (-> & Hq & _). split; [done | discriminate].
Qed.

(** Linking a new last node [a] after the old last node [e]. *)
Lemma msg_chain_snoc (h h' : gmap N obj) (a e : ptr) (ma me' : Message.t)
    (l0 : list ptr) :
  forall p : ptr,
    msg_chain h p (l0 ++ [e]) ->
    a <> NULL ->
    h' !! a = Some (OMessage ma) -> Message.next ma = NULL ->
    h' !! e = Some (OMessage me') -> Message.next me' = a ->
    (forall q m, q ∈ l0 -> h !! q = Some (OMessage m) ->
       exists m', h' !! q = Some (OMessage m') /\ Message.next m' = Message.next m) ->
    msg_chain h' p (l0 ++ [e; a]).
Proof.
  induction l0 as [| q l0 IH]; intros p Hc Ha Hma Hna Hme Hne Hsame.
  - destruct Hc as (-> & He & m & Hm & Hc). cbn.
    split; [done |]. split; [done |]. exists me'. split; [done |].
    rewrite Hne. split; [done |]. split; [done |]. exists ma. by rewrite Hna.
  - destruct Hc as (-> & Hq & m & Hm & Hc).
    destruct (Hsame q m) as (m' & Hm' & Hnext); [left | done |].
    cbn. split; [done |]. split; [done |]. exists m'. split; [done |].
    rewrite Hnext. apply IH; try done.
    intros q' m0 Hin. apply Hsame. by right.
Qed.

Lemma rcpt_chain_snoc (h h' : gmap N obj) (a e : ptr) (ra re' : Recipient.t)
    (l0 : list ptr) :
  forall p : ptr,
    rcpt_chain h p (l0 ++ [e]) ->
    a <> NULL ->
    h' !! a = Some (ORecipient ra) -> Recipient.next ra = NULL ->
    h' !! e = Some (ORecipient re') -> Recipient.next re' = a ->
    (forall q r, q ∈ l0 -> h !! q = Some (ORecipient r) ->
       exists r', h' !! q = Some (ORecipient r')
                  /\ Recipient.next r' = Recipient.next r) ->
    rcpt_chain h' p (l0 ++ [e; a]).
Proof.
  induction l0 as [| q l0 IH]; intros p Hc Ha Hra Hna Hre Hne Hsame.
  - destruct Hc as (-> & He & r & Hr & Hc). cbn.
    split; [done |]. split; [done |]. exists re'. split; [done |].
    rewrite Hne. split; [done |]. split; [done |]. exists ra. by rewrite Hna.
  - destruct Hc as (-> & Hq & r & Hr & Hc).
    destruct (Hsame q r) as (r' & Hr' & Hnext); [left | done |].
    cbn. split; [done |]. split; [done |]. exists r'. split; [done |].
    rewrite Hnext. apply IH; try done.
    intros q' r0 Hin. apply Hsame. by right.
Qed.

(** A traversal of a well linked list calls the visitor on its nodes, first
    to last, and on nothing else. *)
Lemma enumerate_messages_loop_chain (cb : fnptr) (arg : ptr) (l : list ptr) :
  forall (fuel : nat) (p : ptr) (st : state),
    cb <> NULL ->
    msg_chain (heap st) p l ->
    (length l < fuel)%nat ->
    enumerate_messages_loop fuel p cb arg st
      = Ok tt (with_trace (trace st ++ message_visits cb arg l) st).
Proof.
  induction l as [| q l IH]; intros fuel p st Hcb Hc Hfuel.
  - destruct fuel; [cbn in Hfuel; lia |]. cbn in Hc. subst p.
    cbn. rewrite app_nil_r. by destruct st.
  - destruct fuel; [cbn in Hfuel; lia |].
    destruct Hc as (-> & Hq & m & Hm & Hc).
    apply is_null_false in Hq. pose proof Hcb as Hcb'. apply is_null_false in Hcb'.
    cbn [enumerate_messages_loop]. rewrite Hq. exec.
    rewrite IH; [| done | done | cbn in Hfuel; lia].
    cbn. by rewrite <- app_assoc.
Qed.

Lemma enumerate_recipients_loop_chain (cb : fnptr) (arg : ptr) (l : list ptr) :
  forall (fuel : nat) (p : ptr) (st : state),
    cb <> NULL ->
    rcpt_chain (heap st) p l ->
    (length l < fuel)%nat ->
    enumerate_recipients_loop fuel p cb arg st
      = Ok tt (with_trace (trace st ++ recipient_visits (heap st) cb arg l) st).
Proof.
  induction l as [| q l IH]; intros fuel p st Hcb Hc Hfuel.
  - destruct fuel; [cbn in Hfuel; lia |]. cbn in Hc. subst p.
    cbn. rewrite app_nil_r. by destruct st.
  - destruct fuel; [cbn in Hfuel; lia |].
    destruct Hc as (-> & Hq & r & Hr & Hc).
    apply is_null_false in Hq. pose proof Hcb as Hcb'. apply is_null_false in Hcb'.
    cbn [enumerate_recipients_loop]. rewrite Hq. exec.
    rewrite IH; [| done | done | cbn in Hfuel; lia].
    cbn. unfold mailbox_of at 1. rewrite Hr. rewrite <- app_assoc. reflexivity.
Qed.

(** ** Construction keeps the graph well linked *)

Lemma smtp_add_message_inv (st : state) (a session : ptr) (g : creation_log) :
  graph_inv (heap st) session g ->
  exists p st',
    smtp_add_message a session st = Ok p st'
    /\ graph_inv (heap st') session (if is_null p then g else g ++ [(p, [])]).
Proof.
  intros Hinv. pose proof Hinv as (Hs & s & Hh & Hc & Hlast & Hnd & Hrc & Hdisj).
  pose proof Hs as Hsn. apply is_null_false in Hsn.
  unfold smtp_add_message, SMTPAPI_CHECK_ARGS. rewrite Hsn. cbn [negb].
  unfold bind at 1, malloc.
  destruct (is_null a) eqn:Ha.
  { exec. eexists _, _. split; [reflexivity |]. done. }
  destruct (heap st !! a) as [x |] eqn:Hha.
  { exec. eexists _, _. split; [reflexivity |]. done. }
  assert (Hne : a <> session) by (intros ->; congruence).
  assert (Hanew : a ∉ g.*1).
  { intros Hin. destruct (msg_chain_elem _ _ _ _ Hc Hin) as (_ & m & Hm). congruence. }
  rewrite Ha. unfold APPEND_LIST_messages. exec.
  destruct g as [| [e rl] g0 _] using rev_ind.
  - cbn in Hc. rewrite Hc. exec.
    eexists _, _. split; [reflexivity |]. rewrite Ha. api_cbn.
    match goal with |- graph_inv ?h _ _ => set (h' := h) end.
    assert (Hs' : h' !! session
                  = Some (OSession (Session.set_end_messages a (Session.set_messages a s))))
      by (subst h'; by repeat heap_rw).
    assert (Ha' : exists ma, h' !! a = Some (OMessage ma) /\ Message.next ma = NULL
                             /\ Message.recipients ma = NULL)
      by (subst h'; eexists; by repeat heap_rw).
    clearbody h'. destruct Ha' as (ma & Hma & Hnext & Hrcp).
    split; [done |]. eexists. split; [exact Hs' |].
    destruct s. api_cbn. cbn.
    split. { split; [done |]. split; [by apply is_null_false |]. exists ma. by rewrite Hnext. }
    split. { intros e0 He0. by injection He0. }
    split. { apply NoDup_singleton. }
    split.
    + intros [| i] q rl Hi; [| done]. injection Hi as <- <-.
      split; [apply NoDup_nil_2 |]. exists ma. rewrite Hrcp. done.
    + intros [| i] j q1 rl1 q2 rl2 x Hi Hj Hx1 Hx2; [| done].
      injection Hi as <- <-. by apply elem_of_nil in Hx1.
  - rewrite fmap_app in Hc, Hlast, Hnd, Hanew. cbn in Hc, Hlast, Hnd, Hanew.
    assert (Hmsgs : is_null (Session.messages s) = false).
    { apply is_null_false. intros Hnull.
      apply (msg_chain_head _ _ _ Hc) in Hnull. by destruct (g0.*1). }
    assert (Hend : Session.end_messages s = e).
    { apply Hlast. by rewrite last_snoc. }
    destruct (msg_chain_elem _ _ _ e Hc) as (He & me & Hme).
    { apply elem_of_app. right. by left. }
    assert (Hea : a <> e) by (intros ->; congruence).
    assert (Hes : session <> e) by (intros ->; congruence).
    rewrite Hmsgs, Hend. exec.
    eexists _, _. split; [reflexivity |]. rewrite Ha. api_cbn.
    match goal with |- graph_inv ?h _ _ => set (h' := h) end.
    assert (Hs' : h' !! session = Some (OSession (Session.set_end_messages a s)))
      by (subst h'; by repeat heap_rw).
    assert (Ha' : exists ma, h' !! a = Some (OMessage ma) /\ Message.next ma = NULL
                             /\ Message.recipients ma = NULL)
      by (subst h'; eexists; by repeat heap_rw).
    assert (He' : h' !! e = Some (OMessage (Message.set_next a me)))
      by (subst h'; by repeat heap_rw).
    assert (Hframe : forall q, q <> a -> q <> session -> q <> e -> h' !! q = heap st !! q).
    { intros q H1 H2 H3. subst h'. by repeat heap_rw. }
    clearbody h'. destruct Ha' as (ma & Hma & Hnext & Hrcp).
    assert (Hrframe : forall l p, rcpt_chain (heap st) p l -> rcpt_chain h' p l).
    { intros l p. apply rcpt_chain_preserved. intros q r _ Hq.
      exists r. split; [| done]. rewrite Hframe; [done | | |]; congruence. }
    split; [done |]. eexists. split; [exact Hs' |].
    rewrite !fmap_app. cbn [fmap list_fmap fst].
    split.
    { replace (Session.messages (Session.set_end_messages a s))
        with (Session.messages s) by (by destruct s).
      rewrite <- app_assoc. cbn [app].
      eapply msg_chain_snoc; try done.
      - by apply is_null_false.
      - by destruct me.
      - intros q m Hq Hm. exists m. split; [| done].
        rewrite Hframe; [done | | |].
        + intros ->. apply Hanew. apply elem_of_app. by left.
        + congruence.
        + intros ->. apply NoDup_app in Hnd as (_ & Hnd & _).
          apply (Hnd e Hq). by left. }
    split.
    { intros e0. rewrite last_snoc. intros [= <-]. by destruct s. }
    split.
    { apply NoDup_app. split; [done |]. split; [| apply NoDup_singleton].
      intros x Hx Hxa. apply list_elem_of_singleton in Hxa as ->. done. }
    split.
    + intros i q rl0 Hi.
      apply lookup_app_Some in Hi as [Hi | [_ Hi]].
      * destruct (Hrc i q rl0 Hi) as (Hnd0 & m & Hm & Hch & Hl).
        split; [done |].
        destruct (decide (q = e)) as [-> | Hqe].
        { exists (Message.set_next a me). split; [done |].
          assert (m = me) as -> by congruence.
          destruct me; cbn in *. split; [by apply Hrframe | done]. }
        exists m. split; [| split; [by apply Hrframe | done]].
        rewrite Hframe; [done | | | done].
        -- intros ->. congruence.
        -- congruence.
      * destruct (i - length (g0 ++ [(e, rl)]))%nat; [| done].
        injection Hi as <- <-. split; [apply NoDup_nil_2 |].
        exists ma. rewrite Hrcp. done.
    + intros i j q1 rl1 q2 rl2 x Hi Hj Hx1 Hx2.
      apply lookup_app_Some in Hi as [Hi | [_ Hi]];
        apply lookup_app_Some in Hj as [Hj | [_ Hj]].
      * by eapply Hdisj.
      * destruct (j - length (g0 ++ [(e, rl)]))%nat; [| done].
        injection Hj as <- <-. by apply elem_of_nil in Hx2.
      * destruct (i - length (g0 ++ [(e, rl)]))%nat; [| done].
        injection Hi as <- <-. by apply elem_of_nil in Hx1.
      * destruct (i - length (g0 ++ [(e, rl)]))%nat; [| done].
        injection Hi as <- <-. by apply elem_of_nil in Hx1.
Qed.


Lemma alter_log_recipient_fst (r : ptr) (g : creation_log) (k : nat) :
  (alter (log_recipient r) k g).*1 = g.*1.
Proof. revert k. induction g as [| x g IH]; intros [| k]; cbn; f_equal; auto. Qed.

Lemma alter_log_recipient_lookup (r : ptr) (g : creation_log) (k i : nat)
    (q : ptr) (rl : list ptr) :
  alter (log_recipient r) k g !! i = Some (q, rl) ->
  exists rl0, g !! i = Some (q, rl0)
    /\ ((i <> k /\ rl = rl0) \/ (i = k /\ rl = rl0 ++ [r])).
Proof.
  rewrite list_lookup_alter. case_decide as Hki.
  - subst i. destruct (g !! k) as [[q0 rl0] |]; [| done].
    cbn. intros [= <- <-]. exists rl0. split; [done |]. by right.
  - intros Hi. exists rl. split; [done |]. left. split; [congruence | done].
Qed.

(** The heap after a recipient [a1] has been linked to the end of the list
    of the [k]-th message still holds the logged graph. *)
Lemma graph_inv_add_recipient (h h' : gmap N obj) (session a1 a2 q : ptr)
    (g : creation_log) (k : nat) (rl : list ptr) (s : Session.t) (m m' : Message.t) :
  graph_inv h session g ->
  g !! k = Some (q, rl) ->
  a1 <> NULL -> h !! a1 = None -> h !! a2 = None ->
  h !! session = Some (OSession s) ->
  h !! q = Some (OMessage m) ->
  h' !! session = Some (OSession s) ->
  h' !! q = Some (OMessage m') ->
  Message.next m' = Message.next m ->
  rcpt_chain h' (Message.recipients m') (rl ++ [a1]) ->
  Message.end_recipients m' = a1 ->
  (forall x, x <> a1 -> x <> a2 -> x <> q -> x ∉ rl -> h' !! x = h !! x) ->
  graph_inv h' session (alter (log_recipient a1) k g).
Proof.
  intros (Hs & s0 & Hh & Hc & Hlast & Hnd & Hrc & Hdisj) Hk Ha1 Hh1 Hh2 Hhs Hm
    Hs' Hq' Hnext Hch' Hend Hframe.
  assert (s0 = s) as -> by congruence.
  assert (Hold : forall i q0 rl0 x, g !! i = Some (q0, rl0) -> x ∈ rl0 ->
            exists r, h !! x = Some (ORecipient r)).
  { intros i q0 rl0 x Hi Hx. destruct (Hrc i q0 rl0 Hi) as (_ & m0 & _ & Hch0 & _).
    by eapply rcpt_chain_elem. }
  assert (Hmsg_frame : forall x mx, x <> q -> h !! x = Some (OMessage mx) ->
            h' !! x = Some (OMessage mx)).
  { intros x mx Hxq Hx. rewrite Hframe; [done | congruence | congruence | done |].
    intros Hin. destruct (Hold k q rl x Hk Hin) as [r Hr]. congruence. }
  split; [done |]. exists s. split; [done |].
  rewrite alter_log_recipient_fst.
  split.
  { eapply msg_chain_preserved; [| exact Hc].
    intros x mx Hx Hmx. destruct (decide (x = q)) as [-> | Hxq].
    - exists m'. split; [done |]. congruence.
    - exists mx. split; [by apply Hmsg_frame | done]. }
  split; [done |]. split; [done |]. split.
  - intros i q0 rl0 Hi.
    apply alter_log_recipient_lookup in Hi as (rl1 & Hi & [[Hik ->] | [-> ->]]).
    + destruct (Hrc i q0 rl1 Hi) as (Hnd1 & m1 & Hm1 & Hch1 & Hl1).
      split; [done |]. exists m1.
      assert (Hq0 : q0 <> q).
      { intros ->. apply Hik. eapply (NoDup_lookup (g.*1) i k q); [done | |].
        - by rewrite list_lookup_fmap, Hi.
        - by rewrite list_lookup_fmap, Hk. }
      split; [by apply Hmsg_frame |]. split; [| done].
      eapply rcpt_chain_preserved; [| exact Hch1].
      intros x r Hx Hr. exists r. split; [| done].
      rewrite Hframe; [done | congruence | congruence | congruence |].
      intros Hin. apply Hik. by eapply (Hdisj i k _ _ _ _ x).
    + assert (q0 = q /\ rl1 = rl) as [-> ->] by (split; congruence).
      split.
      { apply NoDup_app. split; [by destruct (Hrc k q rl Hk) |].
        split; [| apply NoDup_singleton].
        intros x Hx Hxa. apply list_elem_of_singleton in Hxa as ->.
        destruct (Hold k q rl a1 Hk Hx) as [r Hr]. congruence. }
      exists m'. split; [done |]. split; [done |].
      intros x. rewrite last_snoc. intros [= <-]. done.
  - intros i j q1 rl1 q2 rl2 x Hi Hj Hx1 Hx2.
    apply alter_log_recipient_lookup in Hi as (rl1o & Hi & Hi').
    apply alter_log_recipient_lookup in Hj as (rl2o & Hj & Hj').
    assert (Hcase1 : x ∈ rl1o \/ (x = a1 /\ i = k)).
    { destruct Hi' as [[_ ->] | [-> ->]]; [by left |].
      apply elem_of_app in Hx1 as [Hx1 | Hx1]; [by left |].
      apply list_elem_of_singleton in Hx1. by right. }
    assert (Hcase2 : x ∈ rl2o \/ (x = a1 /\ j = k)).
    { destruct Hj' as [[_ ->] | [-> ->]]; [by left |].
      apply elem_of_app in Hx2 as [Hx2 | Hx2]; [by left |].
      apply list_elem_of_singleton in Hx2. by right. }
    destruct Hcase1 as [H1 | [-> ->]], Hcase2 as [H2 | [H2 ->]].
    + by eapply Hdisj.
    + subst x. destruct (Hold i q1 rl1o a1 Hi H1) as [r Hr]. congruence.
    + destruct (Hold j q2 rl2o a1 Hj H2) as [r Hr]. congruence.
    + done.
Qed.

Lemma smtp_add_recipient_inv (st : state) (a1 a2 session : ptr) (g : creation_log)
    (k : nat) (mailbox : option string) :
  graph_inv (heap st) session g ->
  exists p st',
    smtp_add_recipient a1 a2 (nth_message g k) mailbox st = Ok p st'
    /\ graph_inv (heap st') session
         (if is_null p then g else alter (log_recipient p) k g).
Proof.
  intros Hinv. pose proof Hinv as (Hs & s & Hh & Hc & Hlast & Hnd & Hrc & Hdisj).
  unfold nth_message. destruct (g !! k) as [[q rl] |] eqn:Hk.
  2:{ eexists _, _. split; [reflexivity |]. done. }
  destruct (Hrc k q rl Hk) as (Hndrl & m & Hm & Hch & Hlastr).
  assert (Hq : q <> NULL).
  { eapply (msg_chain_elem _ _ _ q Hc). apply list_elem_of_fmap.
    exists (q, rl). split; [done |]. by eapply list_elem_of_lookup_2. }
  destruct mailbox as [mailbox |].
  2:{ rewrite add_recipient_null_mailbox by done.
      eexists _, _. split; [reflexivity |]. done. }
  destruct (is_null a1) eqn:Ha1.
  { rewrite add_recipient_malloc_refused; [| done | left; by apply is_null_true].
    eexists _, _. split; [reflexivity |]. done. }
  destruct (heap st !! a1) as [x1 |] eqn:Hh1.
  { rewrite add_recipient_malloc_refused; [| done | right; by eexists].
    eexists _, _. split; [reflexivity |]. done. }
  assert (Hf1 : fresh_in st a1) by (split; [by apply is_null_false | done]).
  assert (Hfail : a2 = a1 \/ refused_in st a2 ->
            exists p st', smtp_add_recipient a1 a2 q (Some mailbox) st = Ok p st'
              /\ graph_inv (heap st') session
                   (if is_null p then g else alter (log_recipient p) k g)).
  { intros Hr. rewrite add_recipient_strdup_refused by done.
    eexists _, _. split; [reflexivity |]. done. }
  destruct (decide (a2 = a1)) as [Heq | Hne12]; [by apply Hfail; left |].
  destruct (is_null a2) eqn:Ha2.
  { apply Hfail. right. left. by apply is_null_true. }
  destruct (heap st !! a2) as [x2 |] eqn:Hh2.
  { apply Hfail. right. right. by eexists. }
  clear Hfail.
  assert (Hq1 : a1 <> q) by (intros ->; congruence).
  assert (Hq2 : a2 <> q) by (intros ->; congruence).
  assert (Hs1 : a1 <> session) by (intros ->; congruence).
  assert (Hs2 : a2 <> session) by (intros ->; congruence).
  assert (Hqs : q <> session) by (intros ->; congruence).
  assert (Hrun : forall kont : ptr -> M ptr,
            (p <- strdup a2 (Some mailbox) ;; kont p)
              (with_heap (<[a1 := ORecipient (Recipient.set_message q Recipient.zero)]>
                 (<[a1 := ORecipient Recipient.zero]> (<[a1 := ORaw]> (heap st))))
               (with_heap (<[a1 := ORecipient Recipient.zero]> (<[a1 := ORaw]> (heap st)))
                 (with_heap (<[a1 := ORaw]> (heap st)) st)))
            = kont a2 (with_heap (<[a2 := OString (c_str mailbox)]>
                 (<[a1 := ORecipient (Recipient.set_message q Recipient.zero)]>
                 (<[a1 := ORecipient Recipient.zero]> (<[a1 := ORaw]> (heap st))))) st)).
  { intros kont. unfold bind. rewrite strdup_fresh.
    - f_equal.
    - split; [by apply is_null_false |]. cbn. by rewrite !lookup_insert_ne. }
  pose proof Hq as Hqn. apply is_null_false in Hqn.
  unfold smtp_add_recipient, SMTPAPI_CHECK_ARGS. rewrite Hqn.
  rewrite bool_decide_eq_true_2 by (by eexists). cbn [negb andb].
  unfold bind at 1. rewrite (malloc_fresh _ _ Hf1). rewrite Ha1.
  unfold bind at 1, memset_zero at 1. cbn [heap with_heap]. rewrite lookup_insert_eq.
  unfold bind at 1, update_recipient at 1. cbn [heap with_heap].
  rewrite lookup_insert_eq.
  rewrite Hrun. unfold APPEND_LIST_recipients. exec.
  assert (Ha1n : a1 <> NULL) by (by apply is_null_false).
  destruct rl as [| e rl0 _] using rev_ind.
  - cbn in Hch. rewrite Hch. exec.
    eexists _, _. split; [reflexivity |]. api_cbn.
    match goal with |- graph_inv ?h _ _ => set (h' := h) end.
    assert (Hs' : h' !! session = Some (OSession s))
      by (subst h'; by repeat heap_rw).
    assert (Ha' : exists ra, h' !! a1 = Some (ORecipient ra) /\ Recipient.next ra = NULL)
      by (subst h'; eexists; by repeat heap_rw).
    assert (Hq' : h' !! q = Some (OMessage (Message.set_end_recipients a1
                                              (Message.set_recipients a1 m))))
      by (subst h'; by repeat heap_rw).
    assert (Hframe : forall x, x <> a1 -> x <> a2 -> x <> q -> h' !! x = heap st !! x).
    { intros x H1 H2 H3. subst h'. by repeat heap_rw. }
    clearbody h'. destruct Ha' as (ra & Hra & Hnext). rewrite Ha1.
    eapply (graph_inv_add_recipient (heap st) h' session a1 a2 q g k []); try done.
    + by destruct m.
    + destruct m. cbn. split; [done |]. split; [done |]. exists ra. by rewrite Hnext.
    + by destruct m.
    + intros x H1 H2 H3 _. by apply Hframe.
  - assert (Hrcp : is_null (Message.recipients m) = false).
    { apply is_null_false. intros Hnull.
      apply (rcpt_chain_head _ _ _ Hch) in Hnull. by destruct rl0. }
    assert (Hend : Message.end_recipients m = e).
    { apply Hlastr. by rewrite last_snoc. }
    destruct (rcpt_chain_elem _ _ _ e Hch) as (He & re & Hre).
    { apply elem_of_app. right. by left. }
    assert (He1 : a1 <> e) by (intros ->; congruence).
    assert (He2 : a2 <> e) by (intros ->; congruence).
    assert (Heq : q <> e) by (intros ->; congruence).
    rewrite Hrcp, Hend. exec.
    eexists _, _. split; [reflexivity |]. api_cbn.
    match goal with |- graph_inv ?h _ _ => set (h' := h) end.
    assert (Hs' : h' !! session = Some (OSession s))
      by (subst h'; by repeat heap_rw).
    assert (Ha' : exists ra, h' !! a1 = Some (ORecipient ra) /\ Recipient.next ra = NULL)
      by (subst h'; eexists; by repeat heap_rw).
    assert (Hq' : h' !! q = Some (OMessage (Message.set_end_recipients a1 m)))
      by (subst h'; by repeat heap_rw).
    assert (He' : h' !! e = Some (ORecipient (Recipient.set_next a1 re)))
      by (subst h'; by repeat heap_rw).
    assert (Hframe : forall x, x <> a1 -> x <> a2 -> x <> q -> x <> e ->
              h' !! x = heap st !! x).
    { intros x H1 H2 H3 H4. subst h'. by repeat heap_rw. }
    clearbody h'. destruct Ha' as (ra & Hra & Hnext). rewrite Ha1.
    eapply (graph_inv_add_recipient (heap st) h' session a1 a2 q g k (rl0 ++ [e]));
      try done.
    + by destruct m.
    + replace (Message.recipients (Message.set_end_recipients a1 m))
        with (Message.recipients m) by (by destruct m).
      rewrite <- app_assoc. cbn [app].
      eapply rcpt_chain_snoc; try done.
      * by destruct re.
      * intros x r Hx Hr. exists r. split; [| done].
        rewrite Hframe; [done | congruence | congruence | congruence |].
        intros ->. apply NoDup_app in Hndrl as (_ & Hndrl & _).
        apply (Hndrl e Hx). by left.
    + by destruct m.
    + intros x H1 H2 H3 Hx. apply Hframe; try done.
      intros ->. apply Hx. apply elem_of_app. right. by left.
Qed.

Lemma smtp_create_session_inv (cfg : config) (a : ptr) (st st' : state) (session : ptr) :
  smtp_create_session cfg a st = Ok session st' ->
  session <> NULL ->
  graph_inv (heap st') session [].
Proof.
  unfold smtp_create_session, bind at 1, malloc.
  destruct (is_null a) eqn:Ha.
  { exec. intros [= <- <-]. done. }
  destruct (heap st !! a) as [x |] eqn:Hh.
  { exec. intros [= <- <-]. done. }
  rewrite Ha. exec. intros [= <- <-] Hs. cbn.
  split; [done |]. eexists. split; [by rewrite lookup_insert_eq |].
  cbn. split; [done |]. split; [done |]. split; [apply NoDup_nil_2 |].
  split; [done |]. intros i j q1 rl1 q2 rl2 x Hi. done.
Qed.

Lemma run_build_inv (session : ptr) (script : list build_call) :
  forall (g : creation_log) (st : state),
    graph_inv (heap st) session g ->
    exists g' st',
      run_build session script g st = Ok g' st'
      /\ graph_inv (heap st') session g'.
Proof.
  induction script as [| c script IH]; intros g st Hinv.
  - exists g, st. done.
  - cbn [run_build]. unfold bind at 1.
    destruct c as [a | k mailbox a1 a2]; cbn [run_build_call]; unfold bind at 1.
    + destruct (smtp_add_message_inv st a session g Hinv) as (p & st' & -> & Hinv').
      cbn. by apply IH.
    + destruct (smtp_add_recipient_inv st a1 a2 session g k mailbox Hinv)
        as (p & st' & -> & Hinv').
      cbn. by apply IH.
Qed.

Lemma enumerate_messages_graph (st : state) (session : ptr) (g : creation_log)
    (fuel : nat) (cb : fnptr) (arg : ptr) :
  graph_inv (heap st) session g ->
  cb <> NULL ->
  (length g < fuel)%nat ->
  smtp_enumerate_messages fuel session cb arg st
    = Ok 1 (with_trace (trace st ++ message_visits cb arg (g.*1)) st).
Proof.
  intros (Hs & s & Hh & Hc & _) Hcb Hfuel.
  pose proof Hcb as Hcb'. apply is_null_false in Hs, Hcb'.
  unfold smtp_enumerate_messages, SMTPAPI_CHECK_ARGS. rewrite Hs, Hcb'.
  cbn [negb andb]. exec.
  rewrite (enumerate_messages_loop_chain cb arg (g.*1)); try done.
  by rewrite length_fmap.
Qed.

Lemma enumerate_recipients_graph (st : state) (session : ptr) (g : creation_log)
    (q : ptr) (rl : list ptr) (fuel : nat) (cb : fnptr) (arg : ptr) :
  graph_inv (heap st) session g ->
  (q, rl) ∈ g ->
  cb <> NULL ->
  (length rl < fuel)%nat ->
  smtp_enumerate_recipients fuel q cb arg st
    = Ok 1 (with_trace (trace st ++ recipient_visits (heap st) cb arg rl) st).
Proof.
  intros (Hs & s & Hh & Hc & _ & _ & Hrc & _) Hin Hcb Hfuel.
  apply list_elem_of_lookup_1 in Hin as [i Hi].
  destruct (Hrc i q rl Hi) as (_ & m & Hm & Hch & _).
  assert (Hq : q <> NULL).
  { eapply (msg_chain_elem _ _ _ q Hc). apply list_elem_of_fmap.
    exists (q, rl). split; [done |]. by eapply list_elem_of_lookup_2. }
  apply is_null_false in Hq.
  unfold smtp_enumerate_recipients, SMTPAPI_CHECK_ARGS. rewrite Hq.
  cbn [negb]. exec.
  by rewrite (enumerate_recipients_loop_chain cb arg rl).
Qed.

(** C6.  Take a session just created and any sequence of [smtp_add_message]
    and [smtp_add_recipient] calls on it, whatever the allocator answers.
    The sequence runs to its end, and with [g] the log of the entities it
    created, in creation order and without repetition,
    [smtp_enumerate_messages] calls its visitor on the messages of [g], once
    each and in this order, and for every message of [g]
    [smtp_enumerate_recipients] calls its visitor on the recipients logged
    for it, once each and in this order, with the recipient's mailbox. *)
Theorem enumeration_in_creation_order
    (cfg : config) (a0 : ptr) (st0 st1 : state) (session : ptr)
    (script : list build_call) :
  smtp_create_session cfg a0 st0 = Ok session st1 ->
  session <> NULL ->
  exists (g : creation_log) (st : state),
    run_build session script [] st1 = Ok g st
    /\ NoDup (g.*1)
    /\ (forall q rl, (q, rl) ∈ g -> NoDup rl)
    /\ (forall fuel cb arg,
          cb <> NULL -> (length g < fuel)%nat ->
          smtp_enumerate_messages fuel session cb arg st
            = Ok 1 (with_trace (trace st ++ message_visits cb arg (g.*1)) st))
    /\ (forall q rl fuel cb arg,
          (q, rl) ∈ g -> cb <> NULL -> (length rl < fuel)%nat ->
          smtp_enumerate_recipients fuel q cb arg st
            = Ok 1 (with_trace
                      (trace st ++ recipient_visits (heap st) cb arg rl) st)).
Proof.
  intros Hcreate Hs.
  pose proof (smtp_create_session_inv _ _ _ _ _ Hcreate Hs) as Hinv0.
  destruct (run_build_inv session script [] st1 Hinv0) as (g & st & Hrun & Hinv).
  exists g, st. split; [done |].
  pose proof Hinv as (_ & s & _ & _ & _ & Hnd & Hrc & _).
  split; [done |]. split.
  { intros q rl Hin. apply list_elem_of_lookup_1 in Hin as [i Hi].
    by destruct (Hrc i q rl Hi). }
  split.
  - intros fuel cb arg Hcb Hfuel. by apply enumerate_messages_graph.
  - intros q rl fuel cb arg Hin Hcb Hfuel. by eapply enumerate_recipients_graph.
Qed.

(** ** The required extensions only grow *)

Lemma sessions_from_refl (st : state) : sessions_from st st.
Proof. intros p s' Hp. exists s'. split; [done |]. exists 0. by rewrite Z.lor_0_r. Qed.

Lemma sessions_from_heap (st st' : state) :
  heap st' = heap st -> sessions_from st st'.
Proof. intros Heq p s' Hp. rewrite Heq in Hp. by apply (sessions_from_refl st). Qed.

Lemma sessions_from_trans (st1 st2 st3 : state) :
  sessions_from st1 st2 -> sessions_from st2 st3 -> sessions_from st1 st3.
Proof.
  intros H12 H23 p s3 Hp.
  destruct (H23 p s3 Hp) as (s2 & Hp2 & b2 & Hb2).
  destruct (H12 p s2 Hp2) as (s1 & Hp1 & b1 & Hb1).
  exists s1. split; [done |]. exists (Z.lor b1 b2).
  by rewrite Hb2, Hb1, Z.lor_assoc.
Qed.

Lemma sessions_from_kept (st st' : state) :
  sessions_from st st' -> requirements_kept st st'.
Proof.
  intros H p s s' Hp Hp'. destruct (H p s' Hp') as (s0 & Hp0 & Hb).
  by assert (s0 = s) as -> by congruence.
Qed.

Lemma keeps_ret {A} (a : A) : keeps (ret a).
Proof. intros st a' st' [= <- <-]. apply sessions_from_refl. Qed.

Lemma keeps_fail {A} (f : fault) : keeps (@fail A f).
Proof. intros st a st' H. discriminate H. Qed.

Lemma keeps_bind {A B} (m : M A) (k : A -> M B) :
  keeps m -> (forall a, keeps (k a)) -> keeps (bind m k).
Proof.
  intros Hm Hk st b st'. unfold bind.
  destruct (m st) as [a st1 | f |] eqn:Hmst; [| done | done].
  intros Hkst. eapply sessions_from_trans; [by eapply Hm | by eapply Hk].
Qed.

Lemma keeps_set_error (e : api_error) : keeps (set_error e).
Proof. intros st a st' [= <- <-]. by apply sessions_from_heap. Qed.

Lemma keeps_set_errno (e : api_error) : keeps (set_errno e).
Proof. intros st a st' [= <- <-]. by apply sessions_from_heap. Qed.

Lemma keeps_log (e : event) : keeps (log e).
Proof. intros st a st' [= <- <-]. by apply sessions_from_heap. Qed.

Lemma sessions_from_insert (st : state) (p : ptr) (o : obj) :
  (forall s', o = OSession s' ->
     exists s, heap st !! p = Some (OSession s)
       /\ exists bits, Session.required_extensions s'
                       = Z.lor (Session.required_extensions s) bits) ->
  sessions_from st (with_heap (<[p := o]> (heap st)) st).
Proof.
  intros Ho q s' Hq. cbn in Hq.
  destruct (decide (p = q)) as [<- | Hne].
  - rewrite lookup_insert_eq in Hq. apply Ho. congruence.
  - rewrite lookup_insert_ne in Hq by done. by apply (sessions_from_refl st).
Qed.

Lemma sessions_from_delete (st : state) (p : ptr) :
  sessions_from st (with_heap (delete p (heap st)) st).
Proof.
  intros q s' Hq. cbn in Hq.
  destruct (decide (p = q)) as [<- | Hne].
  - by rewrite lookup_delete_eq in Hq.
  - rewrite lookup_delete_ne in Hq by done. by apply (sessions_from_refl st).
Qed.

Lemma keeps_malloc (a : ptr) : keeps (malloc a).
Proof.
  intros st p st'. unfold malloc.
  destruct (is_null a); [intros [= <- <-]; apply sessions_from_refl |].
  destruct (heap st !! a); intros [= <- <-]; [apply sessions_from_refl |].
  apply sessions_from_insert. done.
Qed.

Lemma keeps_free (p : ptr) : keeps (free p).
Proof.
  intros st a st'. unfold free.
  destruct (is_null p); [intros [= <- <-]; apply sessions_from_refl |].
  destruct (heap st !! p); [| done]. intros [= <- <-]. apply sessions_from_delete.
Qed.

Lemma keeps_strdup (a : ptr) (s : option string) : keeps (strdup a s).
Proof.
  intros st p st'. unfold strdup. destruct s as [str |]; [| done].
  destruct (malloc a st) as [q st1 | |] eqn:Hm; [| done | done].
  pose proof (keeps_malloc a st q st1 Hm) as H1.
  destruct (is_null q); intros [= <- <-]; [done |].
  eapply sessions_from_trans; [exact H1 |]. by apply sessions_from_insert.
Qed.

Lemma keeps_load_session (p : ptr) : keeps (load_session p).
Proof.
  intros st a st'. unfold load_session.
  destruct (heap st !! p) as [[] |]; try done. intros [= <- <-]. apply sessions_from_refl.
Qed.
Lemma keeps_load_message (p : ptr) : keeps (load_message p).
Proof.
  intros st a st'. unfold load_message.
  destruct (heap st !! p) as [[] |]; try done. intros [= <- <-]. apply sessions_from_refl.
Qed.
Lemma keeps_load_recipient (p : ptr) : keeps (load_recipient p).
Proof.
  intros st a st'. unfold load_recipient.
  destruct (heap st !! p) as [[] |]; try done. intros [= <- <-]. apply sessions_from_refl.
Qed.
Lemma keeps_load_string (p : ptr) : keeps (load_string p).
Proof.
  intros st a st'. unfold load_string.
  destruct (heap st !! p) as [[] |]; try done. intros [= <- <-]. apply sessions_from_refl.
Qed.

Lemma keeps_store_string (p : ptr) (b : string) : keeps (store_string p b).
Proof.
  intros st a st'. unfold store_string.
  destruct (heap st !! p) as [[] |]; try done. intros [= <- <-].
  by apply sessions_from_insert.
Qed.

Lemma keeps_update_message (p : ptr) (f : Message.t -> Message.t) :
  keeps (update_message p f).
Proof.
  intros st a st'. unfold update_message.
  destruct (heap st !! p) as [[] |]; try done. intros [= <- <-].
  by apply sessions_from_insert.
Qed.

Lemma keeps_update_recipient (p : ptr) (f : Recipient.t -> Recipient.t) :
  keeps (update_recipient p f).
Proof.
  intros st a st'. unfold update_recipient.
  destruct (heap st !! p) as [[] |]; try done. intros [= <- <-].
  by apply sessions_from_insert.
Qed.

Lemma keeps_update_session (p : ptr) (f : Session.t -> Session.t) :
  (forall s, exists bits,
     Session.required_extensions (f s) = Z.lor (Session.required_extensions s) bits) ->
  keeps (update_session p f).
Proof.
  intros Hf st a st'. unfold update_session.
  destruct (heap st !! p) as [[| | s | |] |] eqn:Hp; try done. intros [= <- <-].
  apply sessions_from_insert. intros s' [= <-]. exists s. split; [done |]. apply Hf.
Qed.

Lemma keeps_memset_zero (p : ptr) (o : obj) :
  (forall s, o <> OSession s) -> keeps (memset_zero p o).
Proof.
  intros Ho st a st'. unfold memset_zero.
  destruct (heap st !! p); [| done]. intros [= <- <-].
  apply sessions_from_insert. intros s' ->. by destruct (Ho s').
Qed.

Lemma keeps_out_of_fuel {A} : keeps (fun _ => @OutOfFuel A).
Proof. intros st a st' H. discriminate H. Qed.

Ltac keeps_setter :=
  let s := fresh "s" in
  intros s; first [ by (exists 0; destruct s; cbn; rewrite Z.lor_0_r)
                  | by (eexists; destruct s; cbn) ].

Ltac keeps_step :=
  first
    [ apply keeps_ret | apply keeps_fail
    | apply keeps_set_error | apply keeps_set_errno | apply keeps_log
    | apply keeps_malloc | apply keeps_free | apply keeps_strdup
    | apply keeps_load_session | apply keeps_load_message
    | apply keeps_load_recipient | apply keeps_load_string
    | apply keeps_store_string | apply keeps_update_message
    | apply keeps_update_recipient
    | apply keeps_update_session; keeps_setter
    | apply keeps_memset_zero; done
    | apply keeps_bind; [| intros ?]
    | apply keeps_out_of_fuel
    | match goal with
      | IH : forall _, keeps _ |- _ => apply IH
      end
    | match goal with
      | |- keeps (if ?b then _ else _) => destruct b
      | |- keeps (match ?x with _ => _ end) => destruct x
      end ].

Ltac keeps_tac :=
  unfold SMTPAPI_CHECK_ARGS, reset_status, require_extension, returning,
    call_messagecb, call_recipientcb, destroy_auth_mechanisms,
    destroy_etrn_nodes, msg_source_destroy, destroy_header_table,
    first_message, first_recipient, APPEND_LIST_messages, APPEND_LIST_recipients;
  cbv zeta; repeat keeps_step.


Lemma keeps_enumerate_messages_loop (cb : fnptr) (arg : ptr) (fuel : nat) :
  forall p, keeps (enumerate_messages_loop fuel p cb arg).
Proof. induction fuel as [| fuel IH]; intros p; cbn; keeps_tac. Qed.

Lemma keeps_enumerate_recipients_loop (cb : fnptr) (arg : ptr) (fuel : nat) :
  forall p, keeps (enumerate_recipients_loop fuel p cb arg).
Proof. induction fuel as [| fuel IH]; intros p; cbn; keeps_tac. Qed.

Lemma keeps_destroy_recipients_loop (fuel : nat) :
  forall session, keeps (destroy_recipients_loop fuel session).
Proof. induction fuel as [| fuel IH]; intros p; cbn; keeps_tac. Qed.

Lemma keeps_destroy_messages_loop (fuel_r fuel : nat) :
  forall session, keeps (destroy_messages_loop fuel_r fuel session).
Proof.
  induction fuel as [| fuel IH]; intros p; cbn; keeps_tac.
  all: try apply keeps_destroy_recipients_loop.
Qed.

(** Every operation but the creation of a session and its start keeps the
    sessions of the heap and only adds to their requirements. *)
Lemma keeps_run_call cfg EXT_DSN EXT_8BITMIME engine gs nt (c : api_call) :
  match c with
  | Call_create_session _ | Call_start_session _ _ => True
  | _ => keeps (run_call cfg EXT_DSN EXT_8BITMIME engine gs nt c)
  end.
Proof.
  destruct c; try exact I; cbn [run_call];
    unfold smtp_set_server, smtp_set_hostname, smtp_add_message,
      smtp_enumerate_messages, smtp_message_transfer_status,
      smtp_set_reverse_path, smtp_reverse_path_status, smtp_message_reset_status,
      smtp_add_recipient, smtp_enumerate_recipients, smtp_recipient_status,
      smtp_recipient_check_complete, smtp_recipient_reset_status,
      smtp_dsn_set_ret, smtp_dsn_set_envid, smtp_dsn_set_notify,
      smtp_dsn_set_orcpt, smtp_size_set_estimate, smtp_8bitmime_set_body,
      smtp_deliverby_set_mode, smtp_set_messagecb, smtp_set_eventcb,
      smtp_set_monitorcb, smtp_destroy_session, smtp_set_application_data,
      smtp_get_application_data, smtp_message_set_application_data,
      smtp_message_get_application_data, smtp_recipient_set_application_data,
      smtp_recipient_get_application_data, smtp_option_require_all_recipients;
    keeps_tac;
    first [ apply keeps_enumerate_messages_loop
          | apply keeps_enumerate_recipients_loop
          | apply keeps_destroy_messages_loop ].
Qed.

Lemma land_lor_same (a b : Z) : Z.land (Z.lor a b) b = b.
Proof.
  apply Z.bits_inj'. intros n _. rewrite Z.land_spec, Z.lor_spec.
  by destruct (Z.testbit a n), (Z.testbit b n).
Qed.

Lemma lor_keeps_bits (a b : Z) (i : Z) :
  Z.testbit a i = true -> Z.testbit (Z.lor a b) i = true.
Proof. intros H. by rewrite Z.lor_spec, H. Qed.

Lemma create_session_kept (cfg : config) (a : ptr) (st st' : state) (p : ptr) :
  smtp_create_session cfg a st = Ok p st' -> requirements_kept st st'.
Proof.
  unfold smtp_create_session, bind at 1, malloc.
  destruct (is_null a) eqn:Ha.
  { exec. intros [= <- <-]. apply sessions_from_kept. by apply sessions_from_heap. }
  destruct (heap st !! a) as [x |] eqn:Hh.
  { exec. intros [= <- <-]. apply sessions_from_kept. by apply sessions_from_heap. }
  rewrite Ha. exec. intros [= <- <-] q s s' Hq Hq'. cbn in Hq'.
  assert (a <> q) by (intros ->; congruence).
  rewrite !lookup_insert_ne in Hq' by done.
  assert (s' = s) as -> by congruence. exists 0. by rewrite Z.lor_0_r.
Qed.

Lemma start_session_loop_state (fuel : nat) :
  forall p st b st', start_session_loop fuel p st = Ok b st' -> st' = st.
Proof.
  induction fuel as [| fuel IH]; intros p st b st'; cbn; [done |].
  destruct (is_null p); [by intros [= _ <-] |].
  exec. destruct (heap st !! p) as [[| | | m |] |]; try done.
  destruct (is_null (Message.cb m)); [by intros [= _ <-] |]. apply IH.
Qed.

Lemma start_session_cases (cfg : config) (engine : ptr -> state -> Z * state)
    (fuel : nat) (session : ptr) (st st' : state) (v : Z) :
  smtp_start_session cfg engine fuel session st = Ok v st' ->
  st' = with_errno (Some SMTP_ERR_INVAL) st
  \/ do_session engine session st = Ok v st'.
Proof.
  unfold smtp_start_session, SMTPAPI_CHECK_ARGS, bind, ret, load_session, set_error.
  destruct (is_null session); [intros [= _ <-]; by left |].
  destruct (heap st !! session) as [[| ? | s | ? | ?] |] eqn:Hs; try done.
  destruct (is_null (Session.host s)); [intros [= _ <-]; by left |].
  cbn [negb].
  assert (Hrest :
    match start_session_loop fuel (Session.messages s) st with
    | Ok a st'0 =>
        (if a then do_session engine session
         else fun st0 => Ok 0 (with_errno (Some SMTP_ERR_INVAL) st0)) st'0
    | Fault f => Fault f
    | OutOfFuel => OutOfFuel
    end = Ok v st' ->
    st' = with_errno (Some SMTP_ERR_INVAL) st
    \/ do_session engine session st = Ok v st').
  { destruct (start_session_loop fuel (Session.messages s) st) as [b st1 | |] eqn:Hl;
      [| done | done].
    apply start_session_loop_state in Hl as ->.
    destruct b; [by right |]. intros [= _ <-]. by left. }
  destruct (HAVE_GETHOSTNAME cfg).
  - rewrite Hs. exact Hrest.
  - rewrite Hs. destruct (is_null (Session.localhost s)); [intros [= _ <-]; by left |].
    cbn [negb]. rewrite Hs. exact Hrest.
Qed.

Lemma start_session_kept (cfg : config) (engine : ptr -> state -> Z * state)
    (fuel : nat) (session : ptr) (st st' : state) (v : Z) :
  (forall p st0, requirements_kept st0 (engine p st0).2) ->
  smtp_start_session cfg engine fuel session st = Ok v st' ->
  requirements_kept st st'.
Proof.
  intros Hengine Hrun. apply start_session_cases in Hrun as [-> | Hrun].
  - apply sessions_from_kept. by apply sessions_from_heap.
  - unfold do_session in Hrun.
    pose proof (Hengine session (with_trace (trace st ++ [EvDoSession session]) st))
      as Hk.
    destruct (engine session (with_trace (trace st ++ [EvDoSession session]) st))
      as [r st2].
    injection Hrun as <- <-. exact Hk.
Qed.

Lemma run_call_kept cfg EXT_DSN EXT_8BITMIME engine gs nt (c : api_call)
    (st st' : state) (v : retval) :
  (forall p st0, requirements_kept st0 (engine p st0).2) ->
  run_call cfg EXT_DSN EXT_8BITMIME engine gs nt c st = Ok v st' ->
  requirements_kept st st'.
Proof.
  intros Hengine Hrun.
  pose proof (keeps_run_call cfg EXT_DSN EXT_8BITMIME engine gs nt c) as Hk.
  destruct c; try (apply sessions_from_kept; by eapply Hk).
  - cbn [run_call] in Hrun. unfold returning, bind, ret in Hrun.
    destruct (smtp_create_session cfg a st) as [p st1 | |] eqn:Hc; [| done | done].
    injection Hrun as <- <-. by eapply create_session_kept.
  - cbn [run_call] in Hrun. unfold returning, bind, ret in Hrun.
    destruct (smtp_start_session cfg engine fuel session st) as [r st1 | |] eqn:Hc;
      [| done | done].
    injection Hrun as <- <-. by eapply start_session_kept.
Qed.


(** Inversion of a run that returned: case analysis on what the
    computation inspects next. *)
Ltac head_of t :=
  lazymatch t with
  | match ?x with _ => _ end => head_of x
  | (match ?x with _ => _ end) _ => head_of x
  | _ => t
  end.

Ltac inv_step :=
  first
    [ match goal with
      | |- (_ = Ok _ _) -> _ => let H := fresh in intros H; discriminate H
      end
    | match goal with
      | m : Message.t |- _ => destruct m
      | r : Recipient.t |- _ => destruct r
      | s : Session.t |- _ => destruct s
      end
    | progress exec
    | rewrite lookup_insert
    | match goal with
      | |- (?lhs = Ok _ _) -> _ =>
          let h := head_of lhs in
          lazymatch h with
          | Ok _ _ => fail
          | Fault _ => fail
          | OutOfFuel => fail
          | _ => first [ is_var h; destruct h | destruct h eqn:? ]
          end
      end ].

Ltac inv_exec := repeat inv_step.

(** The end of a setter that returned 1: the owning session is the one
    whose requirements were or-ed with the extension bit. *)
Ltac requires_done :=
  let H := fresh in
  intros H; injection H as <-;
  eexists _, _; split; [reflexivity |];
  split; [api_cbn; repeat heap_rw; reflexivity |];
  api_cbn; apply land_lor_same.

Lemma dsn_set_ret_requires (EXT_DSN : Z) (st st' : state) (message : ptr)
    (flags : ret_flags) :
  flags <> Ret_NOTSET ->
  smtp_dsn_set_ret EXT_DSN message flags st = Ok 1 st' ->
  exists session s',
    session_of_message (heap st) message = Some session
    /\ heap st' !! session = Some (OSession s')
    /\ Z.land (Session.required_extensions s') EXT_DSN = EXT_DSN.
Proof.
  intros Hflags. unfold smtp_dsn_set_ret, session_of_message.
  rewrite bool_decide_eq_true_2 by done.
  inv_exec. requires_done.
Qed.

Lemma e8bitmime_set_body_requires (EXT_8BITMIME : Z) (st st' : state) (message : ptr)
    (body : e8bitmime_body) :
  body <> E8bitmime_NOTSET ->
  smtp_8bitmime_set_body EXT_8BITMIME message body st = Ok 1 st' ->
  exists session s',
    session_of_message (heap st) message = Some session
    /\ heap st' !! session = Some (OSession s')
    /\ Z.land (Session.required_extensions s') EXT_8BITMIME = EXT_8BITMIME.
Proof.
  intros Hbody. unfold smtp_8bitmime_set_body, session_of_message.
  rewrite bool_decide_eq_true_2 by done.
  inv_exec. requires_done.
Qed.

Lemma dsn_set_envid_requires (EXT_DSN : Z) (st st' : state) (a message : ptr)
    (envid : option string) :
  smtp_dsn_set_envid EXT_DSN a message envid st = Ok 1 st' ->
  exists session s',
    session_of_message (heap st) message = Some session
    /\ heap st' !! session = Some (OSession s')
    /\ Z.land (Session.required_extensions s') EXT_DSN = EXT_DSN.
Proof.
  unfold smtp_dsn_set_envid, session_of_message, strdup, malloc.
  destruct envid as [envid |]; inv_exec. requires_done.
Qed.

Lemma dsn_set_notify_requires (EXT_DSN : Z) (st st' : state) (recipient : ptr)
    (flags : notify_flags) :
  flags <> Notify_NOTSET ->
  smtp_dsn_set_notify EXT_DSN recipient flags st = Ok 1 st' ->
  exists session s',
    session_of_recipient (heap st) recipient = Some session
    /\ heap st' !! session = Some (OSession s')
    /\ Z.land (Session.required_extensions s') EXT_DSN = EXT_DSN.
Proof.
  intros Hflags. unfold smtp_dsn_set_notify, session_of_recipient, session_of_message.
  apply Z.eqb_neq in Hflags. rewrite Hflags. cbn [negb].
  inv_exec. requires_done.
Qed.

Lemma dsn_set_orcpt_requires (EXT_DSN : Z) (st st' : state) (a1 a2 recipient : ptr)
    (address_type address : option string) :
  smtp_dsn_set_orcpt EXT_DSN a1 a2 recipient address_type address st = Ok 1 st' ->
  exists session s',
    session_of_recipient (heap st) recipient = Some session
    /\ heap st' !! session = Some (OSession s')
    /\ Z.land (Session.required_extensions s') EXT_DSN = EXT_DSN.
Proof.
  unfold smtp_dsn_set_orcpt, session_of_recipient, session_of_message, strdup, malloc.
  destruct address_type as [address_type |], address as [address |]; inv_exec.
  all: requires_done.
Qed.

Lemma size_set_estimate_requirements (st st' : state) (message : ptr) (size v : Z) :
  smtp_size_set_estimate message size st = Ok v st' ->
  forall p, requirements_of (heap st') p = requirements_of (heap st) p.
Proof.
  unfold smtp_size_set_estimate. inv_exec.
  all: intros [= _ <-] p; unfold requirements_of; cbn;
    rewrite ?lookup_insert; repeat case_decide; subst;
    repeat match goal with H : heap _ !! _ = _ |- _ => rewrite H end; done.
Qed.

Lemma deliverby_set_mode_requirements (st st' : state) (message : ptr)
    (time : Z) (mode : by_mode) (trace_ v : Z) :
  smtp_deliverby_set_mode message time mode trace_ st = Ok v st' ->
  forall p, requirements_of (heap st') p = requirements_of (heap st) p.
Proof.
  unfold smtp_deliverby_set_mode. inv_exec.
  all: intros [= _ <-] p; unfold requirements_of; cbn;
    rewrite ?lookup_insert; repeat case_decide; subst;
    repeat match goal with H : heap _ !! _ = _ |- _ => rewrite H end; done.
Qed.

Lemma returning_inv {A} (f : A -> retval) (m : M A) (st st' : state) (v : retval) :
  returning f m st = Ok v st' -> exists x, m st = Ok x st' /\ v = f x.
Proof.
  unfold returning, bind, ret. destruct (m st) as [x st1 | |]; [| done | done].
  intros [= <- <-]. by exists x.
Qed.

(** C5, as the code has it.  Whatever public operation is called and
    returns, a session that lives before and after the call has afterwards
    the requirements it had or-ed with further bits (with none when they
    are unchanged), so no bit that was set is cleared; the protocol engine
    behind [smtp_start_session] is taken to do the same.  A DSN or 8BITMIME
    setter that is given a value other than the unset one and returns 1
    leaves the bit of its extension in the requirements of the session that
    owns the entity.  [smtp_size_set_estimate] and
    [smtp_deliverby_set_mode] leave the requirements of every session as
    they were, whatever value they are given. *)
Theorem required_extensions_accumulate
    (cfg : config) (EXT_DSN EXT_8BITMIME : Z)
    (engine : ptr -> state -> Z * state)
    (getservbyname : string -> string -> option Z) (ntohs : Z -> Z)
    (c : api_call) (st st' : state) (v : retval) :
  (forall p st0, requirements_kept st0 (engine p st0).2) ->
  run_call cfg EXT_DSN EXT_8BITMIME engine getservbyname ntohs c st = Ok v st' ->
  (forall p s s',
     heap st !! p = Some (OSession s) -> heap st' !! p = Some (OSession s') ->
     (exists bits, Session.required_extensions s'
                   = Z.lor (Session.required_extensions s) bits)
     /\ (forall i, Z.testbit (Session.required_extensions s) i = true ->
                   Z.testbit (Session.required_extensions s') i = true))
  /\ (forall ext,
        extension_of EXT_DSN EXT_8BITMIME c = Some ext -> v = RInt 1 ->
        exists session s',
          owner_of (heap st) c = Some session
          /\ heap st' !! session = Some (OSession s')
          /\ Z.land (Session.required_extensions s') ext = ext)
  /\ (forall message size, c = Call_size_set_estimate message size ->
        forall p, requirements_of (heap st') p = requirements_of (heap st) p)
  /\ (forall message time mode trace_,
        c = Call_deliverby_set_mode message time mode trace_ ->
        forall p, requirements_of (heap st') p = requirements_of (heap st) p).
Proof.
  intros Hengine Hrun. split; [| split; [| split]].
  - intros p s s' Hp Hp'.
    destruct (run_call_kept _ _ _ _ _ _ _ _ _ _ Hengine Hrun p s s' Hp Hp')
      as [bits Hbits].
    split; [by exists bits |]. intros i Hi. rewrite Hbits. by apply lor_keeps_bits.
  - intros ext Hext ->.
    destruct c; try discriminate Hext; cbn [run_call extension_of owner_of] in *;
      apply returning_inv in Hrun as (x & Hrun & [= <-]).
    + case_bool_decide; [| done]. injection Hext as <-.
      by eapply dsn_set_ret_requires.
    + injection Hext as <-. by eapply dsn_set_envid_requires.
    + destruct (flags =? Notify_NOTSET) eqn:Hf; [done |]. injection Hext as <-.
      apply Z.eqb_neq in Hf. by eapply dsn_set_notify_requires.
    + injection Hext as <-. by eapply dsn_set_orcpt_requires.
    + case_bool_decide; [| done]. injection Hext as <-.
      by eapply e8bitmime_set_body_requires.
  - intros message size ->. cbn [run_call] in Hrun.
    apply returning_inv in Hrun as (x & Hrun & _).
    by eapply size_set_estimate_requirements.
  - intros message time mode trace_ ->. cbn [run_call] in Hrun.
    apply returning_inv in Hrun as (x & Hrun & _).
    by eapply deliverby_set_mode_requirements.
Qed.

(** ** Teardown *)

(** C7.  Two sessions built with the public operations only, and torn down
    with [smtp_destroy_session].  In the first, the ENVID of a message is
    set twice: the teardown returns 1 and the heap, empty before the session
    was created, still holds the block of the first ENVID.  In the second,
    [smtp_dsn_set_orcpt] has failed on its second duplication: the teardown
    releases the address-type block a second time. *)
Theorem smtp_destroy_session_leak_and_double_free :
  (exists st',
     example_envid_twice empty_state = Ok 1 st'
     /\ heap st' !! 3%N = Some (OString "a")
     /\ heap empty_state !! 3%N = None)
  /\ example_orcpt_failure empty_state = Fault (BadFree 5%N).
Proof.
  split.
  - eexists. split; [vm_compute; reflexivity |]. split; reflexivity.
  - vm_compute. reflexivity.
Qed.

(** * Further properties *)

(** ** Release of a block *)

Lemma free_released (p : ptr) (st : state) :
  p = NULL \/ is_Some (heap st !! p) ->
  free p st = Ok tt (with_heap (released p (heap st)) st).
Proof.
  unfold free, released. intros [-> | [x Hx]].
  - cbn. by rewrite with_heap_same.
  - destruct (is_null p); [by rewrite with_heap_same |]. by rewrite Hx.
Qed.

Lemma released_lookup_ne (p q : ptr) (h : gmap N obj) :
  p <> q -> released p h !! q = h !! q.
Proof.
  intros Hne. unfold released. destruct (is_null p); [done |].
  by rewrite lookup_delete_ne.
Qed.

(** ** Null handles *)

(** X1.  Every operation that takes a session, a message or a recipient
    rejects a null one: it returns the failure value of its result type (a
    null pointer, a null status or 0), sets InvalidArgument and leaves the
    heap and the call log as they were, whatever its other arguments are. *)
Theorem null_handle_rejected
    (cfg : config) (EXT_DSN EXT_8BITMIME : Z)
    (engine : ptr -> state -> Z * state)
    (getservbyname : string -> string -> option Z) (ntohs : Z -> Z)
    (c : api_call) (st : state) :
  handle_of c = Some NULL ->
  run_call cfg EXT_DSN EXT_8BITMIME engine getservbyname ntohs c st
    = Ok (failure_of c) (with_errno (Some SMTP_ERR_INVAL) st).
Proof.
  destruct c; cbn [handle_of]; intros [= ->]; try reflexivity.
  all: cbn [run_call failure_of]; unfold smtp_set_hostname.
  all: destruct (HAVE_GETHOSTNAME cfg); reflexivity.
Qed.

(** ** Application data *)

(** X2.  The application-data slot of a session, of a message and of a
    recipient: the setter hands back the value it replaces, the getter reads
    the value last set and changes nothing. *)
Theorem application_data_swap
    (st : state) (session message recipient : ptr)
    (s : Session.t) (m : Message.t) (r : Recipient.t) (d d' : ptr) :
  session <> NULL -> heap st !! session = Some (OSession s) ->
  message <> NULL -> heap st !! message = Some (OMessage m) ->
  recipient <> NULL -> heap st !! recipient = Some (ORecipient r) ->
  (old <- smtp_set_application_data session d ;;
   got <- smtp_get_application_data session ;;
   old' <- smtp_set_application_data session d' ;;
   ret (old, got, old')) st
    = Ok (Session.application_data s, d, d)
         (with_heap (<[session := OSession (Session.set_application_data d' s)]>
                       (heap st)) st)
  /\ (old <- smtp_message_set_application_data message d ;;
      got <- smtp_message_get_application_data message ;;
      old' <- smtp_message_set_application_data message d' ;;
      ret (old, got, old')) st
    = Ok (Message.application_data m, d, d)
         (with_heap (<[message := OMessage (Message.set_application_data d' m)]>
                       (heap st)) st)
  /\ (old <- smtp_recipient_set_application_data recipient d ;;
      got <- smtp_recipient_get_application_data recipient ;;
      old' <- smtp_recipient_set_application_data recipient d' ;;
      ret (old, got, old')) st
    = Ok (Recipient.application_data r, d, d)
         (with_heap (<[recipient := ORecipient (Recipient.set_application_data d' r)]>
                       (heap st)) st).
Proof.
  intros Hs Hhs Hm Hhm Hr Hhr. apply is_null_false in Hs, Hm, Hr.
  destruct s, m, r. split; [| split].
  - unfold smtp_set_application_data, smtp_get_application_data. exec. state_eq.
  - unfold smtp_message_set_application_data, smtp_message_get_application_data.
    exec. state_eq.
  - unfold smtp_recipient_set_application_data, smtp_recipient_get_application_data.
    exec. state_eq.
Qed.

(** ** Unsetting an option *)

(** X3.  Setting a DSN RET, 8BITMIME or DSN NOTIFY option and then setting
    it back to its NOTSET value succeeds and stores NOTSET, but the session
    still requires the extension that the first call asked for. *)
Theorem unsetting_keeps_requirement
    (EXT_DSN EXT_8BITMIME : Z) (st : state) (message recipient : ptr)
    (m : Message.t) (s : Session.t) (r : Recipient.t)
    (flags : ret_flags) (body : e8bitmime_body) (notify : notify_flags) :
  message <> NULL -> heap st !! message = Some (OMessage m) ->
  heap st !! Message.session m = Some (OSession s) ->
  recipient <> NULL -> heap st !! recipient = Some (ORecipient r) ->
  Recipient.message r = message ->
  flags <> Ret_NOTSET -> body <> E8bitmime_NOTSET -> notify <> Notify_NOTSET ->
  let req := Session.required_extensions s in
  (exists st',
     (smtp_dsn_set_ret EXT_DSN message flags ;;;
      smtp_dsn_set_ret EXT_DSN message Ret_NOTSET) st = Ok 1 st'
     /\ heap st' !! message = Some (OMessage (Message.set_dsn_ret Ret_NOTSET m))
     /\ requirements_of (heap st') (Message.session m) = Some (Z.lor req EXT_DSN))
  /\ (exists st',
     (smtp_8bitmime_set_body EXT_8BITMIME message body ;;;
      smtp_8bitmime_set_body EXT_8BITMIME message E8bitmime_NOTSET) st = Ok 1 st'
     /\ heap st' !! message
        = Some (OMessage (Message.set_e8bitmime E8bitmime_NOTSET m))
     /\ requirements_of (heap st') (Message.session m)
        = Some (Z.lor req EXT_8BITMIME))
  /\ (exists st',
     (smtp_dsn_set_notify EXT_DSN recipient notify ;;;
      smtp_dsn_set_notify EXT_DSN recipient Notify_NOTSET) st = Ok 1 st'
     /\ heap st' !! recipient
        = Some (ORecipient (Recipient.set_dsn_notify Notify_NOTSET r))
     /\ requirements_of (heap st') (Message.session m) = Some (Z.lor req EXT_DSN)).
Proof.
  intros Hm Hhm Hhs Hr Hhr Hrm Hflags Hbody Hnotify req.
  apply is_null_false in Hm, Hr.
  assert (Hms : message <> Message.session m) by (intros Heq; congruence).
  assert (Hrs : recipient <> Message.session m) by (intros Heq; congruence).
  assert (Hrm' : recipient <> message) by (intros Heq; congruence).
  apply Z.eqb_neq in Hnotify.
  destruct m, s, r. cbn [Message.session Recipient.message] in *. subst req.
  split; [| split].
  - unfold smtp_dsn_set_ret.
    rewrite (bool_decide_eq_true_2 (flags <> Ret_NOTSET)) by done.
    rewrite (bool_decide_eq_false_2 (Ret_NOTSET <> Ret_NOTSET)) by (intros H; by apply H).
    exec. eexists. split; [reflexivity |]. unfold requirements_of. api_cbn.
    split; by repeat heap_rw.
  - unfold smtp_8bitmime_set_body.
    rewrite (bool_decide_eq_true_2 (body <> E8bitmime_NOTSET)) by done.
    rewrite (bool_decide_eq_false_2 (E8bitmime_NOTSET <> E8bitmime_NOTSET))
      by (intros H; by apply H).
    exec. eexists. split; [reflexivity |]. unfold requirements_of. api_cbn.
    split; by repeat heap_rw.
  - unfold smtp_dsn_set_notify. rewrite Hnotify. cbn [negb Z.eqb Notify_NOTSET].
    subst message. exec. eexists. split; [reflexivity |].
    unfold requirements_of. api_cbn.
    split; by repeat heap_rw.
Qed.

(** ** The local host name *)

(** X4.  [smtp_set_hostname] first releases the name the session holds.
    A null name is InvalidArgument (nothing touched) in a build without
    gethostname and resets the member otherwise; a non-null name is stored
    as a private copy; when the copy gets no memory the call returns 0 with
    OutOfMemory and the session is left without a name, the old one being
    released already. *)
Theorem smtp_set_hostname_spec
    (cfg : config) (st : state) (a session : ptr) (s : Session.t) (name : string) :
  session <> NULL ->
  heap st !! session = Some (OSession s) ->
  Session.localhost s = NULL
  \/ (Session.localhost s <> session /\ is_Some (heap st !! Session.localhost s)) ->
  let h1 := released (Session.localhost s) (heap st) in
  (HAVE_GETHOSTNAME cfg = false ->
   smtp_set_hostname cfg a session None st
     = Ok 0 (with_errno (Some SMTP_ERR_INVAL) st))
  /\ (HAVE_GETHOSTNAME cfg = true ->
      smtp_set_hostname cfg a session None st
        = Ok 1 (with_heap (<[session := OSession (Session.set_localhost NULL s)]> h1) st))
  /\ (fresh_in (with_heap h1 st) a ->
      smtp_set_hostname cfg a session (Some name) st
        = Ok 1 (with_heap
                  (<[session := OSession (Session.set_localhost a s)]>
                     (<[a := OString (c_str name)]> h1)) st))
  /\ (refused_in (with_heap h1 st) a ->
      smtp_set_hostname cfg a session (Some name) st
        = Ok 0 (with_errno (Some ENOMEM)
                  (with_heap (<[session := OSession (Session.set_localhost NULL s)]> h1)
                     st))).
Proof.
  intros Hs Hh Hold h1. pose proof Hs as Hsn. apply is_null_false in Hsn.
  assert (Hfree : free (Session.localhost s) st = Ok tt (with_heap h1 st)).
  { apply free_released. destruct Hold as [? | [_ ?]]; [by left | by right]. }
  assert (Hh1 : h1 !! session = Some (OSession s)).
  { subst h1. destruct Hold as [Hnull | [Hne _]].
    - unfold released. rewrite Hnull. done.
    - by rewrite released_lookup_ne. }
  assert (Hrel : (if negb (is_null (Session.localhost s))
                  then free (Session.localhost s) else ret tt) st
                 = Ok tt (with_heap h1 st)).
  { destruct (is_null (Session.localhost s)) eqn:Hn; [| done].
    cbn. subst h1. unfold released. rewrite Hn. by rewrite with_heap_same. }
  assert (Hsome : bool_decide (is_Some (Some name)) = true)
    by (apply bool_decide_eq_true_2; by eexists).
  assert (Hnone : bool_decide (is_Some (@None string)) = false)
    by (apply bool_decide_eq_false_2; by intros [x Hx]).
  clearbody h1.
  split; [| split; [| split]].
  - intros Hcfg. unfold smtp_set_hostname, SMTPAPI_CHECK_ARGS.
    rewrite Hcfg, Hsn, Hnone. reflexivity.
  - intros Hcfg. unfold smtp_set_hostname, SMTPAPI_CHECK_ARGS.
    rewrite Hcfg, Hsn, Hnone. cbn [negb andb].
    unfold bind at 1, load_session at 1. rewrite Hh.
    unfold bind at 1. rewrite Hrel. destruct s. exec. state_eq.
  - intros Hf. pose proof Hf as [Ha Hha]. cbn in Hha.
    assert (a <> session) by (intros ->; congruence).
    apply is_null_false in Ha.
    unfold smtp_set_hostname, SMTPAPI_CHECK_ARGS. rewrite Hsn, Hsome.
    replace (if HAVE_GETHOSTNAME cfg then negb false else negb false && true)
      with true by (by destruct (HAVE_GETHOSTNAME cfg)).
    rewrite andb_false_r.
    unfold bind at 1, load_session at 1. rewrite Hh.
    unfold bind at 1. rewrite Hrel.
    unfold bind at 1. rewrite (strdup_fresh _ _ _ Hf).
    destruct s. exec. state_eq.
  - intros Hr.
    unfold smtp_set_hostname, SMTPAPI_CHECK_ARGS. rewrite Hsn, Hsome.
    replace (if HAVE_GETHOSTNAME cfg then negb false else negb false && true)
      with true by (by destruct (HAVE_GETHOSTNAME cfg)).
    rewrite andb_false_r.
    unfold bind at 1, load_session at 1. rewrite Hh.
    unfold bind at 1. rewrite Hrel.
    unfold bind at 1. rewrite (strdup_refused _ _ _ Hr).
    destruct s. exec. state_eq.
Qed.

(** ** The reverse path *)

(** X5.  [smtp_set_reverse_path] first releases the mailbox the message
    holds.  A null mailbox resets the member and succeeds; a non-null one is
    stored as a private copy; when the copy gets no memory the call returns 0
    with OutOfMemory and the message is left with a null reverse path. *)
Theorem smtp_set_reverse_path_spec
    (st : state) (a message : ptr) (m : Message.t) (mailbox : string) :
  message <> NULL ->
  heap st !! message = Some (OMessage m) ->
  Message.reverse_path_mailbox m = NULL
  \/ (Message.reverse_path_mailbox m <> message
      /\ is_Some (heap st !! Message.reverse_path_mailbox m)) ->
  let h1 := released (Message.reverse_path_mailbox m) (heap st) in
  smtp_set_reverse_path a message None st
    = Ok 1 (with_heap
              (<[message := OMessage (Message.set_reverse_path_mailbox NULL m)]> h1) st)
  /\ (fresh_in (with_heap h1 st) a ->
      smtp_set_reverse_path a message (Some mailbox) st
        = Ok 1 (with_heap
                  (<[message := OMessage (Message.set_reverse_path_mailbox a m)]>
                     (<[a := OString (c_str mailbox)]> h1)) st))
  /\ (refused_in (with_heap h1 st) a ->
      smtp_set_reverse_path a message (Some mailbox) st
        = Ok 0 (with_errno (Some ENOMEM)
                  (with_heap
                     (<[message := OMessage (Message.set_reverse_path_mailbox NULL m)]>
                        h1) st))).
Proof.
  intros Hm Hh Hold h1. pose proof Hm as Hmn. apply is_null_false in Hmn.
  assert (Hh1 : h1 !! message = Some (OMessage m)).
  { subst h1. destruct Hold as [Hnull | [Hne _]].
    - unfold released. rewrite Hnull. done.
    - by rewrite released_lookup_ne. }
  assert (Hrel : (if negb (is_null (Message.reverse_path_mailbox m))
                  then free (Message.reverse_path_mailbox m) else ret tt) st
                 = Ok tt (with_heap h1 st)).
  { destruct (is_null (Message.reverse_path_mailbox m)) eqn:Hn.
    - cbn. subst h1. unfold released. rewrite Hn. by rewrite with_heap_same.
    - cbn. apply free_released. destruct Hold as [? | [_ ?]]; [by left | by right]. }
  clearbody h1.
  split; [| split].
  - unfold smtp_set_reverse_path, SMTPAPI_CHECK_ARGS. rewrite Hmn. cbn [negb].
    unfold bind at 1, load_message at 1. rewrite Hh.
    unfold bind at 1. rewrite Hrel. destruct m. exec. state_eq.
  - intros Hf. pose proof Hf as [Ha Hha]. cbn in Hha.
    assert (a <> message) by (intros ->; congruence).
    apply is_null_false in Ha.
    unfold smtp_set_reverse_path, SMTPAPI_CHECK_ARGS. rewrite Hmn. cbn [negb].
    unfold bind at 1, load_message at 1. rewrite Hh.
    unfold bind at 1. rewrite Hrel.
    unfold bind at 1. rewrite (strdup_fresh _ _ _ Hf).
    destruct m. exec. state_eq.
  - intros Hr.
    unfold smtp_set_reverse_path, SMTPAPI_CHECK_ARGS. rewrite Hmn. cbn [negb].
    unfold bind at 1, load_message at 1. rewrite Hh.
    unfold bind at 1. rewrite Hrel.
    unfold bind at 1. rewrite (strdup_refused _ _ _ Hr).
    destruct m. exec. state_eq.
Qed.

(** ** DSN: the ORCPT pair *)

(** X6.  [smtp_dsn_set_orcpt] checks neither string: a null address type,
    or a null address after the type was copied, reaches [strdup].  When the
    first copy gets no memory the call returns 0 with OutOfMemory and a null
    [dsn_addrtype]; when both copies succeed it returns 1, stores both and
    adds DSN to the extensions the session requires. *)
Theorem smtp_dsn_set_orcpt_spec
    (EXT_DSN : Z) (st : state) (a1 a2 recipient : ptr)
    (r : Recipient.t) (m : Message.t) (s : Session.t)
    (address_type address : string) :
  recipient <> NULL ->
  heap st !! recipient = Some (ORecipient r) ->
  heap st !! Recipient.message r = Some (OMessage m) ->
  heap st !! Message.session m = Some (OSession s) ->
  (forall addr, smtp_dsn_set_orcpt EXT_DSN a1 a2 recipient None addr st
                = Fault StrdupNull)
  /\ (fresh_in st a1 ->
      smtp_dsn_set_orcpt EXT_DSN a1 a2 recipient (Some address_type) None st
        = Fault StrdupNull)
  /\ (refused_in st a1 ->
      smtp_dsn_set_orcpt EXT_DSN a1 a2 recipient
        (Some address_type) (Some address) st
        = Ok 0 (with_errno (Some ENOMEM)
                  (with_heap
                     (<[recipient := ORecipient (Recipient.set_dsn_addrtype NULL r)]>
                        (heap st)) st)))
  /\ (fresh_in st a1 -> fresh_in st a2 -> a1 <> a2 ->
      smtp_dsn_set_orcpt EXT_DSN a1 a2 recipient
        (Some address_type) (Some address) st
        = Ok 1 (with_heap
                  (<[Message.session m :=
                       OSession (Session.set_required_extensions
                                   (Z.lor (Session.required_extensions s) EXT_DSN) s)]>
                     (<[recipient :=
                          ORecipient (Recipient.set_dsn_orcpt a2
                                        (Recipient.set_dsn_addrtype a1 r))]>
                        (<[a2 := OString (c_str address)]>
                           (<[a1 := OString (c_str address_type)]> (heap st)))))
                  st)).
Proof.
  intros Hr Hhr Hhm Hhs. apply is_null_false in Hr.
  assert (Hrm : recipient <> Recipient.message r) by (intros Heq; congruence).
  assert (Hrs : recipient <> Message.session m) by (intros Heq; congruence).
  assert (Hms : Recipient.message r <> Message.session m) by (intros Heq; congruence).
  split; [| split; [| split]].
  - intros addr. unfold smtp_dsn_set_orcpt, SMTPAPI_CHECK_ARGS. rewrite Hr. reflexivity.
  - intros Hf. pose proof Hf as [Ha Hha]. apply is_null_false in Ha.
    assert (a1 <> recipient) by (intros ->; congruence).
    unfold smtp_dsn_set_orcpt, SMTPAPI_CHECK_ARGS. rewrite Hr. cbn [negb].
    unfold bind at 1. rewrite (strdup_fresh _ _ _ Hf).
    destruct r. exec. reflexivity.
  - intros Href.
    unfold smtp_dsn_set_orcpt, SMTPAPI_CHECK_ARGS. rewrite Hr. cbn [negb].
    unfold bind at 1. rewrite (strdup_refused _ _ _ Href).
    destruct r. exec. reflexivity.
  - intros Hf1 Hf2 Hne. pose proof Hf1 as [Ha1 Hha1]. pose proof Hf2 as [Ha2 Hha2].
    apply is_null_false in Ha1, Ha2.
    assert (a1 <> recipient) by (intros ->; congruence).
    assert (a2 <> recipient) by (intros ->; congruence).
    assert (a1 <> Recipient.message r) by (intros ->; congruence).
    assert (a2 <> Recipient.message r) by (intros ->; congruence).
    assert (a1 <> Message.session m) by (intros ->; congruence).
    assert (a2 <> Message.session m) by (intros ->; congruence).
    unfold smtp_dsn_set_orcpt, SMTPAPI_CHECK_ARGS. rewrite Hr. cbn [negb].
    unfold bind at 1. rewrite (strdup_fresh _ _ _ Hf1).
    destruct r, m, s. cbn [Recipient.message Message.session] in *. exec.
    rewrite strdup_fresh.
    2:{ split; [by apply is_null_false |]. cbn. by rewrite !lookup_insert_ne. }
    exec. state_eq.
Qed.

(** ** Setting the server again *)

(** X7.  [smtp_set_server] does not release the host buffer of an earlier
    call: after a second successful call the old buffer is still allocated
    with its contents, and the session points to the new one. *)
Theorem smtp_set_server_keeps_old_host
    (cfg : config) (getservbyname : string -> string -> option Z)
    (ntohs : Z -> Z) (st st' : state) (a session : ptr) (s : Session.t)
    (hostport : option string) (old : string) :
  heap st !! session = Some (OSession s) ->
  heap st !! Session.host s = Some (OString old) ->
  smtp_set_server cfg getservbyname ntohs a session hostport st = Ok 1 st' ->
  heap st' !! Session.host s = Some (OString old)
  /\ exists s', heap st' !! session = Some (OSession s')
       /\ Session.host s' = a /\ a <> Session.host s.
Proof.
  intros Hhs Hold. unfold smtp_set_server, strdup, malloc.
  destruct hostport as [hostport |]; inv_exec.
  all: intros [= <-]; api_cbn; cbn [Session.host] in Hold.
  all: assert (Hne1 : session <> host) by (intros Heq; congruence).
  all: assert (Hne2 : a <> host) by (intros Heq; congruence).
  all: split; [by rewrite !lookup_insert_ne by done |].
  all: eexists; split; [apply lookup_insert_eq |]; split; [reflexivity | done].
Qed.

(** ** Resetting the status of a recipient *)

(** X8.  [smtp_recipient_reset_status] releases the status text, zeroes the
    status and clears the completion flag, so [smtp_recipient_check_complete]
    then returns 0; [smtp_recipient_status] hands out the address of the
    status member. *)
Theorem smtp_recipient_reset_status_spec
    (st : state) (recipient : ptr) (r : Recipient.t) :
  recipient <> NULL ->
  heap st !! recipient = Some (ORecipient r) ->
  Status.text (Recipient.status r) = NULL
  \/ (Status.text (Recipient.status r) <> recipient
      /\ is_Some (heap st !! Status.text (Recipient.status r))) ->
  let r' := Recipient.set_complete 0 (Recipient.set_status Status.zero r) in
  let st' := with_heap (<[recipient := ORecipient r']>
                          (released (Status.text (Recipient.status r)) (heap st))) st in
  smtp_recipient_reset_status recipient st = Ok 1 st'
  /\ smtp_recipient_check_complete recipient st' = Ok 0 st'
  /\ smtp_recipient_status recipient st' = Ok (RecipientStatusOf recipient) st'.
Proof.
  intros Hr Hh Hold r' st'. pose proof Hr as Hrn. apply is_null_false in Hrn.
  destruct r as [nx ms ad mb sts cm at_ oc nt].
  cbn [Recipient.status] in *. subst r' st'.
  set (t := Status.text sts) in *.
  assert (Hfree : free t st = Ok tt (with_heap (released t (heap st)) st)).
  { apply free_released. destruct Hold as [? | [_ ?]]; [by left | by right]. }
  assert (Hh1 : released t (heap st) !! recipient
                = Some (ORecipient (Recipient.Build_t nx ms ad mb sts cm at_ oc nt))).
  { destruct Hold as [Hnull | [Hne _]].
    - unfold released. rewrite Hnull. done.
    - by rewrite released_lookup_ne. }
  set (h1 := released t (heap st)) in *. clearbody h1.
  split; [| split].
  - unfold smtp_recipient_reset_status, SMTPAPI_CHECK_ARGS, reset_status.
    rewrite Hrn. cbn [negb].
    unfold bind at 1, load_recipient at 1. rewrite Hh.
    unfold bind at 1, bind at 1. cbn [Recipient.status]. fold t. rewrite Hfree.
    exec. state_eq.
  - unfold smtp_recipient_check_complete, SMTPAPI_CHECK_ARGS. rewrite Hrn.
    exec. reflexivity.
  - unfold smtp_recipient_status, SMTPAPI_CHECK_ARGS. rewrite Hrn. reflexivity.
Qed.

(** ** Resetting the status of a message *)

Lemma released_lookup_eq (p : ptr) (h : gmap N obj) :
  p <> NULL -> released p h !! p = None.
Proof.
  intros Hp. apply is_null_false in Hp. unfold released. rewrite Hp.
  by rewrite lookup_delete_eq.
Qed.

(** X9.  [smtp_message_reset_status] releases the text of the reverse-path
    status and then the text of the message status and zeroes both; when the
    two statuses share one text block the second release is a double free.
    The two status accessors hand out the addresses of the two members. *)
Theorem smtp_message_reset_status_spec
    (st : state) (message : ptr) (m : Message.t) :
  message <> NULL ->
  heap st !! message = Some (OMessage m) ->
  let t1 := Status.text (Message.reverse_path_status m) in
  let t2 := Status.text (Message.message_status m) in
  t1 = NULL \/ (t1 <> message /\ is_Some (heap st !! t1)) ->
  t2 = NULL \/ (t2 <> message /\ is_Some (heap st !! t2)) ->
  let m' := Message.set_message_status Status.zero
              (Message.set_reverse_path_status Status.zero m) in
  (t1 = NULL \/ t1 <> t2 ->
   smtp_message_reset_status message st
     = Ok 1 (with_heap (<[message := OMessage m']>
                          (released t2 (released t1 (heap st)))) st))
  /\ (t1 <> NULL -> t1 = t2 ->
      smtp_message_reset_status message st = Fault (BadFree t2))
  /\ smtp_reverse_path_status message st = Ok (ReversePathStatusOf message) st
  /\ smtp_message_transfer_status message st = Ok (MessageStatusOf message) st.
Proof.
  intros Hm Hh t1 t2 H1 H2 m'. pose proof Hm as Hmn. apply is_null_false in Hmn.
  assert (Hfree1 : free t1 st = Ok tt (with_heap (released t1 (heap st)) st)).
  { apply free_released. destruct H1 as [? | [_ ?]]; [by left | by right]. }
  assert (Hh1 : released t1 (heap st) !! message = Some (OMessage m)).
  { destruct H1 as [Hnull | [Hne _]].
    - unfold released. rewrite Hnull. done.
    - by rewrite released_lookup_ne. }
  set (h2 := <[message := OMessage (Message.set_reverse_path_status Status.zero m)]>
               (released t1 (heap st))).
  assert (Hrun : smtp_message_reset_status message st
            = match free t2 (with_heap h2 st) with
              | Ok _ st2 =>
                  match heap st2 !! message with
                  | Some (OMessage x) =>
                      Ok 1 (with_heap
                              (<[message :=
                                   OMessage (Message.set_message_status Status.zero x)]>
                                 (heap st2)) st2)
                  | _ => Fault (BadPointer message)
                  end
              | Fault f => Fault f
              | OutOfFuel => OutOfFuel
              end).
  { unfold smtp_message_reset_status, SMTPAPI_CHECK_ARGS, reset_status.
    rewrite Hmn. cbn [negb].
    unfold bind at 1, load_message at 1. rewrite Hh.
    unfold bind at 1, bind at 1. fold t1. rewrite Hfree1.
    unfold ret at 1. unfold bind at 1, update_message at 1.
    cbn [heap with_heap]. rewrite Hh1. fold h2.
    unfold bind at 1, load_message at 1. cbn [heap with_heap].
    unfold h2 at 1. rewrite lookup_insert_eq.
    unfold bind at 1, bind at 1.
    replace (Status.text (Message.message_status
                            (Message.set_reverse_path_status Status.zero m)))
      with t2 by (by destruct m).
    destruct (free t2 _) as [[] st2 | f |]; try reflexivity.
    unfold ret at 1, bind, update_message, ret.
    destruct (heap st2 !! message) as [[| | | x |] |]; reflexivity. }
  split; [| split; [| split]].
  - intros Hd. rewrite Hrun.
    assert (Hfree2 : free t2 (with_heap h2 st)
              = Ok tt (with_heap (released t2 h2) (with_heap h2 st))).
    { apply free_released. destruct H2 as [? | [Hne [x Hx]]]; [by left |].
      right. cbn [heap with_heap]. unfold h2. rewrite lookup_insert_ne by done.
      destruct Hd as [Hnull | Hne12].
      - unfold released. rewrite Hnull. by eexists.
      - rewrite released_lookup_ne by done. by eexists. }
    rewrite Hfree2. cbn [heap with_heap].
    assert (Hh2 : released t2 h2 !! message
                  = Some (OMessage (Message.set_reverse_path_status Status.zero m))).
    { destruct H2 as [Hnull | [Hne _]].
      - unfold released. rewrite Hnull. cbn [is_null NULL N.eqb]. unfold h2.
        by rewrite lookup_insert_eq.
      - rewrite released_lookup_ne by done. unfold h2. by rewrite lookup_insert_eq. }
    rewrite Hh2. f_equal. apply state_eq; try done. cbn [heap with_heap].
    apply map_eq. intros x. destruct (decide (message = x)) as [<- | Hne].
    + rewrite !lookup_insert_eq. reflexivity.
    + rewrite !lookup_insert_ne by done.
      assert (Hrel : forall h, released t2 h !! x
                               = if is_null t2 then h !! x
                                 else if decide (t2 = x) then None else h !! x).
      { intros h. unfold released. destruct (is_null t2); [done |].
        destruct (decide (t2 = x)) as [-> | Hne2].
        - by rewrite lookup_delete_eq.
        - by rewrite lookup_delete_ne. }
      rewrite !Hrel. unfold h2. by rewrite lookup_insert_ne.
  - intros Hn Heq. rewrite Hrun.
    assert (Ht2 : t2 <> NULL) by congruence.
    assert (Hne : message <> t2).
    { destruct H2 as [? | [? _]]; [done | congruence]. }
    unfold free. apply is_null_false in Ht2. rewrite Ht2.
    cbn [heap with_heap]. unfold h2. rewrite lookup_insert_ne by done.
    rewrite <- Heq. rewrite released_lookup_eq by done. done.
  - unfold smtp_reverse_path_status, SMTPAPI_CHECK_ARGS. by rewrite Hmn.
  - unfold smtp_message_transfer_status, SMTPAPI_CHECK_ARGS. by rewrite Hmn.
Qed.

(** ** Operations that keep the links *)

Lemma same_links_refl (o : obj) : same_links o o.
Proof. by destruct o. Qed.

Lemma same_links_trans (o1 o2 o3 : obj) :
  same_links o1 o2 -> same_links o2 o3 -> same_links o1 o3.
Proof.
  destruct o1, o2, o3; cbn; try done; try congruence.
  - intros [? ?] [? ?]. split; congruence.
  - intros (? & ? & ?) (? & ? & ?). repeat split; congruence.
  - intros [? ?] [? ?]. split; congruence.
Qed.

Lemma links_kept_refl (st : state) : links_kept st st.
Proof. intros p o Hp. exists o. split; [done | apply same_links_refl]. Qed.

Lemma links_kept_heap (st st' : state) : heap st' = heap st -> links_kept st st'.
Proof. intros Heq p o Hp. rewrite Heq. by apply (links_kept_refl st). Qed.

Lemma links_kept_trans (st1 st2 st3 : state) :
  links_kept st1 st2 -> links_kept st2 st3 -> links_kept st1 st3.
Proof.
  intros H12 H23 p o1 Hp.
  destruct (H12 p o1 Hp) as (o2 & Hp2 & Hl12).
  destruct (H23 p o2 Hp2) as (o3 & Hp3 & Hl23).
  exists o3. split; [done |]. by eapply same_links_trans.
Qed.

Lemma links_kept_insert (st : state) (p : ptr) (o' : obj) :
  (forall o, heap st !! p = Some o -> same_links o o') ->
  links_kept st (with_heap (<[p := o']> (heap st)) st).
Proof.
  intros Ho q o Hq. cbn. destruct (decide (p = q)) as [<- | Hne].
  - rewrite lookup_insert_eq. exists o'. split; [done |]. by apply Ho.
  - rewrite lookup_insert_ne by done. exists o. split; [done | apply same_links_refl].
Qed.

Lemma keeps_links_ret {A} (a : A) : keeps_links (ret a).
Proof. intros st a' st' [= <- <-]. apply links_kept_refl. Qed.

Lemma keeps_links_fail {A} (f : fault) : keeps_links (@fail A f).
Proof. intros st a st' H. discriminate H. Qed.

Lemma keeps_links_out_of_fuel {A} : keeps_links (fun _ => @OutOfFuel A).
Proof. intros st a st' H. discriminate H. Qed.

Lemma keeps_links_bind {A B} (m : M A) (k : A -> M B) :
  keeps_links m -> (forall a, keeps_links (k a)) -> keeps_links (bind m k).
Proof.
  intros Hm Hk st b st'. unfold bind.
  destruct (m st) as [a st1 | f |] eqn:Hmst; [| done | done].
  intros Hkst. eapply links_kept_trans; [by eapply Hm | by eapply Hk].
Qed.

Lemma keeps_links_set_error (e : api_error) : keeps_links (set_error e).
Proof. intros st a st' [= <- <-]. by apply links_kept_heap. Qed.

Lemma keeps_links_set_errno (e : api_error) : keeps_links (set_errno e).
Proof. intros st a st' [= <- <-]. by apply links_kept_heap. Qed.

Lemma keeps_links_log (e : event) : keeps_links (log e).
Proof. intros st a st' [= <- <-]. by apply links_kept_heap. Qed.

Lemma keeps_links_malloc (a : ptr) : keeps_links (malloc a).
Proof.
  intros st p st'. unfold malloc.
  destruct (is_null a); [intros [= <- <-]; apply links_kept_refl |].
  destruct (heap st !! a) eqn:Ha; intros [= <- <-]; [apply links_kept_refl |].
  apply links_kept_insert. intros o Ho. congruence.
Qed.

Lemma keeps_links_strdup (a : ptr) (s : option string) : keeps_links (strdup a s).
Proof.
  intros st p st'. unfold strdup, malloc. destruct s as [str |]; [| done].
  destruct (is_null a) eqn:Hn; [cbn; intros [= <- <-]; apply links_kept_refl |].
  destruct (heap st !! a) eqn:Ha; [cbn; intros [= <- <-]; apply links_kept_refl |].
  rewrite Hn. intros [= <- <-]. intros q o Hq. cbn.
  assert (a <> q) by (intros ->; congruence).
  rewrite !lookup_insert_ne by done. exists o. split; [done | apply same_links_refl].
Qed.

Lemma keeps_links_load_session (p : ptr) : keeps_links (load_session p).
Proof.
  intros st a st'. unfold load_session.
  destruct (heap st !! p) as [[] |]; try done. intros [= <- <-]. apply links_kept_refl.
Qed.
Lemma keeps_links_load_message (p : ptr) : keeps_links (load_message p).
Proof.
  intros st a st'. unfold load_message.
  destruct (heap st !! p) as [[] |]; try done. intros [= <- <-]. apply links_kept_refl.
Qed.
Lemma keeps_links_load_recipient (p : ptr) : keeps_links (load_recipient p).
Proof.
  intros st a st'. unfold load_recipient.
  destruct (heap st !! p) as [[] |]; try done. intros [= <- <-]. apply links_kept_refl.
Qed.

Lemma keeps_links_update_session (p : ptr) (f : Session.t -> Session.t) :
  (forall s, same_links (OSession s) (OSession (f s))) ->
  keeps_links (update_session p f).
Proof.
  intros Hf st a st'. unfold update_session.
  destruct (heap st !! p) as [[| | s | |] |] eqn:Hp; try done. intros [= <- <-].
  apply links_kept_insert. intros o Ho. assert (o = OSession s) as -> by congruence.
  apply Hf.
Qed.

Lemma keeps_links_update_message (p : ptr) (f : Message.t -> Message.t) :
  (forall m, same_links (OMessage m) (OMessage (f m))) ->
  keeps_links (update_message p f).
Proof.
  intros Hf st a st'. unfold update_message.
  destruct (heap st !! p) as [[| | | m |] |] eqn:Hp; try done. intros [= <- <-].
  apply links_kept_insert. intros o Ho. assert (o = OMessage m) as -> by congruence.
  apply Hf.
Qed.

Lemma keeps_links_update_recipient (p : ptr) (f : Recipient.t -> Recipient.t) :
  (forall r, same_links (ORecipient r) (ORecipient (f r))) ->
  keeps_links (update_recipient p f).
Proof.
  intros Hf st a st'. unfold update_recipient.
  destruct (heap st !! p) as [[| | | | r] |] eqn:Hp; try done. intros [= <- <-].
  apply links_kept_insert. intros o Ho. assert (o = ORecipient r) as -> by congruence.
  apply Hf.
Qed.

(** [smtp_dsn_set_orcpt] releases a block only on its failure path, and
    then the copy it has just made. *)
Lemma keeps_links_dsn_set_orcpt (EXT_DSN : Z) (a1 a2 recipient : ptr)
    (address_type address : option string) :
  keeps_links (smtp_dsn_set_orcpt EXT_DSN a1 a2 recipient address_type address).
Proof.
  intros st v st'. unfold smtp_dsn_set_orcpt, strdup, malloc, require_extension.
  destruct address_type as [address_type |], address as [address |]; inv_exec.
  all: try (intros [= <- <-]; apply links_kept_refl).
  all: (let p := fresh "p" in let o := fresh "o" in let Hp := fresh "Hp" in
        intros [= <- <-] p o Hp); api_cbn.
  all: match goal with
       | |- exists o', ?h !! ?p = Some o' /\ _ =>
           let Hq := fresh "Hq" in
           destruct (h !! p) as [o' |] eqn:Hq;
           repeat first [ rewrite lookup_insert in Hq
                        | rewrite lookup_delete in Hq
                        | case_decide ];
           simplify_eq
       end.
  all: try (eexists; split; [reflexivity |]).
  all: try apply same_links_refl.
  all: done.
Qed.

Ltac links_setter :=
  let x := fresh "x" in intros x; destruct x; cbn; repeat split; reflexivity.

Ltac keeps_links_step :=
  first
    [ apply keeps_links_ret | apply keeps_links_fail | apply keeps_links_out_of_fuel
    | apply keeps_links_set_error | apply keeps_links_set_errno
    | apply keeps_links_log | apply keeps_links_malloc | apply keeps_links_strdup
    | apply keeps_links_dsn_set_orcpt
    | apply keeps_links_load_session | apply keeps_links_load_message
    | apply keeps_links_load_recipient
    | apply keeps_links_update_session; links_setter
    | apply keeps_links_update_message; links_setter
    | apply keeps_links_update_recipient; links_setter
    | apply keeps_links_bind; [| intros ?]
    | match goal with
      | IH : forall _, keeps_links _ |- _ => apply IH
      end
    | match goal with
      | |- keeps_links (if ?b then _ else _) => destruct b
      | |- keeps_links (match ?x with _ => _ end) => destruct x
      end ].

Ltac keeps_links_tac :=
  unfold SMTPAPI_CHECK_ARGS, require_extension, returning,
    call_messagecb, call_recipientcb;
  cbv zeta; repeat keeps_links_step.

Lemma keeps_links_enumerate_messages_loop (cb : fnptr) (arg : ptr) (fuel : nat) :
  forall p, keeps_links (enumerate_messages_loop fuel p cb arg).
Proof. induction fuel as [| fuel IH]; intros p; cbn; keeps_links_tac. Qed.

Lemma keeps_links_enumerate_recipients_loop (cb : fnptr) (arg : ptr) (fuel : nat) :
  forall p, keeps_links (enumerate_recipients_loop fuel p cb arg).
Proof. induction fuel as [| fuel IH]; intros p; cbn; keeps_links_tac. Qed.

Lemma keeps_links_messagecb (message : ptr) (cb : fnptr) (arg : ptr) :
  keeps_links (smtp_set_messagecb message cb arg).
Proof. unfold smtp_set_messagecb. keeps_links_tac. Qed.

Lemma keeps_links_run_call cfg EXT_DSN EXT_8BITMIME engine gs nt (c : api_call) :
  leaves_links c = true ->
  keeps_links (run_call cfg EXT_DSN EXT_8BITMIME engine gs nt c).
Proof.
  destruct c; cbn [leaves_links]; try discriminate; intros _; cbn [run_call];
    unfold smtp_enumerate_messages, smtp_message_transfer_status,
      smtp_reverse_path_status, smtp_enumerate_recipients, smtp_recipient_status,
      smtp_recipient_check_complete, smtp_dsn_set_ret, smtp_dsn_set_envid,
      smtp_dsn_set_notify, smtp_size_set_estimate, smtp_8bitmime_set_body,
      smtp_deliverby_set_mode, smtp_set_messagecb, smtp_set_eventcb,
      smtp_set_monitorcb, smtp_set_application_data,
      smtp_get_application_data, smtp_message_set_application_data,
      smtp_message_get_application_data, smtp_recipient_set_application_data,
      smtp_recipient_get_application_data, smtp_option_require_all_recipients;
    keeps_links_tac;
    first [ apply keeps_links_enumerate_messages_loop
          | apply keeps_links_enumerate_recipients_loop ].
Qed.

(** A graph survives any change that keeps the links. *)
Lemma graph_inv_links (st st' : state) (session : ptr) (g : creation_log) :
  links_kept st st' ->
  graph_inv (heap st) session g ->
  graph_inv (heap st') session g.
Proof.
  intros Hl (Hs & s & Hh & Hc & Hlast & Hnd & Hrc & Hdisj).
  destruct (Hl session _ Hh) as ([| | s' | |] & Hh' & Hsl); try done.
  destruct Hsl as [Hmsgs Hend].
  assert (Hrch : forall l p, rcpt_chain (heap st) p l -> rcpt_chain (heap st') p l).
  { intros l p. apply rcpt_chain_preserved. intros q r _ Hq.
    destruct (Hl q _ Hq) as ([| | | | r'] & Hq' & Hrl); try done.
    exists r'. split; [done |]. by destruct Hrl. }
  split; [done |]. exists s'. split; [done |]. rewrite Hmsgs, Hend.
  split.
  { eapply msg_chain_preserved; [| exact Hc]. intros q m _ Hq.
    destruct (Hl q _ Hq) as ([| | | m' |] & Hq' & Hml); try done.
    exists m'. split; [done |]. by destruct Hml. }
  split; [done |]. split; [done |]. split; [| done].
  intros i q rl Hi. destruct (Hrc i q rl Hi) as (Hndr & m & Hm & Hch & Hle).
  split; [done |].
  destruct (Hl q _ Hm) as ([| | | m' |] & Hq' & Hml); try done.
  destruct Hml as (_ & Hr & He).
  exists m'. split; [done |]. rewrite Hr, He. split; [by apply Hrch | done].
Qed.

Lemma links_kept_mailbox_of (st st' : state) (q : ptr) (r : Recipient.t) :
  links_kept st st' ->
  heap st !! q = Some (ORecipient r) ->
  mailbox_of (heap st') q = mailbox_of (heap st) q.
Proof.
  intros Hl Hq. destruct (Hl q _ Hq) as ([| | | | r'] & Hq' & Hrl); try done.
  unfold mailbox_of. rewrite Hq, Hq'. by destruct Hrl.
Qed.

(** ** Setters on a built graph *)

Lemma graph_inv_recipient_visits (st st' : state) (session : ptr) (g : creation_log)
    (q : ptr) (rl : list ptr) (cb : fnptr) (arg : ptr) :
  links_kept st st' ->
  graph_inv (heap st) session g ->
  (q, rl) ∈ g ->
  recipient_visits (heap st') cb arg rl = recipient_visits (heap st) cb arg rl.
Proof.
  intros Hl (_ & s & _ & _ & _ & _ & Hrc & _) Hin.
  apply list_elem_of_lookup_1 in Hin as [i Hi].
  destruct (Hrc i q rl Hi) as (_ & m & _ & Hch & _).
  unfold recipient_visits. apply map_ext_in. intros x Hx.
  apply list_elem_of_In in Hx.
  destruct (rcpt_chain_elem _ _ _ x Hch Hx) as (_ & r & Hr).
  by rewrite (links_kept_mailbox_of st st' x r).
Qed.

(** X10.  The traversals, the status and completion accessors, every option
    setter ([smtp_dsn_set_ret], [smtp_dsn_set_envid], [smtp_dsn_set_notify],
    [smtp_dsn_set_orcpt], [smtp_size_set_estimate], [smtp_8bitmime_set_body],
    [smtp_deliverby_set_mode], [smtp_option_require_all_recipients]), the
    three callback registrations and the six application-data operations
    leave the session graph as it is: after any of them, whether it
    succeeded or failed, the graph is still the one of the creation log, and
    the traversals visit the same messages and the same recipients, with the
    same mailbox pointers, as before. *)
Theorem setters_keep_graph
    (cfg : config) (EXT_DSN EXT_8BITMIME : Z)
    (engine : ptr -> state -> Z * state)
    (getservbyname : string -> string -> option Z) (ntohs : Z -> Z)
    (c : api_call) (st st' : state) (v : retval)
    (session : ptr) (g : creation_log) :
  leaves_links c = true ->
  graph_inv (heap st) session g ->
  run_call cfg EXT_DSN EXT_8BITMIME engine getservbyname ntohs c st = Ok v st' ->
  graph_inv (heap st') session g
  /\ (forall fuel cb arg,
        cb <> NULL -> (length g < fuel)%nat ->
        smtp_enumerate_messages fuel session cb arg st'
          = Ok 1 (with_trace (trace st' ++ message_visits cb arg (g.*1)) st'))
  /\ (forall q rl fuel cb arg,
        (q, rl) ∈ g -> cb <> NULL -> (length rl < fuel)%nat ->
        smtp_enumerate_recipients fuel q cb arg st'
          = Ok 1 (with_trace
                    (trace st' ++ recipient_visits (heap st) cb arg rl) st')).
Proof.
  intros Hc Hinv Hrun.
  pose proof (keeps_links_run_call cfg EXT_DSN EXT_8BITMIME engine getservbyname
                ntohs c Hc st v st' Hrun) as Hl.
  pose proof (graph_inv_links st st' session g Hl Hinv) as Hinv'.
  split; [done |]. split.
  - intros fuel cb arg Hcb Hfuel. by apply enumerate_messages_graph.
  - intros q rl fuel cb arg Hin Hcb Hfuel.
    rewrite <- (graph_inv_recipient_visits st st' session g q rl cb arg Hl Hinv Hin).
    by eapply enumerate_recipients_graph.
Qed.

(** ** From construction to the engine *)

Lemma set_server_links
    (cfg : config) (getservbyname : string -> string -> option Z)
    (ntohs : Z -> Z) (st st' : state) (a session : ptr) (s : Session.t)
    (hostport : option string) :
  heap st !! session = Some (OSession s) ->
  smtp_set_server cfg getservbyname ntohs a session hostport st = Ok 1 st' ->
  links_kept st st'
  /\ exists s', heap st' !! session = Some (OSession s')
       /\ Session.host s' <> NULL
       /\ Session.localhost s' = Session.localhost s.
Proof.
  intros Hhs. unfold smtp_set_server, strdup, malloc.
  destruct hostport as [hostport |]; inv_exec.
  all: intros [= <-]; api_cbn.
  all: assert (Hna : a <> NULL) by (by apply is_null_false).
  all: (split;
        [ intros p o Hp; cbn;
          destruct (decide (session = p)) as [<- | Hne];
          [ rewrite lookup_insert_eq; eexists; split; [reflexivity |];
            rewrite Hhs in Hp; injection Hp as <-; by cbn
          | assert (a <> p) by (intros ->; congruence);
            rewrite !lookup_insert_ne by done;
            exists o; split; [done | apply same_links_refl] ]
        | eexists; split; [apply lookup_insert_eq |]; by cbn ]).
Qed.

Lemma set_messagecb_effect (st : state) (q : ptr) (m : Message.t)
    (cb : fnptr) (arg : ptr) :
  q <> NULL -> cb <> NULL ->
  heap st !! q = Some (OMessage m) ->
  smtp_set_messagecb q cb arg st
    = Ok 1 (with_heap (<[q := OMessage (Message.set_cb_arg arg (Message.set_cb cb m))]>
                         (heap st)) st).
Proof.
  intros Hq Hcb Hh. apply is_null_false in Hq, Hcb.
  unfold smtp_set_messagecb, SMTPAPI_CHECK_ARGS. rewrite Hq, Hcb.
  destruct m. exec. state_eq.
Qed.

Lemma set_all_messagecb_spec (cb : fnptr) (arg : ptr) (l : list ptr) :
  cb <> NULL ->
  forall st : state,
    (forall q, q ∈ l -> q <> NULL /\ exists m, heap st !! q = Some (OMessage m)) ->
    exists st',
      set_all_messagecb cb arg l st = Ok 1 st'
      /\ links_kept st st'
      /\ (forall p s, heap st !! p = Some (OSession s) ->
                      heap st' !! p = Some (OSession s))
      /\ (forall q, cb_of (heap st) q = cb -> cb_of (heap st') q = cb)
      /\ (forall q, q ∈ l -> cb_of (heap st') q = cb).
Proof.
  intros Hcb. induction l as [| q l IH]; intros st Hl.
  - exists st. split; [done |]. split; [apply links_kept_refl |].
    split; [done |]. split; [done |]. intros q Hq. by apply elem_of_nil in Hq.
  - destruct (Hl q) as (Hq & m & Hm); [by left |].
    cbn [set_all_messagecb]. unfold bind at 1.
    rewrite (set_messagecb_effect st q m cb arg Hq Hcb Hm). cbn [Z.eqb].
    set (st1 := with_heap _ st).
    assert (Hkeep : forall x, cb_of (heap st) x = cb -> cb_of (heap st1) x = cb).
    { intros x Hx. unfold cb_of, st1. cbn.
      destruct (decide (q = x)) as [<- | Hne].
      - rewrite lookup_insert_eq. by destruct m.
      - by rewrite lookup_insert_ne. }
    assert (Hq1 : cb_of (heap st1) q = cb).
    { unfold cb_of, st1. cbn. rewrite lookup_insert_eq. by destruct m. }
    destruct (IH st1) as (st' & Hrun & Hlinks & Hsess & Hkeep' & Hall).
    { intros x Hx. destruct (Hl x) as (Hxn & mx & Hmx); [by right |].
      split; [done |]. unfold st1. cbn.
      destruct (decide (q = x)) as [<- | Hne].
      - rewrite lookup_insert_eq. by eexists.
      - rewrite lookup_insert_ne by done. by eexists. }
    exists st'. split; [done |]. split.
    { eapply links_kept_trans; [| exact Hlinks].
      apply links_kept_insert. intros o Ho.
      assert (o = OMessage m) as -> by congruence. by destruct m. }
    split.
    { intros p s Hp. apply Hsess. unfold st1. cbn.
      assert (q <> p) by (intros ->; congruence). by rewrite lookup_insert_ne. }
    split; [intros x Hx; by apply Hkeep', Hkeep |].
    intros x Hx. apply elem_of_cons in Hx as [-> | Hx]; [by apply Hkeep' | by apply Hall].
Qed.

(** X11.  A client that creates a session, builds any graph, sets the
    server and registers a non-null callback with every message it created
    can start the session where the local host name is found by
    gethostname: all registrations return 1 and [smtp_start_session] hands
    the session to the protocol engine and returns the engine's result. *)
Theorem built_session_starts
    (cfg : config) (engine : ptr -> state -> Z * state)
    (getservbyname : string -> string -> option Z) (ntohs : Z -> Z)
    (a0 a session : ptr) (st0 st1 st2 st3 : state)
    (script : list build_call) (g : creation_log) (hostport : option string)
    (cb : fnptr) (arg : ptr) (fuel : nat) :
  HAVE_GETHOSTNAME cfg = true ->
  smtp_create_session cfg a0 st0 = Ok session st1 ->
  session <> NULL ->
  run_build session script [] st1 = Ok g st2 ->
  smtp_set_server cfg getservbyname ntohs a session hostport st2 = Ok 1 st3 ->
  cb <> NULL ->
  (length g < fuel)%nat ->
  exists st4,
    set_all_messagecb cb arg (g.*1) st3 = Ok 1 st4
    /\ smtp_start_session cfg engine fuel session st4
       = let '(r, st') :=
           engine session (with_trace (trace st4 ++ [EvDoSession session]) st4)
         in Ok r st'.
Proof.
  intros Hcfg Hcreate Hs Hbuild Hserver Hcb Hfuel.
  pose proof (smtp_create_session_inv _ _ _ _ _ Hcreate Hs) as Hinv1.
  destruct (run_build_inv session script [] st1 Hinv1) as (g' & st2' & Hrun & Hinv2).
  rewrite Hbuild in Hrun. injection Hrun as <- <-.
  pose proof Hinv2 as (_ & s2 & Hs2 & _).
  destruct (set_server_links _ _ _ _ _ _ _ _ _ Hs2 Hserver)
    as (Hl3 & s3 & Hs3 & Hhost & _).
  pose proof (graph_inv_links _ _ _ _ Hl3 Hinv2) as Hinv3.
  destruct (set_all_messagecb_spec cb arg (g.*1) Hcb st3)
    as (st4 & Hset & Hl4 & Hsess & _ & Hall).
  { intros q Hq. pose proof Hinv3 as (_ & s & _ & Hc & _).
    by eapply msg_chain_elem. }
  exists st4. split; [done |].
  pose proof (graph_inv_links _ _ _ _ Hl4 Hinv3) as (_ & s4 & Hs4 & Hc4 & _).
  pose proof (Hsess _ _ Hs3) as Hs4'.
  assert (s4 = s3) as -> by congruence.
  apply is_null_false in Hs, Hhost.
  unfold smtp_start_session. rewrite Hs, Hcfg. exec.
  rewrite (start_session_loop_all_set st4 (g.*1)); [reflexivity | done | |].
  - apply Forall_forall. intros q Hq. rewrite (Hall q Hq). done.
  - by rewrite length_fmap.
Qed.

(** ** The effect of the two constructors on the heap *)

Lemma relinked_refl (o : obj) : relinked o o.
Proof. by destruct o as [| b | [] | [] | []]. Qed.

Lemma add_message_effect (st : state) (a session : ptr) (g : creation_log) :
  graph_inv (heap st) session g ->
  fresh_in st a ->
  exists st',
    smtp_add_message a session st = Ok a st'
    /\ trace st' = trace st
    /\ heap st' !! a = Some (OMessage (Message.set_session session Message.zero))
    /\ relinked_heap (heap st) (heap st') [a] (session :: g.*1).
Proof.
  intros Hinv [Han Hha].
  pose proof Hinv as (Hs & s & Hh & Hc & Hlast & Hnd & Hrc & Hdisj).
  pose proof Hs as Hsn. apply is_null_false in Hsn.
  pose proof Han as Ha. apply is_null_false in Ha.
  unfold smtp_add_message, SMTPAPI_CHECK_ARGS. rewrite Hsn. cbn [negb].
  unfold bind at 1, malloc. rewrite Ha, Hha.
  assert (Hne : a <> session) by (intros ->; congruence).
  rewrite Ha. unfold APPEND_LIST_messages. exec.
  destruct g as [| [e rl] g0 _] using rev_ind.
  - cbn in Hc. rewrite Hc. exec.
    eexists. split; [reflexivity |]. api_cbn. split; [done |].
    split; [by repeat heap_rw |].
    split; [| split].
    + intros x Hx. apply list_elem_of_singleton in Hx as ->. done.
    + intros x o Hxo. assert (Hx1 : a <> x) by (intros ->; congruence).
      destruct (decide (session = x)) as [<- | Hsx].
      * repeat heap_rw. eexists. split; [reflexivity |].
        assert (o = OSession s) as -> by congruence.
        split; [by destruct s | left; by left].
      * repeat heap_rw. exists o. split; [done |].
        split; [apply relinked_refl | by right].
    + intros x Hx Hxo. apply not_elem_of_cons in Hx as [Hx1 _].
      assert (session <> x) by (intros ->; congruence).
      by repeat heap_rw.
  - rewrite fmap_app in Hc, Hlast. cbn in Hc, Hlast.
    assert (Hmsgs : is_null (Session.messages s) = false).
    { apply is_null_false. intros Hnull.
      apply (msg_chain_head _ _ _ Hc) in Hnull. by destruct (g0.*1). }
    assert (Hend : Session.end_messages s = e).
    { apply Hlast. by rewrite last_snoc. }
    destruct (msg_chain_elem _ _ _ e Hc) as (He & me & Hme).
    { apply elem_of_app. right. by left. }
    assert (Hea : a <> e) by (intros ->; congruence).
    assert (Hes : session <> e) by (intros ->; congruence).
    rewrite Hmsgs, Hend. exec.
    eexists. split; [reflexivity |]. api_cbn. split; [done |].
    split; [by repeat heap_rw |].
    split; [| split].
    + intros x Hx. apply list_elem_of_singleton in Hx as ->. done.
    + intros x o Hxo. assert (Hx1 : a <> x) by (intros ->; congruence).
      destruct (decide (session = x)) as [<- | Hsx].
      * repeat heap_rw. eexists. split; [reflexivity |].
        assert (o = OSession s) as -> by congruence.
        split; [by destruct s | left; by left].
      * destruct (decide (e = x)) as [<- | Hex].
        -- repeat heap_rw. eexists. split; [reflexivity |].
           assert (o = OMessage me) as -> by congruence.
           split; [by destruct me |]. left. right.
           rewrite fmap_app. apply elem_of_app. right. by left.
        -- repeat heap_rw. exists o. split; [done |].
           split; [apply relinked_refl | by right].
    + intros x Hx Hxo. apply not_elem_of_cons in Hx as [Hx1 _].
      assert (session <> x) by (intros ->; congruence).
      assert (e <> x) by (intros ->; congruence).
      by repeat heap_rw.
Qed.

Lemma add_recipient_effect (st : state) (a1 a2 session q : ptr) (g : creation_log)
    (k : nat) (rl : list ptr) (mailbox : string) :
  graph_inv (heap st) session g ->
  g !! k = Some (q, rl) ->
  fresh_in st a1 -> fresh_in st a2 -> a1 <> a2 ->
  exists st',
    smtp_add_recipient a1 a2 q (Some mailbox) st = Ok a1 st'
    /\ trace st' = trace st
    /\ heap st' !! a1
       = Some (ORecipient (Recipient.set_mailbox a2
                             (Recipient.set_message q Recipient.zero)))
    /\ heap st' !! a2 = Some (OString (c_str mailbox))
    /\ relinked_heap (heap st) (heap st') [a1; a2] (q :: rl).
Proof.
  intros Hinv Hk [Ha1n Hh1] [Ha2n Hh2] Hne12.
  pose proof Hinv as (Hs & s & Hh & Hc & Hlast & Hnd & Hrc & Hdisj).
  destruct (Hrc k q rl Hk) as (Hndrl & m & Hm & Hch & Hlastr).
  assert (Hq : q <> NULL).
  { eapply (msg_chain_elem _ _ _ q Hc). apply list_elem_of_fmap.
    exists (q, rl). split; [done |]. by eapply list_elem_of_lookup_2. }
  pose proof Ha1n as Ha1. apply is_null_false in Ha1.
  pose proof Ha2n as Ha2. apply is_null_false in Ha2.
  assert (Hf1 : fresh_in st a1) by done.
  assert (Hq1 : a1 <> q) by (intros ->; congruence).
  assert (Hq2 : a2 <> q) by (intros ->; congruence).
  assert (Hrun : forall kont : ptr -> M ptr,
            (p <- strdup a2 (Some mailbox) ;; kont p)
              (with_heap (<[a1 := ORecipient (Recipient.set_message q Recipient.zero)]>
                 (<[a1 := ORecipient Recipient.zero]> (<[a1 := ORaw]> (heap st))))
               (with_heap (<[a1 := ORecipient Recipient.zero]> (<[a1 := ORaw]> (heap st)))
                 (with_heap (<[a1 := ORaw]> (heap st)) st)))
            = kont a2 (with_heap (<[a2 := OString (c_str mailbox)]>
                 (<[a1 := ORecipient (Recipient.set_message q Recipient.zero)]>
                 (<[a1 := ORecipient Recipient.zero]> (<[a1 := ORaw]> (heap st))))) st)).
  { intros kont. unfold bind. rewrite strdup_fresh.
    - f_equal.
    - split; [done |]. cbn. by rewrite !lookup_insert_ne. }
  pose proof Hq as Hqn. apply is_null_false in Hqn.
  unfold smtp_add_recipient, SMTPAPI_CHECK_ARGS. rewrite Hqn.
  rewrite bool_decide_eq_true_2 by (by eexists). cbn [negb andb].
  unfold bind at 1. rewrite (malloc_fresh _ _ Hf1). rewrite Ha1.
  unfold bind at 1, memset_zero at 1. cbn [heap with_heap]. rewrite lookup_insert_eq.
  unfold bind at 1, update_recipient at 1. cbn [heap with_heap].
  rewrite lookup_insert_eq.
  rewrite Hrun. unfold APPEND_LIST_recipients. exec.
  destruct rl as [| e rl0 _] using rev_ind.
  - cbn in Hch. rewrite Hch. exec.
    eexists. split; [reflexivity |]. api_cbn. split; [done |].
    split; [by repeat heap_rw |]. split; [by repeat heap_rw |].
    split; [| split].
    + intros x Hx. apply elem_of_cons in Hx as [-> | Hx]; [done |].
      apply list_elem_of_singleton in Hx as ->. done.
    + intros x o Hxo.
      assert (Hx1 : a1 <> x) by (intros ->; congruence).
      assert (Hx2 : a2 <> x) by (intros ->; congruence).
      destruct (decide (q = x)) as [<- | Hqx].
      * repeat heap_rw. eexists. split; [reflexivity |].
        assert (o = OMessage m) as -> by congruence.
        split; [by destruct m | left; by left].
      * repeat heap_rw. exists o. split; [done |].
        split; [apply relinked_refl | by right].
    + intros x Hx Hxo.
      apply not_elem_of_cons in Hx as [Hx1 Hx]. apply not_elem_of_cons in Hx as [Hx2 _].
      assert (q <> x) by (intros ->; congruence).
      by repeat heap_rw.
  - assert (Hrcp : is_null (Message.recipients m) = false).
    { apply is_null_false. intros Hnull.
      apply (rcpt_chain_head _ _ _ Hch) in Hnull. by destruct rl0. }
    assert (Hend : Message.end_recipients m = e).
    { apply Hlastr. by rewrite last_snoc. }
    destruct (rcpt_chain_elem _ _ _ e Hch) as (He & re & Hre).
    { apply elem_of_app. right. by left. }
    assert (He1 : a1 <> e) by (intros ->; congruence).
    assert (He2 : a2 <> e) by (intros ->; congruence).
    assert (Heq : q <> e) by (intros ->; congruence).
    rewrite Hrcp, Hend. exec.
    eexists. split; [reflexivity |]. api_cbn. split; [done |].
    split; [by repeat heap_rw |]. split; [by repeat heap_rw |].
    split; [| split].
    + intros x Hx. apply elem_of_cons in Hx as [-> | Hx]; [done |].
      apply list_elem_of_singleton in Hx as ->. done.
    + intros x o Hxo.
      assert (Hx1 : a1 <> x) by (intros ->; congruence).
      assert (Hx2 : a2 <> x) by (intros ->; congruence).
      destruct (decide (q = x)) as [<- | Hqx].
      * repeat heap_rw. eexists. split; [reflexivity |].
        assert (o = OMessage m) as -> by congruence.
        split; [by destruct m | left; by left].
      * destruct (decide (e = x)) as [<- | Hex].
        -- repeat heap_rw. eexists. split; [reflexivity |].
           assert (o = ORecipient re) as -> by congruence.
           split; [by destruct re |]. left. right.
           apply elem_of_app. right. by left.
        -- repeat heap_rw. exists o. split; [done |].
           split; [apply relinked_refl | by right].
    + intros x Hx Hxo.
      apply not_elem_of_cons in Hx as [Hx1 Hx]. apply not_elem_of_cons in Hx as [Hx2 _].
      assert (q <> x) by (intros ->; congruence).
      assert (e <> x) by (intros ->; congruence).
      by repeat heap_rw.
Qed.

Lemma relinked_recipient (r : Recipient.t) (o' : obj) :
  relinked (ORecipient r) o' ->
  exists r', o' = ORecipient r'
    /\ Recipient.mailbox r' = Recipient.mailbox r
    /\ Recipient.status r' = Recipient.status r
    /\ Recipient.dsn_addrtype r' = Recipient.dsn_addrtype r
    /\ Recipient.dsn_orcpt r' = Recipient.dsn_orcpt r.
Proof.
  destruct o' as [| | | | r']; try done. cbn. intros <-.
  exists r'. by destruct r'.
Qed.

Lemma relinked_message (m : Message.t) (o' : obj) :
  relinked (OMessage m) o' ->
  exists m', o' = OMessage m'
    /\ Message.reverse_path_status m' = Message.reverse_path_status m
    /\ Message.reverse_path_mailbox m' = Message.reverse_path_mailbox m
    /\ Message.dsn_envid m' = Message.dsn_envid m.
Proof.
  destruct o' as [| | | m' |]; try done. cbn. intros <-.
  exists m'. by destruct m'.
Qed.

Lemma relinked_session (s : Session.t) (o' : obj) :
  relinked (OSession s) o' ->
  exists s', o' = OSession s'
    /\ Session.mta_status s' = Session.mta_status s
    /\ Session.host s' = Session.host s
    /\ Session.localhost s' = Session.localhost s
    /\ Session.msg_source s' = Session.msg_source s.
Proof.
  destruct o' as [| | s' | |]; try done. cbn. intros <-.
  exists s'. by destruct s'.
Qed.

Lemma relinked_string (b : string) (o' : obj) :
  relinked (OString b) o' -> o' = OString b.
Proof. destruct o'; try done. cbn. by intros ->. Qed.

Lemma relinked_heap_mailbox_of (h h' : gmap N obj) (new touched : list ptr) (x : ptr)
    (r : Recipient.t) :
  relinked_heap h h' new touched ->
  h !! x = Some (ORecipient r) ->
  mailbox_of h' x = mailbox_of h x.
Proof.
  intros (_ & Hrel & _) Hr. destruct (Hrel x _ Hr) as (o' & Ho' & Hl & _).
  apply relinked_recipient in Hl as (r' & -> & Hmb & _).
  unfold mailbox_of. by rewrite Ho', Hr.
Qed.

Lemma graph_inv_recipient (h : gmap N obj) (session : ptr) (g : creation_log)
    (q : ptr) (rl : list ptr) (x : ptr) :
  graph_inv h session g -> (q, rl) ∈ g -> x ∈ rl ->
  x <> NULL /\ exists r, h !! x = Some (ORecipient r).
Proof.
  intros (_ & s & _ & _ & _ & _ & Hrc & _) Hin Hx.
  apply list_elem_of_lookup_1 in Hin as [i Hi].
  destruct (Hrc i q rl Hi) as (_ & m & _ & Hch & _).
  by apply (rcpt_chain_elem _ _ _ x Hch).
Qed.

Lemma graph_inv_message (h : gmap N obj) (session : ptr) (g : creation_log) (q : ptr) :
  graph_inv h session g -> q ∈ g.*1 ->
  q <> NULL /\ exists m, h !! q = Some (OMessage m).
Proof.
  intros (_ & s & _ & Hc & _) Hin. by apply (msg_chain_elem _ _ _ q Hc).
Qed.

(** X12.  A successful [smtp_add_recipient] hands back the new recipient, which
    owns a copy of the mailbox cut at its first NUL; a traversal of the
    message then visits the earlier recipients as before and the new one
    last, with the address of the copy. *)
Theorem smtp_add_recipient_appends (st : state) (a1 a2 session q : ptr)
    (g : creation_log) (k : nat) (rl : list ptr) (mailbox : string) :
  graph_inv (heap st) session g ->
  g !! k = Some (q, rl) ->
  fresh_in st a1 -> fresh_in st a2 -> a1 <> a2 ->
  exists st',
    smtp_add_recipient a1 a2 q (Some mailbox) st = Ok a1 st'
    /\ heap st' !! a2 = Some (OString (c_str mailbox))
    /\ graph_inv (heap st') session (alter (log_recipient a1) k g)
    /\ forall fuel cb arg,
         cb <> NULL -> (length rl + 1 < fuel)%nat ->
         smtp_enumerate_recipients fuel q cb arg st'
           = Ok 1 (with_trace
                     (trace st ++ recipient_visits (heap st) cb arg rl
                        ++ [EvRecipientCb cb a1 a2 arg]) st').
Proof.
  intros Hinv Hk Hf1 Hf2 Hne.
  destruct (add_recipient_effect st a1 a2 session q g k rl mailbox Hinv Hk Hf1 Hf2 Hne)
    as (st' & Hrun & Htr & Hh1 & Hh2 & Hrel).
  destruct (smtp_add_recipient_inv st a1 a2 session g k (Some mailbox) Hinv)
    as (p & st'' & Hrun' & Hinv').
  unfold nth_message in Hrun'. rewrite Hk, Hrun in Hrun'.
  injection Hrun' as <- <-.
  destruct Hf1 as [Ha1 Hn1]. pose proof Ha1 as Ha1'. apply is_null_false in Ha1'.
  rewrite Ha1' in Hinv'.
  exists st'. split; [done |]. split; [done |]. split; [done |].
  intros fuel cb arg Hcb Hfuel.
  rewrite (enumerate_recipients_graph st' session _ q (rl ++ [a1]) fuel cb arg Hinv').
  - rewrite Htr. unfold recipient_visits. rewrite map_app. cbn [map].
    replace (mailbox_of (heap st') a1) with a2
      by (unfold mailbox_of; by rewrite Hh1).
    assert (Hmap : map (fun x => EvRecipientCb cb x (mailbox_of (heap st') x) arg) rl
                   = map (fun x => EvRecipientCb cb x (mailbox_of (heap st) x) arg) rl).
    { apply map_ext_in. intros x Hx. apply list_elem_of_In in Hx.
      destruct (graph_inv_recipient _ _ _ q rl x Hinv) as (_ & r & Hr);
        [by eapply list_elem_of_lookup_2 | done |].
      by rewrite (relinked_heap_mailbox_of (heap st) (heap st') _ _ x r Hrel Hr). }
    by rewrite Hmap.
  - apply (list_elem_of_lookup_2 _ k). rewrite list_lookup_alter, Hk. by rewrite decide_True.
  - done.
  - rewrite length_app. cbn. lia.
Qed.

(** ** Plain session graphs *)

Lemma logged_recipient (h : gmap N obj) (session : ptr) (g : creation_log) (r : ptr) :
  graph_inv h session g -> logged g r ->
  r <> NULL /\ exists x, h !! r = Some (ORecipient x).
Proof. intros Hinv (q & rl & Hin & Hr). by eapply graph_inv_recipient. Qed.

Lemma owned_allocated (h0 h : gmap N obj) (session : ptr) (g : creation_log) (x : ptr) :
  plain_graph h0 h session g -> owned h session g x -> is_Some (h !! x).
Proof.
  intros (Hinv & (s & Hs & _) & _ & Hpr & _) [-> | [Hx | (r & Hl & [-> | ->])]].
  - by eexists.
  - destruct (graph_inv_message _ _ _ _ Hinv Hx) as (_ & m & Hm). by eexists.
  - destruct (Hpr r Hl) as (x & b & Hx & _). by eexists.
  - destruct (Hpr r Hl) as (x & b & Hx & _ & _ & _ & _ & Hb).
    unfold mailbox_of. rewrite Hx. by eexists.
Qed.

Lemma plain_graph_free (h0 h : gmap N obj) (session : ptr) (g : creation_log) (x : ptr) :
  plain_graph h0 h session g -> h !! x = None -> h0 !! x = None.
Proof.
  intros Hp Hx. pose proof Hp as (_ & _ & _ & _ & _ & _ & Hf).
  destruct (Hf x) as [<- | Ho]; [done |].
  apply (owned_allocated _ _ _ _ _ Hp) in Ho as [o Ho]. congruence.
Qed.

Lemma plain_graph_ext (h0 h h' : gmap N obj) (session : ptr) (g : creation_log) :
  (forall x, h' !! x = h !! x) ->
  plain_graph h0 h session g -> plain_graph h0 h' session g.
Proof. intros Heq. apply map_eq in Heq. by subst. Qed.

(** The constructors extend a plain graph: [a] is the new recipient, if
    one was added. *)
Lemma plain_graph_extend (h0 h h' : gmap N obj) (session a : ptr)
    (g g' : creation_log) (new touched : list ptr) :
  plain_graph h0 h session g ->
  graph_inv h' session g' ->
  relinked_heap h h' new touched ->
  (forall x, x ∈ touched -> owned h session g x) ->
  (forall q, q ∈ g'.*1 -> q ∈ g.*1 \/ (q ∈ new /\ plain_message h' q)) ->
  (forall q, q ∈ g.*1 -> q ∈ g'.*1) ->
  (forall r, logged g r -> logged g' r) ->
  (forall r, logged g' r ->
     logged g r
     \/ (r = a /\ a ∈ new /\ mailbox_of h' a ∈ new /\ plain_recipient h' a)) ->
  (forall x, x ∈ new -> owned h' session g' x) ->
  plain_graph h0 h' session g'.
Proof.
  intros Hp Hinv' Hrel Htouched Hmsgs Hmsgs' Hlog Hlog' Hnew.
  pose proof Hp as (Hinv & Hps & Hpm & Hpr & Hinj & Hf1 & Hf2).
  pose proof Hrel as (Hfresh & Hsame & Hnone).
  assert (Hmb : forall r, logged g r -> mailbox_of h' r = mailbox_of h r).
  { intros r Hr. destruct (logged_recipient _ _ _ _ Hinv Hr) as (_ & x & Hx).
    by eapply relinked_heap_mailbox_of. }
  assert (Hown : forall x, owned h session g x -> owned h' session g' x).
  { intros x [-> | [Hx | (r & Hl & Hx)]].
    - by left.
    - right. left. by apply Hmsgs'.
    - right. right. exists r. split; [by apply Hlog |]. by rewrite Hmb. }
  assert (Hold : forall r, logged g r -> plain_recipient h' r).
  { intros r Hr. destruct (Hpr r Hr) as (x & b & Hx & Ht & Hat & Hor & Hmn & Hb).
    destruct (Hsame r _ Hx) as (o' & Ho' & Hl & _).
    apply relinked_recipient in Hl as (x' & -> & Hmx & Hsx & Hax & Hox).
    destruct (Hsame _ _ Hb) as (ob & Hob & Hlb & _).
    apply relinked_string in Hlb as ->.
    exists x', b. rewrite Hmx, Hsx, Hax, Hox. done. }
  assert (Hdiff : forall r x, logged g r -> x ∈ new -> mailbox_of h' r <> x).
  { intros r x Hr Hx Heq. rewrite (Hmb r Hr) in Heq.
    destruct (Hpr r Hr) as (y & b & Hy & _ & _ & _ & _ & Hb).
    unfold mailbox_of in Heq. rewrite Hy in Heq. subst x.
    rewrite (Hfresh _ Hx) in Hb. done. }
  split; [done |]. split; [| split; [| split; [| split; [| split]]]].
  - destruct Hps as (s & Hs & Ht & Hho & Hlo & Hms).
    destruct (Hsame _ _ Hs) as (o' & Ho' & Hl & _).
    apply relinked_session in Hl as (s' & -> & E1 & E2 & E3 & E4).
    exists s'. rewrite E1, E2, E3, E4. done.
  - intros q Hq. destruct (Hmsgs q Hq) as [Hq' | [_ Hq']]; [| done].
    destruct (Hpm q Hq') as (m & Hm & Ht & Hrp & Hen).
    destruct (Hsame _ _ Hm) as (o' & Ho' & Hl & _).
    apply relinked_message in Hl as (m' & -> & E1 & E2 & E3).
    exists m'. rewrite E1, E2, E3. done.
  - intros r Hr. destruct (Hlog' r Hr) as [Hr' | (-> & _ & _ & Hr')]; [| done].
    by apply Hold.
  - intros r r' Hr Hr' Heq.
    destruct (Hlog' r Hr) as [Hr1 | (-> & _ & Hr1 & _)];
      destruct (Hlog' r' Hr') as [Hr2 | (-> & _ & Hr2 & _)].
    + rewrite (Hmb r Hr1), (Hmb r' Hr2) in Heq. by apply Hinj.
    + by destruct (Hdiff r _ Hr1 Hr2).
    + by destruct (Hdiff r' _ Hr2 Hr1).
    + done.
  - assert (Hn : forall x, x ∈ new -> h0 !! x = None).
    { intros x Hx. apply (plain_graph_free _ _ _ _ _ Hp). by apply Hfresh. }
    intros x [-> | [Hx | (r & Hl & Hx)]].
    + apply Hf1. by left.
    + destruct (Hmsgs x Hx) as [Hx' | [Hx' _]]; [| by apply Hn].
      apply Hf1. right. by left.
    + destruct (Hlog' r Hl) as [Hr | (-> & Ha & Hma & _)].
      * apply Hf1. right. right. exists r. split; [done |]. by rewrite <- Hmb.
      * destruct Hx as [-> | ->]; by apply Hn.
  - intros x. destruct (Hf2 x) as [Heq | Ho]; [| right; by apply Hown].
    destruct (decide (x ∈ new)) as [Hx | Hx]; [right; by apply Hnew |].
    destruct (h !! x) as [o |] eqn:Hxo.
    + destruct (Hsame _ _ Hxo) as (o' & Ho' & _ & [Ht | ->]).
      * right. apply Hown. by apply Htouched.
      * left. congruence.
    + left. rewrite <- Heq. by apply Hnone.
Qed.

Lemma add_message_refused (st : state) (a session : ptr) :
  session <> NULL ->
  refused_in st a ->
  smtp_add_message a session st = Ok NULL (with_errno (Some ENOMEM) st).
Proof.
  intros Hs Hr. apply is_null_false in Hs.
  unfold smtp_add_message, SMTPAPI_CHECK_ARGS. rewrite Hs. cbn [negb].
  unfold bind at 1. by rewrite malloc_refused.
Qed.

Lemma logged_snoc_nil (g : creation_log) (a r : ptr) :
  logged (g ++ [(a, [])]) r <-> logged g r.
Proof.
  split; intros (q & rl & Hin & Hr).
  - apply elem_of_app in Hin as [Hin | Hin]; [by exists q, rl |].
    apply list_elem_of_singleton in Hin. injection Hin as -> ->.
    by apply elem_of_nil in Hr.
  - exists q, rl. split; [| done]. apply elem_of_app. by left.
Qed.

Lemma plain_graph_add_message (h0 : gmap N obj) (st st' : state) (a session p : ptr)
    (g : creation_log) :
  plain_graph h0 (heap st) session g ->
  smtp_add_message a session st = Ok p st' ->
  plain_graph h0 (heap st') session (if is_null p then g else g ++ [(p, [])]).
Proof.
  intros Hp Hrun. pose proof Hp as (Hinv & _).
  pose proof Hinv as (Hs & _).
  destruct (is_null a) eqn:Ha.
  { rewrite add_message_refused in Hrun; [| done | left; by apply is_null_true].
    injection Hrun as <- <-. done. }
  destruct (heap st !! a) as [x |] eqn:Hh.
  { rewrite add_message_refused in Hrun; [| done | right; by eexists].
    injection Hrun as <- <-. done. }
  assert (Hf : fresh_in st a) by (split; [by apply is_null_false | done]).
  destruct (add_message_effect st a session g Hinv Hf) as (st1 & Hrun1 & _ & Ha1 & Hrel).
  rewrite Hrun1 in Hrun. injection Hrun as <- <-.
  destruct (smtp_add_message_inv st a session g Hinv) as (p & st2 & Hrun2 & Hinv').
  rewrite Hrun1 in Hrun2. injection Hrun2 as <- <-.
  rewrite Ha in *.
  apply (plain_graph_extend h0 (heap st) (heap st1) session NULL g _ [a] (session :: g.*1));
    try done.
  - intros x Hx. apply elem_of_cons in Hx as [-> | Hx]; [by left | right; by left].
  - intros q Hq. rewrite fmap_app in Hq. apply elem_of_app in Hq as [Hq | Hq]; [by left |].
    apply list_elem_of_singleton in Hq as ->. right. split; [by left |].
    eexists. split; [exact Ha1 |]. done.
  - intros q Hq. rewrite fmap_app. apply elem_of_app. by left.
  - intros r Hr. by apply logged_snoc_nil.
  - intros r Hr. left. by apply logged_snoc_nil in Hr.
  - intros x Hx. apply list_elem_of_singleton in Hx as ->. right. left.
    rewrite fmap_app. apply elem_of_app. right. by left.
Qed.

Lemma logged_alter (g : creation_log) (k : nat) (q : ptr) (rl : list ptr) (a r : ptr) :
  g !! k = Some (q, rl) ->
  logged (alter (log_recipient a) k g) r <-> logged g r \/ r = a.
Proof.
  intros Hk. split.
  - intros (q' & rl' & Hin & Hr). apply list_elem_of_lookup_1 in Hin as [i Hi].
    rewrite list_lookup_alter in Hi. destruct (decide (k = i)) as [<- | Hne].
    + rewrite Hk in Hi. cbn in Hi. injection Hi as <- <-.
      apply elem_of_app in Hr as [Hr | Hr].
      * left. exists q, rl. split; [by eapply list_elem_of_lookup_2 | done].
      * right. by apply list_elem_of_singleton in Hr.
    + left. exists q', rl'. split; [by eapply list_elem_of_lookup_2 | done].
  - intros [(q' & rl' & Hin & Hr) | ->].
    + apply list_elem_of_lookup_1 in Hin as [i Hi].
      destruct (decide (k = i)) as [<- | Hne].
      * rewrite Hk in Hi. injection Hi as <- <-.
        exists q, (rl ++ [a]). split.
        -- apply (list_elem_of_lookup_2 _ k). rewrite list_lookup_alter, Hk.
           by rewrite decide_True.
        -- apply elem_of_app. by left.
      * exists q', rl'. split; [| done].
        apply (list_elem_of_lookup_2 _ i). rewrite list_lookup_alter.
        by rewrite decide_False.
    + exists q, (rl ++ [a]). split.
      * apply (list_elem_of_lookup_2 _ k). rewrite list_lookup_alter, Hk.
        by rewrite decide_True.
      * apply elem_of_app. right. by left.
Qed.

Lemma plain_graph_add_recipient (h0 : gmap N obj) (st st' : state)
    (a1 a2 session p : ptr) (g : creation_log) (k : nat) (mailbox : option string) :
  plain_graph h0 (heap st) session g ->
  smtp_add_recipient a1 a2 (nth_message g k) mailbox st = Ok p st' ->
  plain_graph h0 (heap st') session
    (if is_null p then g else alter (log_recipient p) k g).
Proof.
  intros Hp Hrun. pose proof Hp as (Hinv & _).
  unfold nth_message in Hrun. destruct (g !! k) as [[q rl] |] eqn:Hk.
  2:{ injection Hrun as <- <-. done. }
  assert (Hqin : q ∈ g.*1).
  { apply list_elem_of_fmap. exists (q, rl). split; [done |].
    by eapply list_elem_of_lookup_2. }
  destruct (graph_inv_message _ _ _ _ Hinv Hqin) as (Hq & _).
  destruct mailbox as [mailbox |].
  2:{ rewrite add_recipient_null_mailbox in Hrun by done.
      injection Hrun as <- <-. done. }
  destruct (is_null a1) eqn:Ha1.
  { rewrite add_recipient_malloc_refused in Hrun;
      [| done | left; by apply is_null_true].
    injection Hrun as <- <-. done. }
  destruct (heap st !! a1) as [x1 |] eqn:Hh1.
  { rewrite add_recipient_malloc_refused in Hrun; [| done | right; by eexists].
    injection Hrun as <- <-. done. }
  assert (Hf1 : fresh_in st a1) by (split; [by apply is_null_false | done]).
  assert (Hfail : a2 = a1 \/ refused_in st a2 ->
            plain_graph h0 (heap st') session
              (if is_null p then g else alter (log_recipient p) k g)).
  { intros Hr. rewrite add_recipient_strdup_refused in Hrun by done.
    injection Hrun as <- <-. done. }
  destruct (decide (a2 = a1)) as [Heq | Hne12]; [by apply Hfail; left |].
  destruct (is_null a2) eqn:Ha2.
  { apply Hfail. right. left. by apply is_null_true. }
  destruct (heap st !! a2) as [x2 |] eqn:Hh2.
  { apply Hfail. right. right. by eexists. }
  clear Hfail.
  assert (Hf2 : fresh_in st a2) by (split; [by apply is_null_false | done]).
  assert (Hne : a1 <> a2) by congruence.
  destruct (add_recipient_effect st a1 a2 session q g k rl mailbox Hinv Hk Hf1 Hf2 Hne)
    as (st1 & Hrun1 & _ & Hr1 & Hr2 & Hrel).
  rewrite Hrun1 in Hrun. injection Hrun as <- <-.
  destruct (smtp_add_recipient_inv st a1 a2 session g k (Some mailbox) Hinv)
    as (p & st2 & Hrun2 & Hinv').
  unfold nth_message in Hrun2. rewrite Hk, Hrun1 in Hrun2. injection Hrun2 as <- <-.
  rewrite Ha1 in *.
  apply (plain_graph_extend h0 (heap st) (heap st1) session a1 g _ [a1; a2] (q :: rl));
    try done.
  - intros x Hx. apply elem_of_cons in Hx as [-> | Hx]; [right; by left |].
    right. right. exists x. split; [| by left].
    exists q, rl. split; [by eapply list_elem_of_lookup_2 | done].
  - intros q' Hq'. left. by rewrite alter_log_recipient_fst in Hq'.
  - intros q' Hq'. by rewrite alter_log_recipient_fst.
  - intros r Hr. apply (logged_alter g k q rl a1 r Hk). by left.
  - intros r Hr. apply (logged_alter g k q rl a1 r Hk) in Hr as [Hr | ->]; [by left |].
    right. split; [done |]. split; [by left |].
    unfold mailbox_of. rewrite Hr1. cbn. split; [right; by left |].
    eexists _, _. rewrite Hr1. cbn. split; [done |].
    repeat (split; [done |]). split; [by apply is_null_false |]. exact Hr2.
  - intros x Hx. right. right. exists a1.
    split; [apply (logged_alter g k q rl a1 a1 Hk); by right |].
    apply elem_of_cons in Hx as [-> | Hx]; [by left |].
    apply list_elem_of_singleton in Hx as ->. right.
    unfold mailbox_of. by rewrite Hr1.
Qed.

Lemma plain_graph_create (cfg : config) (a : ptr) (st st' : state) (session : ptr) :
  smtp_create_session cfg a st = Ok session st' ->
  session <> NULL ->
  plain_graph (heap st) (heap st') session [].
Proof.
  intros Hrun Hs. pose proof (smtp_create_session_inv cfg a st st' session Hrun Hs) as Hinv.
  revert Hrun. unfold smtp_create_session, bind at 1, malloc.
  destruct (is_null a) eqn:Ha.
  { exec. intros [= <- <-]. done. }
  destruct (heap st !! a) as [x |] eqn:Hh.
  { exec. intros [= <- <-]. done. }
  rewrite Ha. exec. intros [= <- <-]. cbn [heap with_heap] in *.
  split; [done |]. split; [| split; [| split; [| split; [| split]]]].
  - eexists. rewrite lookup_insert_eq. split; [done |]. by destruct cfg.
  - intros q Hq. by apply elem_of_nil in Hq.
  - intros r (q & rl & Hin & _). by apply elem_of_nil in Hin.
  - intros r r' (q & rl & Hin & _). by apply elem_of_nil in Hin.
  - intros x [-> | [Hx | (r & (q & rl & Hin & _) & _)]].
    + done.
    + by apply elem_of_nil in Hx.
    + by apply elem_of_nil in Hin.
  - intros x. destruct (decide (x = a)) as [-> | Hne]; [right; by left |].
    left. by rewrite !lookup_insert_ne.
Qed.

Lemma plain_graph_run_build (h0 : gmap N obj) (session : ptr) (script : list build_call) :
  forall (g g' : creation_log) (st st' : state),
    plain_graph h0 (heap st) session g ->
    run_build session script g st = Ok g' st' ->
    plain_graph h0 (heap st') session g'.
Proof.
  induction script as [| c script IH]; intros g g' st st' Hp Hrun.
  - injection Hrun as <- <-. done.
  - cbn [run_build] in Hrun. unfold bind at 1 in Hrun.
    destruct c as [a | k mailbox a1 a2]; cbn [run_build_call] in Hrun;
      unfold bind at 1 in Hrun.
    + destruct (smtp_add_message a session st) as [p st1 | |] eqn:Hcall; try done.
      cbn in Hrun. apply (IH _ _ _ _ (plain_graph_add_message _ _ _ _ _ _ _ Hp Hcall) Hrun).
    + destruct (smtp_add_recipient a1 a2 (nth_message g k) mailbox st)
        as [p st1 | |] eqn:Hcall; try done.
      cbn in Hrun.
      apply (IH _ _ _ _ (plain_graph_add_recipient _ _ _ _ _ _ _ _ _ _ Hp Hcall) Hrun).
Qed.

(** ** Taking a plain graph apart *)

(** Unlinking and releasing the first recipient of the first message. *)
Lemma plain_graph_drop_recipient (h0 h h' : gmap N obj) (session q r : ptr)
    (rl : list ptr) (g : creation_log) (m : Message.t) (x : Recipient.t) :
  plain_graph h0 h session ((q, r :: rl) :: g) ->
  h !! q = Some (OMessage m) ->
  h !! r = Some (ORecipient x) ->
  h' !! q = Some (OMessage (Message.set_recipients (Recipient.next x) m)) ->
  h' !! r = None ->
  h' !! Recipient.mailbox x = None ->
  (forall y, y <> q -> y <> r -> y <> Recipient.mailbox x -> h' !! y = h !! y) ->
  plain_graph h0 h' session ((q, rl) :: g).
Proof.
  intros Hp Hq Hr Hq' Hr' Hb' Hframe.
  pose proof Hp as (Hinv & Hps & Hpm & Hpr & Hinj & Hf1 & Hf2).
  pose proof Hinv as (Hs & s & Hhs & Hc & Hlast & Hnd & Hrc & Hdisj).
  set (b := Recipient.mailbox x) in *.
  assert (Hrlog : logged ((q, r :: rl) :: g) r).
  { exists q, (r :: rl). split; by left. }
  destruct (Hpr r Hrlog) as (x0 & bb & Hx0 & _ & _ & _ & Hbn & Hb).
  rewrite Hr in Hx0. injection Hx0 as <-. fold b in Hb, Hbn.
  destruct (Hrc 0%nat q (r :: rl) eq_refl) as (Hndr & m0 & Hm0 & Hch & Hlastr).
  rewrite Hq in Hm0. injection Hm0 as <-.
  destruct Hch as (Hrec & Hrn & x1 & Hx1 & Hch).
  rewrite Hr in Hx1. injection Hx1 as <-.
  apply NoDup_cons in Hndr as [Hrnotin Hndrl].
  assert (Hrecs : forall y, logged ((q, rl) :: g) y ->
            y <> r /\ logged ((q, r :: rl) :: g) y).
  { intros y (q' & rl' & Hin & Hy). apply elem_of_cons in Hin as [Heq | Hin].
    - injection Heq as -> ->. split; [by intros -> |].
      exists q, (r :: rl). split; [by left | by right].
    - split.
      + intros ->. apply list_elem_of_lookup_1 in Hin as [j Hj].
        assert (Hr0 : r ∈ r :: rl) by (by left).
        by specialize (Hdisj 0%nat (S j) q (r :: rl) q' rl' r eq_refl Hj Hr0 Hy).
      + exists q', rl'. split; [by right | done]. }
  assert (Hsame : forall y, logged ((q, rl) :: g) y ->
            h' !! y = h !! y /\ mailbox_of h' y = mailbox_of h y
            /\ h' !! mailbox_of h y = h !! mailbox_of h y).
  { intros y Hy. destruct (Hrecs y Hy) as [Hne Hy'].
    destruct (Hpr y Hy') as (xy & bby & Hxy & _ & _ & _ & _ & Hby).
    assert (Hyy : h' !! y = h !! y).
    { apply Hframe; [intros -> | done | intros ->]; congruence. }
    split; [done |]. split; [unfold mailbox_of; by rewrite Hyy |].
    assert (Hmy : mailbox_of h y = Recipient.mailbox xy)
      by (unfold mailbox_of; by rewrite Hxy).
    rewrite Hmy. apply Hframe; [congruence | congruence |].
    intros Heq. apply Hne. apply Hinj; [done | done |].
    rewrite Hmy, Heq. unfold mailbox_of. by rewrite Hr. }
  assert (Hsq : session <> q) by (intros ->; congruence).
  assert (Hsr : session <> r) by (intros ->; congruence).
  assert (Hsb : session <> b) by (intros ->; congruence).
  assert (Hqr : q <> r) by (intros ->; congruence).
  assert (Hqb : q <> b) by (intros ->; congruence).
  assert (Hmsg : forall q', q' ∈ g.*1 -> q' <> q /\ h' !! q' = h !! q').
  { intros q' Hin. apply NoDup_cons in Hnd as [Hqn _].
    assert (q' <> q) by (by intros ->). split; [done |].
    destruct (graph_inv_message _ _ _ q' Hinv) as (_ & m' & Hm'); [by right |].
    apply Hframe; [done | intros -> | intros ->]; congruence. }
  assert (Hchain : forall p l, (forall y, y ∈ l -> logged ((q, rl) :: g) y) ->
            rcpt_chain h p l -> rcpt_chain h' p l).
  { intros p l Hl. apply rcpt_chain_preserved. intros y ry Hy Hry.
    exists ry. split; [| done]. destruct (Hsame y (Hl y Hy)) as (-> & _). done. }
  split; [| split; [| split; [| split; [| split; [| split]]]]].
  - split; [done |]. exists s. split; [by rewrite Hframe |].
    split.
    { revert Hc. apply msg_chain_preserved. intros q' m' Hin Hm'.
      rewrite fmap_cons in Hin. cbn [fst] in Hin.
      apply elem_of_cons in Hin as [-> | Hin].
      - rewrite Hq in Hm'. injection Hm' as <-. eexists. split; [exact Hq' |].
        by destruct m.
      - destruct (Hmsg q' Hin) as [_ Heq]. exists m'. by rewrite Heq. }
    split; [done |]. split; [done |]. split.
    { intros i q' rl' Hi. destruct i as [| i].
      - injection Hi as <- <-. split; [done |]. eexists. split; [exact Hq' |].
        split.
        + replace (Message.recipients (Message.set_recipients (Recipient.next x) m))
            with (Recipient.next x) by (by destruct m).
          apply Hchain; [| done]. intros y Hy. exists q, rl. split; [by left | done].
        + intros z Hz.
          replace (Message.end_recipients (Message.set_recipients (Recipient.next x) m))
            with (Message.end_recipients m) by (by destruct m).
          apply Hlastr. destruct rl; [done | done].
      - cbn in Hi. destruct (Hrc (S i) q' rl' Hi) as (Hnd' & m' & Hm' & Hch' & Hl').
        split; [done |]. exists m'.
        assert (Hin : q' ∈ g.*1).
        { apply list_elem_of_fmap. exists (q', rl'). split; [done |].
          by eapply list_elem_of_lookup_2. }
        destruct (Hmsg q' Hin) as [_ ->]. split; [done |]. split; [| done].
        apply Hchain; [| done]. intros y Hy. exists q', rl'. split; [| done].
        right. by eapply list_elem_of_lookup_2. }
    { intros i j q1 rl1 q2 rl2 y Hi Hj Hy1 Hy2.
      assert (Hi' : exists rl1', ((q, r :: rl) :: g) !! i = Some (q1, rl1') /\ y ∈ rl1').
      { destruct i; [| by exists rl1]. injection Hi as <- <-.
        exists (r :: rl). split; [done | by right]. }
      assert (Hj' : exists rl2', ((q, r :: rl) :: g) !! j = Some (q2, rl2') /\ y ∈ rl2').
      { destruct j; [| by exists rl2]. injection Hj as <- <-.
        exists (r :: rl). split; [done | by right]. }
      destruct Hi' as (rl1' & Hi' & Hy1'). destruct Hj' as (rl2' & Hj' & Hy2').
      by apply (Hdisj i j q1 rl1' q2 rl2' y). }
  - destruct Hps as (s' & Hs' & Hrest). exists s'. by rewrite Hframe.
  - intros q' Hin. cbn in Hin. apply elem_of_cons in Hin as [-> | Hin].
    + destruct (Hpm q) as (m' & Hm' & E1 & E2 & E3); [by left |].
      rewrite Hq in Hm'. injection Hm' as <-.
      eexists. split; [exact Hq' |]. by destruct m.
    + destruct (Hpm q') as (m' & Hm' & E); [by right |].
      exists m'. destruct (Hmsg q' Hin) as [_ ->]. done.
  - intros y Hy. destruct (Hrecs y Hy) as [Hne Hy'].
    destruct (Hpr y Hy') as (xy & bby & Hxy & E1 & E2 & E3 & E4 & Hby).
    destruct (Hsame y Hy) as (Hyy & _ & Hmy).
    exists xy, bby. rewrite Hyy. split; [done |]. repeat (split; [done |]).
    unfold mailbox_of in Hmy. rewrite Hxy in Hmy. by rewrite Hmy.
  - intros y y' Hy Hy' Heq.
    destruct (Hsame y Hy) as (_ & E & _). destruct (Hsame y' Hy') as (_ & E' & _).
    rewrite E, E' in Heq.
    apply Hinj; [by apply Hrecs | by apply Hrecs | done].
  - intros z [-> | [Hz | (y & Hy & Hz)]]; apply Hf1.
    + by left.
    + right. by left.
    + right. right. exists y. split; [by apply Hrecs |].
      destruct (Hsame y Hy) as (_ & E & _). by rewrite <- E.
  - assert (Hold : forall z, owned h session ((q, r :: rl) :: g) z ->
              h' !! z = h0 !! z \/ owned h' session ((q, rl) :: g) z).
    { intros z [-> | [Hz | (y & Hy & Hz)]].
      - right. by left.
      - right. right. by left.
      - destruct (decide (y = r)) as [-> | Hne].
        + left. rewrite (Hf1 z) by (right; right; by exists r).
          destruct Hz as [-> | ->]; [done |].
          unfold mailbox_of. by rewrite Hr.
        + right. right. right. exists y.
          assert (Hy' : logged ((q, rl) :: g) y).
          { destruct Hy as (q' & rl' & Hin & Hyin).
            apply elem_of_cons in Hin as [Heq | Hin].
            - injection Heq as -> ->. exists q, rl. split; [by left |].
              apply elem_of_cons in Hyin as [-> | Hyin]; done.
            - exists q', rl'. split; [by right | done]. }
          split; [done |]. destruct (Hsame y Hy') as (_ & E & _). by rewrite E. }
    intros z. destruct (Hf2 z) as [Heq | Ho]; [| by apply Hold].
    destruct (decide (z = q)) as [-> | Hzq].
    { apply Hold. right. left. by left. }
    destruct (decide (z = r)) as [-> | Hzr].
    { apply Hold. right. right. exists r. split; [done | by left]. }
    destruct (decide (z = b)) as [-> | Hzb].
    { apply Hold. right. right. exists r. split; [done |]. right.
      unfold mailbox_of. by rewrite Hr. }
    left. rewrite <- Heq. by apply Hframe.
Qed.

Lemma logged_cons_nil (g : creation_log) (q y : ptr) :
  logged ((q, []) :: g) y <-> logged g y.
Proof.
  split; intros (q' & rl' & Hin & Hy).
  - apply elem_of_cons in Hin as [Heq | Hin]; [| by exists q', rl'].
    injection Heq as -> ->. by apply elem_of_nil in Hy.
  - exists q', rl'. split; [by right | done].
Qed.

(** Unlinking and releasing the first message, once it has no recipients. *)
Lemma plain_graph_drop_message (h0 h h' : gmap N obj) (session q : ptr)
    (g : creation_log) (s : Session.t) (m : Message.t) :
  plain_graph h0 h session ((q, []) :: g) ->
  h !! session = Some (OSession s) ->
  h !! q = Some (OMessage m) ->
  h' !! session = Some (OSession (Session.set_messages (Message.next m) s)) ->
  h' !! q = None ->
  (forall y, y <> session -> y <> q -> h' !! y = h !! y) ->
  plain_graph h0 h' session g.
Proof.
  intros Hp Hhs Hq Hs' Hq' Hframe.
  pose proof Hp as (Hinv & Hps & Hpm & Hpr & Hinj & Hf1 & Hf2).
  pose proof Hinv as (Hs & s0 & Hhs0 & Hc & Hlast & Hnd & Hrc & Hdisj).
  rewrite Hhs in Hhs0. injection Hhs0 as <-.
  rewrite fmap_cons in Hc, Hlast, Hnd. cbn [fst] in Hc, Hlast, Hnd.
  destruct Hc as (Hmsgs & Hqn & m0 & Hm0 & Hc).
  rewrite Hq in Hm0. injection Hm0 as <-.
  apply NoDup_cons in Hnd as [Hqnotin Hnd].
  assert (Hsq : session <> q) by (intros ->; congruence).
  assert (Hmsg : forall q', q' ∈ g.*1 -> h' !! q' = h !! q').
  { intros q' Hin. assert (q' <> q) by (by intros ->).
    destruct (graph_inv_message _ _ _ q' Hinv) as (_ & m' & Hm');
      [rewrite fmap_cons; by right |].
    apply Hframe; [intros -> | done]; congruence. }
  assert (Hsame : forall y, logged g y ->
            h' !! y = h !! y /\ mailbox_of h' y = mailbox_of h y
            /\ h' !! mailbox_of h y = h !! mailbox_of h y).
  { intros y Hy. apply (logged_cons_nil g q) in Hy.
    destruct (Hpr y Hy) as (xy & bby & Hxy & _ & _ & _ & _ & Hby).
    assert (Hyy : h' !! y = h !! y) by (apply Hframe; intros ->; congruence).
    split; [done |]. split; [unfold mailbox_of; by rewrite Hyy |].
    unfold mailbox_of. rewrite Hxy. apply Hframe; congruence. }
  assert (Hchain : forall p l, (forall y, y ∈ l -> logged g y) ->
            rcpt_chain h p l -> rcpt_chain h' p l).
  { intros p l Hl. apply rcpt_chain_preserved. intros y ry Hy Hry.
    exists ry. split; [| done]. destruct (Hsame y (Hl y Hy)) as (-> & _). done. }
  split; [| split; [| split; [| split; [| split; [| split]]]]].
  - split; [done |]. eexists. split; [exact Hs' |].
    replace (Session.messages (Session.set_messages (Message.next m) s))
      with (Message.next m) by (by destruct s).
    replace (Session.end_messages (Session.set_messages (Message.next m) s))
      with (Session.end_messages s) by (by destruct s).
    split.
    { revert Hc. apply msg_chain_preserved. intros q' m' Hin Hm'.
      exists m'. by rewrite (Hmsg q' Hin). }
    split.
    { intros e He. apply Hlast. destruct (g.*1); done. }
    split; [done |]. split.
    { intros i q' rl' Hi.
      destruct (Hrc (S i) q' rl' Hi) as (Hnd' & m' & Hm' & Hch' & Hl').
      split; [done |]. exists m'.
      assert (Hin : q' ∈ g.*1).
      { apply list_elem_of_fmap. exists (q', rl'). split; [done |].
        by eapply list_elem_of_lookup_2. }
      rewrite (Hmsg q' Hin). split; [done |]. split; [| done].
      apply Hchain; [| done]. intros y Hy. exists q', rl'. split; [| done].
      by eapply list_elem_of_lookup_2. }
    { intros i j q1 rl1 q2 rl2 y Hi Hj Hy1 Hy2.
      assert (S i = S j) by (by apply (Hdisj (S i) (S j) q1 rl1 q2 rl2 y)).
      congruence. }
  - destruct Hps as (s' & Hs0 & E1 & E2 & E3 & E4).
    rewrite Hhs in Hs0. injection Hs0 as <-.
    eexists. split; [exact Hs' |]. by destruct s.
  - intros q' Hin. destruct (Hpm q') as (m' & Hm' & E); [rewrite fmap_cons; by right |].
    exists m'. by rewrite (Hmsg q' Hin).
  - intros y Hy. pose proof Hy as Hy0. apply (logged_cons_nil g q) in Hy0.
    destruct (Hpr y Hy0) as (xy & bby & Hxy & E1 & E2 & E3 & E4 & Hby).
    destruct (Hsame y Hy) as (Hyy & _ & Hmy).
    exists xy, bby. rewrite Hyy. split; [done |]. repeat (split; [done |]).
    unfold mailbox_of in Hmy. rewrite Hxy in Hmy. by rewrite Hmy.
  - intros y y' Hy Hy' Heq.
    destruct (Hsame y Hy) as (_ & E & _). destruct (Hsame y' Hy') as (_ & E' & _).
    rewrite E, E' in Heq.
    apply Hinj; [by apply logged_cons_nil | by apply logged_cons_nil | done].
  - intros z [-> | [Hz | (y & Hy & Hz)]]; apply Hf1.
    + by left.
    + right. left. rewrite fmap_cons. by right.
    + right. right. exists y. split; [by apply logged_cons_nil |].
      destruct (Hsame y Hy) as (_ & E & _). by rewrite <- E.
  - assert (Hold : forall z, owned h session ((q, []) :: g) z ->
              h' !! z = h0 !! z \/ owned h' session g z).
    { intros z [-> | [Hz | (y & Hy & Hz)]].
      - right. by left.
      - rewrite fmap_cons in Hz. cbn [fst] in Hz.
        apply elem_of_cons in Hz as [-> | Hz].
        + left. rewrite Hq'. symmetry. apply Hf1. right. left. rewrite fmap_cons. by left.
        + right. right. by left.
      - right. right. right. exists y. apply logged_cons_nil in Hy.
        split; [done |]. destruct (Hsame y Hy) as (_ & E & _). by rewrite E. }
    intros z. destruct (Hf2 z) as [Heq | Ho]; [| by apply Hold].
    destruct (decide (z = session)) as [-> | Hzs].
    { apply Hold. by left. }
    destruct (decide (z = q)) as [-> | Hzq].
    { apply Hold. right. left. rewrite fmap_cons. by left. }
    left. rewrite <- Heq. by apply Hframe.
Qed.

(** ** Teardown of a plain graph *)

Lemma plain_graph_head (h0 h : gmap N obj) (session q : ptr) (rl : list ptr)
    (g : creation_log) :
  plain_graph h0 h session ((q, rl) :: g) ->
  exists s m,
    h !! session = Some (OSession s)
    /\ Session.messages s = q /\ q <> NULL /\ session <> q
    /\ h !! q = Some (OMessage m)
    /\ Message.reverse_path_status m = Status.zero
    /\ Message.reverse_path_mailbox m = NULL
    /\ Message.dsn_envid m = NULL
    /\ rcpt_chain h (Message.recipients m) rl.
Proof.
  intros ((Hs & s & Hhs & Hc & _ & _ & Hrc & _) & _ & Hpm & _).
  destruct (Hrc 0%nat q rl eq_refl) as (_ & m & Hm & Hch & _).
  destruct (Hpm q) as (m' & Hm' & E1 & E2 & E3); [rewrite fmap_cons; by left |].
  rewrite Hm in Hm'. injection Hm' as <-.
  rewrite fmap_cons in Hc. destruct Hc as (Hmsgs & Hq & _).
  exists s, m. repeat (split; [done |]). split; [| done].
  intros ->. congruence.
Qed.

Lemma destroy_recipients_loop_plain (h0 : gmap N obj) (session q : ptr)
    (g : creation_log) :
  forall (rl : list ptr) (fuel : nat) (st : state),
    (length rl < fuel)%nat ->
    plain_graph h0 (heap st) session ((q, rl) :: g) ->
    exists st',
      destroy_recipients_loop fuel session st = Ok tt st'
      /\ plain_graph h0 (heap st') session ((q, []) :: g)
      /\ trace st' = trace st /\ smtp_errno st' = smtp_errno st.
Proof.
  induction rl as [| r rl IH]; intros fuel st Hfuel Hp;
    (destruct fuel as [| fuel]; [cbn in Hfuel; lia |]);
    destruct (plain_graph_head _ _ _ _ _ _ Hp)
      as (s & m & Hs & Hmsgs & Hqn & Hsq & Hq & _ & _ & _ & Hch).
  - cbn in Hch. destruct s, m. simpl in Hmsgs, Hch. subst.
    cbn [destroy_recipients_loop]. exec. exists st. done.
  - destruct Hch as (Hrec & Hrn & x & Hr & Hch).
    pose proof Hp as (_ & _ & _ & Hpr & _).
    destruct (Hpr r) as (x' & bb & Hr' & E1 & E2 & E3 & Hbn & Hb).
    { exists q, (r :: rl). split; by left. }
    rewrite Hr in Hr'. injection Hr' as <-.
    assert (Hsr : session <> r) by (intros ->; congruence).
    assert (Hqr : q <> r) by (intros ->; congruence).
    assert (Hrb : r <> Recipient.mailbox x) by (intros Heq; congruence).
    assert (Hqb : q <> Recipient.mailbox x) by (intros Heq; congruence).
    assert (Hsb : session <> Recipient.mailbox x) by (intros Heq; congruence).
    apply is_null_false in Hrn, Hbn.
    pose proof (fun h' => plain_graph_drop_recipient h0 (heap st) h' session q r rl g
                             m x Hp Hq Hr) as Hdrop.
    clear Hpr. destruct s, m, x.
    simpl in Hmsgs, Hrec, E1, E2, E3, Hb, Hbn, Hrb, Hqb, Hsb, Hch, Hdrop. subst.
    cbn [destroy_recipients_loop]. exec.
    match goal with
    | |- exists st', destroy_recipients_loop fuel session ?s1 = _ /\ _ =>
        destruct (IH fuel s1) as (st' & Hrun & Hp' & Htr & Herr)
    end.
    + cbn in Hfuel. lia.
    + api_cbn. apply Hdrop.
      * by repeat heap_rw.
      * by repeat heap_rw.
      * by repeat heap_rw.
      * intros y H1 H2 H3. by repeat heap_rw.
    + exists st'. done.
Qed.

Lemma msg_chain_hd (h : gmap N obj) (p : ptr) (l : list ptr) :
  msg_chain h p l -> p = hd NULL l.
Proof. destruct l; cbn; [done | by intros (-> & _)]. Qed.

Lemma plain_graph_next (h0 h : gmap N obj) (session q : ptr) (rl : list ptr)
    (g : creation_log) (m : Message.t) :
  plain_graph h0 h session ((q, rl) :: g) ->
  h !! q = Some (OMessage m) ->
  Message.next m = hd NULL (g.*1).
Proof.
  intros ((_ & s & _ & Hc & _) & _) Hq.
  rewrite fmap_cons in Hc. cbn [fst] in Hc. destruct Hc as (_ & _ & m' & Hm' & Hc).
  rewrite Hq in Hm'. injection Hm' as <-. by apply msg_chain_hd in Hc.
Qed.

Lemma destroy_messages_loop_plain (h0 : gmap N obj) (session : ptr) (fuel_r : nat) :
  forall (g : creation_log) (fuel : nat) (st : state),
    (length g < fuel)%nat ->
    (forall q rl, (q, rl) ∈ g -> (length rl < fuel_r)%nat) ->
    plain_graph h0 (heap st) session g ->
    exists st',
      destroy_messages_loop fuel_r fuel session st = Ok tt st'
      /\ plain_graph h0 (heap st') session []
      /\ trace st' = trace st ++ map EvDestroyHeaderTable (g.*1)
      /\ smtp_errno st' = smtp_errno st.
Proof.
  induction g as [| [q rl] g IH]; intros fuel st Hfuel Hfr Hp;
    (destruct fuel as [| fuel]; [cbn in Hfuel; lia |]).
  - pose proof Hp as ((_ & s & Hs & Hc & _) & _). cbn in Hc.
    destruct s. simpl in Hc. subst.
    cbn [destroy_messages_loop]. exec. exists st.
    split; [done |]. split; [done |]. cbn. by rewrite app_nil_r.
  - destruct (plain_graph_head _ _ _ _ _ _ Hp)
      as (s & m & Hs & Hmsgs & Hqn & Hsq & Hq & E1 & E2 & E3 & Hch).
    pose proof (plain_graph_next _ _ _ _ _ _ _ Hp Hq) as Hnext.
    assert (Hp1 : plain_graph h0 (<[q := OMessage m]> (heap st)) session
                    ((q, rl) :: g)).
    { revert Hp. apply plain_graph_ext. intros y.
      destruct (decide (q = y)) as [<- | Hne]; by repeat heap_rw. }
    apply is_null_false in Hqn.
    destruct s, m. simpl in Hmsgs, E1, E2, E3, Hch, Hnext, Hp1. subst.
    cbn [destroy_messages_loop]. exec.
    match goal with
    | |- context [destroy_recipients_loop fuel_r session ?s1] =>
        destruct (destroy_recipients_loop_plain h0 session q g rl fuel_r s1)
          as (st2 & Hrun2 & Hp2 & Htr2 & Herr2)
    end.
    { apply (Hfr q). by left. }
    { exact Hp1. }
    rewrite Hrun2. clear Hp1 Hrun2.
    destruct (plain_graph_head _ _ _ _ _ _ Hp2)
      as (s2 & m2 & Hs2 & Hmsgs2 & _ & _ & Hq2 & _ & _ & F3 & Hch2).
    pose proof (plain_graph_next _ _ _ _ _ _ _ Hp2 Hq2) as Hnext2.
    pose proof (fun h' => plain_graph_drop_message h0 (heap st2) h' session q g
                            s2 m2 Hp2 Hs2 Hq2) as Hdrop.
    destruct s2, m2. simpl in Hmsgs2, F3, Hch2, Hnext2, Hdrop. subst.
    exec.
    match goal with
    | |- exists st', destroy_messages_loop fuel_r fuel session ?s3 = _ /\ _ =>
        destruct (IH fuel s3) as (st' & Hrun & Hp' & Htr & Herr)
    end.
    + cbn in Hfuel. lia.
    + intros q' rl' Hin. apply (Hfr q'). by right.
    + api_cbn. apply Hdrop.
      * by repeat heap_rw.
      * by repeat heap_rw.
      * intros y H1 H2. by repeat heap_rw.
    + exists st'. split; [done |]. split; [done |].
      cbn [heap smtp_errno trace with_heap with_errno with_trace] in Htr, Herr, Htr2, Herr2.
      split; [| by rewrite Herr, Herr2].
      rewrite Htr, Htr2.
      rewrite fmap_cons. cbn [map fst]. by rewrite <- app_assoc.
Qed.

Lemma smtp_destroy_session_plain (cfg : config) (h0 : gmap N obj) (session : ptr)
    (g : creation_log) (fuel : nat) (st : state) :
  plain_graph h0 (heap st) session g ->
  (length g < fuel)%nat ->
  (forall q rl, (q, rl) ∈ g -> (length rl < fuel)%nat) ->
  exists st',
    smtp_destroy_session cfg fuel session st = Ok 1 st'
    /\ heap st' = h0
    /\ trace st'
       = trace st ++ EvDestroyAuthMechanisms session
           :: (if USE_ETRN cfg then [EvDestroyEtrnNodes session] else [])
           ++ map EvDestroyHeaderTable (g.*1)
    /\ smtp_errno st' = smtp_errno st.
Proof.
  intros Hp Hfuel Hfr.
  pose proof Hp as ((Hsn & _) & (s & Hs & E1 & E2 & E3 & E4) & _).
  assert (Hp1 : plain_graph h0 (<[session := OSession s]> (heap st)) session g).
  { revert Hp. apply plain_graph_ext. intros y.
    destruct (decide (session = y)) as [<- | Hne]; by repeat heap_rw. }
  apply is_null_false in Hsn.
  destruct s. simpl in E1, E2, E3, E4, Hp1. subst.
  unfold smtp_destroy_session. exec.
  assert (Hheap : forall h2, plain_graph h0 h2 session [] -> delete session h2 = h0).
  { intros h2 (_ & _ & _ & _ & _ & Hf1 & Hf2). apply map_eq. intros x.
    destruct (decide (x = session)) as [-> | Hne].
    - rewrite lookup_delete_eq. symmetry. apply Hf1. by left.
    - rewrite lookup_delete_ne by done.
      destruct (Hf2 x) as [Heq | [-> | [Hx | (r & (q & rl & Hin & _) & _)]]].
      + done.
      + done.
      + by apply elem_of_nil in Hx.
      + by apply elem_of_nil in Hin. }
  destruct (USE_ETRN cfg); exec;
    (match goal with
     | |- context [destroy_messages_loop fuel fuel session ?s1] =>
         destruct (destroy_messages_loop_plain h0 session fuel g fuel s1 Hfuel Hfr Hp1)
           as (st2 & Hrun & Hp2 & Htr & Herr)
     end;
     rewrite Hrun; pose proof Hp2 as (_ & (s2 & Hs2 & _) & _); exec;
     eexists; (split; [reflexivity |]); api_cbn;
     cbn [heap smtp_errno trace with_heap with_errno with_trace] in Htr, Herr;
     split; [by apply Hheap |]; split; [| done];
     rewrite Htr; by rewrite <- !app_assoc).
Qed.

(** X13.  A session built by [smtp_create_session], [smtp_add_message] and
    [smtp_add_recipient] alone, whatever the allocator answered and whichever
    of the calls failed, is taken apart completely by [smtp_destroy_session]:
    the call returns 1, the heap is again the heap from before the session
    was created, and the teardown hooks are called for the session and then
    for every message in creation order. *)
Theorem built_session_teardown (cfg : config) (a session : ptr)
    (script : list build_call) (g : creation_log) (st0 st1 st2 : state) (fuel : nat) :
  smtp_create_session cfg a st0 = Ok session st1 ->
  session <> NULL ->
  run_build session script [] st1 = Ok g st2 ->
  (length g < fuel)%nat ->
  Forall (fun e => (length e.2 < fuel)%nat) g ->
  exists st3,
    smtp_destroy_session cfg fuel session st2 = Ok 1 st3
    /\ heap st3 = heap st0
    /\ trace st3
       = trace st2 ++ EvDestroyAuthMechanisms session
           :: (if USE_ETRN cfg then [EvDestroyEtrnNodes session] else [])
           ++ map EvDestroyHeaderTable (g.*1)
    /\ smtp_errno st3 = smtp_errno st2.
Proof.
  intros Hcreate Hs Hbuild Hfuel Hfr.
  apply (smtp_destroy_session_plain cfg (heap st0) session g fuel st2); [| done |].
  - eapply plain_graph_run_build; [| exact Hbuild].
    by eapply plain_graph_create.
  - intros q rl Hin. rewrite Forall_forall in Hfr. apply (Hfr _ Hin).
Qed.

(** * Examples

    The theorems above at concrete sessions. *)

Lemma smtp_add_recipient_failures_witness :
  smtp_add_recipient 5%N 6%N 2%N None example_state
    = Ok NULL (with_errno (Some SMTP_ERR_INVAL) example_state)
  /\ smtp_add_recipient 5%N NULL 2%N (Some "x@example.org"%string) example_state
    = Ok NULL (with_errno (Some ENOMEM) example_state).
Proof.
  assert (Hm : 2%N <> NULL) by discriminate.
  destruct (smtp_add_recipient_failures example_state 5%N 6%N 2%N "x" Hm) as [H1 _].
  destruct (smtp_add_recipient_failures example_state 5%N NULL 2%N
              "x@example.org" Hm) as [_ H2].
  split; [exact H1 |]. apply H2.
  - split; [discriminate | vm_compute; reflexivity].
  - right. left. reflexivity.
Defined.

Lemma smtp_dsn_set_orcpt_second_alloc_failure_witness :
  exists st',
    smtp_dsn_set_orcpt example_EXT_DSN 5%N NULL 3%N
      (Some "rfc822"%string) (Some "rcpt@example.org"%string) example_state
      = Ok 0 st'
    /\ heap st' !! 3%N
       = Some (ORecipient (Recipient.set_dsn_addrtype 5%N example_recipient))
    /\ heap st' !! 5%N = None.
Proof.
  destruct (smtp_dsn_set_orcpt_second_alloc_failure example_EXT_DSN example_state
              5%N NULL 3%N example_recipient "rfc822" "rcpt@example.org")
    as (st' & Hcall & _ & Hr & _ & _ & _ & Hfree & _).
  - discriminate.
  - vm_compute. reflexivity.
  - vm_compute. reflexivity.
  - vm_compute. reflexivity.
  - split; [discriminate | vm_compute; reflexivity].
  - right. left. reflexivity.
  - exists st'. split; [exact Hcall |]. split; [exact Hr | exact Hfree].
Defined.

Lemma example_chain : msg_chain (heap example_state) (Session.messages example_session) [2%N].
Proof.
  split; [vm_compute; reflexivity |]. split; [discriminate |].
  exists example_message. split; vm_compute; reflexivity.
Defined.

Lemma example_ready_chain :
  msg_chain (heap example_ready_state) (Session.messages example_ready_session) [2%N].
Proof.
  split; [vm_compute; reflexivity |]. split; [discriminate |].
  eexists. split; vm_compute; reflexivity.
Defined.

Lemma smtp_start_session_spec_witness :
  smtp_start_session example_cfg example_engine 4 1%N example_state
    = Ok 0 (with_errno (Some SMTP_ERR_INVAL) example_state)
  /\ smtp_start_session example_cfg example_engine 4 1%N example_ready_state
    = Ok 1 (with_trace (trace example_ready_state ++ [EvDoSession 1%N])
              example_ready_state).
Proof.
  split.
  - apply (smtp_start_session_spec example_cfg example_engine example_state 4 1%N
             example_session [2%N]).
    + discriminate.
    + vm_compute. reflexivity.
    + exact example_chain.
    + cbn. lia.
    + left. vm_compute. reflexivity.
  - apply (smtp_start_session_spec example_cfg example_engine example_ready_state 4
             1%N example_ready_session [2%N]).
    + discriminate.
    + vm_compute. reflexivity.
    + exact example_ready_chain.
    + cbn. lia.
    + vm_compute. discriminate.
    + discriminate.
    + repeat constructor. vm_compute. discriminate.
Defined.

Lemma smtp_deliverby_set_mode_spec_witness :
  smtp_deliverby_set_mode 2%N 0 By_RETURN 0 example_state
    = Ok 0 (with_errno (Some SMTP_ERR_INVAL) example_state)
  /\ exists st',
      smtp_deliverby_set_mode 2%N 120 By_NOTIFY 1 example_state = Ok 1 st'
      /\ exists m', heap st' !! 2%N = Some (OMessage m')
           /\ Message.by_time m' = 120 /\ Message.by_mode m' = By_NOTIFY
           /\ Message.by_trace m' = 1.
Proof.
  assert (Hm : 2%N <> NULL) by discriminate.
  assert (Hh : heap example_state !! 2%N = Some (OMessage example_message))
    by (vm_compute; reflexivity).
  split.
  - apply (smtp_deliverby_set_mode_spec example_state 2%N example_message
             0 By_RETURN 0 Hm Hh).
    right. right. split; [reflexivity | lia].
  - destruct (smtp_deliverby_set_mode_spec example_state 2%N example_message
                120 By_NOTIFY 1 Hm Hh) as [_ Hok].
    destruct Hok as (Hcall & Ht & Hmode & Htr & _).
    + lia.
    + intros [Hmode _]. discriminate Hmode.
    + eexists. split; [exact Hcall |]. eexists. split; [apply lookup_insert_eq |].
      split; [exact Ht |]. split; [exact Hmode | exact Htr].
Defined.

Lemma enumerate_callback_checks_witness :
  smtp_enumerate_messages 4 1%N NULL NULL example_state
    = Ok 0 (with_errno (Some SMTP_ERR_INVAL) example_state)
  /\ smtp_enumerate_recipients 4 2%N NULL NULL example_state = Fault NullCall.
Proof.
  apply (enumerate_callback_checks example_state 3 1%N 2%N NULL example_message
           example_recipient).
  - discriminate.
  - discriminate.
  - vm_compute. reflexivity.
  - vm_compute. discriminate.
  - vm_compute. reflexivity.
Defined.

Lemma smtp_dsn_set_envid_unchecked_witness :
  smtp_dsn_set_envid example_EXT_DSN 5%N 2%N None example_state = Fault StrdupNull
  /\ exists st',
      smtp_dsn_set_envid example_EXT_DSN 5%N 2%N (Some "abc"%string) example_state
        = Ok 1 st'
      /\ heap st' !! 5%N = Some (OString "abc").
Proof.
  destruct (smtp_dsn_set_envid_unchecked example_EXT_DSN example_state 5%N 2%N
              example_message example_session "abc")
    as (Hnull & st' & Hcall & _ & _ & Hstr & _).
  - discriminate.
  - vm_compute. reflexivity.
  - vm_compute. reflexivity.
  - split; [discriminate | vm_compute; reflexivity].
  - split; [exact Hnull |]. exists st'. split; [exact Hcall | exact Hstr].
Defined.

Lemma example_engine_keeps :
  forall p st0, requirements_kept st0 (example_engine p st0).2.
Proof. intros p st0 q s s' Hq Hq'. cbn in Hq'. exists 0. rewrite Z.lor_0_r. congruence. Defined.

Lemma required_extensions_accumulate_witness :
  exists st' s',
    smtp_dsn_set_envid example_EXT_DSN 5%N 2%N (Some "abc"%string) example_state
      = Ok 1 st'
    /\ heap st' !! 1%N = Some (OSession s')
    /\ Z.land (Session.required_extensions s') example_EXT_DSN = example_EXT_DSN.
Proof.
  pose (c := Call_dsn_set_envid 5%N 2%N (Some "abc"%string)).
  pose (run := run_call example_cfg example_EXT_DSN example_EXT_8BITMIME
                 example_engine example_services example_ntohs c).
  assert (Hrun : run example_state = Ok (RInt 1) (state_after run example_state))
    by (vm_compute; reflexivity).
  destruct (required_extensions_accumulate example_cfg example_EXT_DSN
              example_EXT_8BITMIME example_engine example_services example_ntohs
              c example_state (state_after run example_state) (RInt 1)
              example_engine_keeps Hrun) as (_ & Hbit & _).
  destruct (Hbit example_EXT_DSN eq_refl eq_refl) as (session & s' & Howner & Hs' & Hland).
  assert (session = 1%N) as -> by (vm_compute in Howner; congruence).
  exists (state_after run example_state), s'.
  split; [vm_compute; reflexivity |]. split; [exact Hs' | exact Hland].
Defined.

(** C5, at one input: [smtp_deliverby_set_mode] is given the mode
    [By_NOTIFY] and the time 120 on a message of a session that requires
    nothing; it returns 1 and the session still requires nothing, so no bit
    at all, and none for DELIVERBY, is in its requirements. *)
Lemma smtp_deliverby_set_mode_requires_nothing :
  exists st',
    smtp_deliverby_set_mode 2%N 120 By_NOTIFY 1 example_state = Ok 1 st'
    /\ requirements_of (heap example_state) 1%N = Some 0
    /\ requirements_of (heap st') 1%N = Some 0
    /\ forall ext, ext <> 0 -> Z.land 0 ext <> ext.
Proof.
  eexists. split; [vm_compute; reflexivity |].
  split; [vm_compute; reflexivity |]. split; [vm_compute; reflexivity |].
  intros ext Hext. rewrite Z.land_0_l. congruence.
Qed.

Lemma enumeration_in_creation_order_witness :
  exists g st,
    run_build 1%N example_script []
      (state_after (smtp_create_session example_cfg 1%N) empty_state) = Ok g st
    /\ smtp_enumerate_messages 3 1%N 77%N NULL st
       = Ok 1 (with_trace (trace st ++ message_visits 77%N NULL (g.*1)) st)
    /\ g = [(2%N, [3%N; 8%N]); (5%N, [6%N])].
Proof.
  destruct (enumeration_in_creation_order example_cfg 1%N empty_state
              (state_after (smtp_create_session example_cfg 1%N) empty_state)
              1%N example_script)
    as (g & st & Hrun & _ & _ & Hmsgs & _).
  - vm_compute. reflexivity.
  - discriminate.
  - assert (Hg : g = [(2%N, [3%N; 8%N]); (5%N, [6%N])]).
    { vm_compute in Hrun. congruence. }
    exists g, st. split; [exact Hrun |]. split; [| exact Hg].
    apply Hmsgs; [discriminate |]. rewrite Hg. cbn. lia.
Defined.

Lemma smtp_set_server_spec_witness :
  smtp_set_server example_cfg example_services example_ntohs 1%N 1%N
    (Some "mail.example.org"%string) example_state
    = Ok 0 (with_errno (Some ENOMEM) example_state)
  /\ (exists st',
        smtp_set_server example_cfg example_services example_ntohs 5%N 1%N
          (Some "mail.example.org"%string) example_state = Ok 1 st'
        /\ exists s', heap st' !! 1%N = Some (OSession s')
             /\ Session.port s' = PortInt 587 /\ Session.host s' = 5%N)
  /\ smtp_set_server example_cfg example_services example_ntohs 5%N 1%N
       (Some "mail.example.org:nosuch"%string) example_state
     = Ok 0 (with_errno (Some SMTP_ERR_INVAL) example_state)
  /\ (exists st',
        smtp_set_server example_cfg example_services example_ntohs 5%N 1%N
          (Some "mail.example.org:2525"%string) example_state = Ok 1 st'
        /\ exists s', heap st' !! 1%N = Some (OSession s')
             /\ Session.port s' = PortInt 2525).
Proof.
  assert (Hs : 1%N <> NULL) by discriminate.
  assert (Hh : heap example_state !! 1%N = Some (OSession example_session))
    by (vm_compute; reflexivity).
  assert (Hf : fresh_in example_state 5%N)
    by (split; [discriminate | vm_compute; reflexivity]).
  split; [| split; [| split]].
  - apply (smtp_set_server_spec example_cfg example_services example_ntohs
             example_state 1%N 1%N example_session "mail.example.org" Hs Hh).
    right. eexists. exact Hh.
  - destruct (smtp_set_server_spec example_cfg example_services example_ntohs
                example_state 5%N 1%N example_session "mail.example.org" Hs Hh)
      as (_ & Hdefault & _).
    eexists. split; [apply Hdefault; [exact Hf | vm_compute; reflexivity] |].
    eexists. split; [apply lookup_insert_eq |]. split; vm_compute; reflexivity.
  - destruct (smtp_set_server_spec example_cfg example_services example_ntohs
                example_state 5%N 1%N example_session "mail.example.org:nosuch" Hs Hh)
      as (_ & _ & Hservice).
    destruct (Hservice Hf 16%nat) as (_ & _ & _ & _ & _ & Hinval).
    + vm_compute. reflexivity.
    + apply Hinval; vm_compute; reflexivity.
  - destruct (smtp_set_server_spec example_cfg example_services example_ntohs
                example_state 5%N 1%N example_session "mail.example.org:2525" Hs Hh)
      as (_ & _ & Hservice).
    destruct (Hservice Hf 16%nat) as (_ & _ & _ & Hnum & _).
    + vm_compute. reflexivity.
    + destruct Hnum as [Hcall Hfit]; [reflexivity | vm_compute; reflexivity |].
      eexists. split; [exact Hcall |].
      eexists. split; [apply lookup_insert_eq |].
      cbn [Session.port Session.set_host Session.set_port].
      rewrite Hfit; [vm_compute; reflexivity | vm_compute; discriminate].
Defined.

(** C8, at one input: in a build with getaddrinfo, a service name that the
    service database does not know is not rejected: the call returns 1 and
    stores a pointer to the name. *)
Lemma smtp_set_server_unresolved_service_accepted :
  example_services "nosuch" "tcp" = None
  /\ exists st' s',
      smtp_set_server example_cfg_getaddrinfo example_services example_ntohs 5%N 1%N
        (Some "mail.example.org:nosuch"%string) example_state_getaddrinfo = Ok 1 st'
      /\ smtp_errno st' = None
      /\ heap st' !! 1%N = Some (OSession s')
      /\ Session.port s' = PortInHost 5%N 17.
Proof.
  split; [reflexivity |].
  eexists _, _. split; [vm_compute; reflexivity |].
  split; [reflexivity |]. split; vm_compute; reflexivity.
Qed.

(** A numeric service that does not fit: [strtol] stops at LONG_MAX and
    the assignment to the [int] member keeps the low 32 bits. *)
Lemma smtp_set_server_numeric_overflow :
  (exists st' s',
     smtp_set_server example_cfg example_services example_ntohs 5%N 1%N
       (Some "h:99999999999999999999"%string) example_state = Ok 1 st'
     /\ heap st' !! 1%N = Some (OSession s')
     /\ Session.port s' = PortInt (-1))
  /\ (exists st' s',
     smtp_set_server example_cfg example_services example_ntohs 5%N 1%N
       (Some "h:4294967321"%string) example_state = Ok 1 st'
     /\ heap st' !! 1%N = Some (OSession s')
     /\ Session.port s' = PortInt 25).
Proof.
  split; eexists _, _; (split; [vm_compute; reflexivity |]);
    split; vm_compute; reflexivity.
Qed.

(** ** Further examples *)

Lemma null_handle_rejected_witness :
  run_call example_cfg example_EXT_DSN example_EXT_8BITMIME example_engine
    example_services example_ntohs
    (Call_dsn_set_envid 5%N NULL None) example_state
  = Ok (RInt 0) (with_errno (Some SMTP_ERR_INVAL) example_state).
Proof.
  apply (null_handle_rejected example_cfg example_EXT_DSN example_EXT_8BITMIME
           example_engine example_services example_ntohs
           (Call_dsn_set_envid 5%N NULL None) example_state).
  reflexivity.
Defined.

Lemma example_graph_inv : graph_inv (heap example_state) 1%N [(2%N, [3%N])].
Proof.
  pose (st1 := state_after (smtp_create_session example_cfg 1%N) empty_state).
  assert (H1 : graph_inv (heap st1) 1%N []).
  { apply (smtp_create_session_inv example_cfg 1%N empty_state); [| discriminate].
    vm_compute. reflexivity. }
  destruct (run_build_inv 1%N
              [AddMessage 2%N;
               AddRecipient 0 (Some "rcpt@example.org"%string) 3%N 4%N] [] st1 H1)
    as (g & st & Hrun & Hinv).
  vm_compute in Hrun. injection Hrun as <- <-.
  exact Hinv.
Qed.

Lemma application_data_swap_witness :
  (old <- smtp_set_application_data 1%N 10%N ;;
   got <- smtp_get_application_data 1%N ;;
   old' <- smtp_set_application_data 1%N 11%N ;;
   ret (old, got, old')) example_state
  = Ok (NULL, 10%N, 10%N)
       (with_heap (<[1%N := OSession (Session.set_application_data 11%N
                                        example_session)]>
                     (heap example_state)) example_state).
Proof.
  apply (application_data_swap example_state 1%N 2%N 3%N
           example_session example_message example_recipient 10%N 11%N);
    first [discriminate | vm_compute; reflexivity].
Defined.

Lemma unsetting_keeps_requirement_witness :
  exists st',
    (smtp_dsn_set_ret example_EXT_DSN 2%N Ret_FULL ;;;
     smtp_dsn_set_ret example_EXT_DSN 2%N Ret_NOTSET) example_state = Ok 1 st'
    /\ requirements_of (heap st') 1%N = Some example_EXT_DSN.
Proof.
  destruct (unsetting_keeps_requirement example_EXT_DSN example_EXT_8BITMIME
              example_state 2%N 3%N example_message example_session
              example_recipient Ret_FULL E8bitmime_8BITMIME 1)
    as ((st' & Hrun & _ & Hreq) & _);
    try first [discriminate | vm_compute; reflexivity].
  exists st'. split; [exact Hrun | exact Hreq].
Defined.

Lemma smtp_set_hostname_spec_witness :
  smtp_set_hostname example_cfg 5%N 1%N (Some "client.example.org"%string) example_state
  = Ok 1 (with_heap
            (<[1%N := OSession (Session.set_localhost 5%N example_session)]>
               (<[5%N := OString "client.example.org"]> (heap example_state)))
            example_state)
  /\ smtp_set_hostname example_cfg 2%N 1%N (Some "client.example.org"%string)
       example_state
     = Ok 0 (with_errno (Some ENOMEM)
               (with_heap
                  (<[1%N := OSession (Session.set_localhost NULL example_session)]>
                     (heap example_state))
                  example_state)).
Proof.
  split.
  - apply (smtp_set_hostname_spec example_cfg example_state 5%N 1%N example_session
             "client.example.org");
      first [discriminate | vm_compute; reflexivity | idtac].
    + left. vm_compute. reflexivity.
    + split; [discriminate | vm_compute; reflexivity].
  - apply (smtp_set_hostname_spec example_cfg example_state 2%N 1%N example_session
             "client.example.org");
      first [discriminate | vm_compute; reflexivity | idtac].
    + left. vm_compute. reflexivity.
    + right. vm_compute. by eexists.
Defined.

Lemma smtp_set_reverse_path_spec_witness :
  smtp_set_reverse_path 5%N 2%N (Some "sender@example.org"%string) example_state
  = Ok 1 (with_heap
            (<[2%N := OMessage (Message.set_reverse_path_mailbox 5%N example_message)]>
               (<[5%N := OString "sender@example.org"]> (heap example_state)))
            example_state).
Proof.
  apply (smtp_set_reverse_path_spec example_state 5%N 2%N example_message
           "sender@example.org");
    first [discriminate | vm_compute; reflexivity | idtac].
  - left. vm_compute. reflexivity.
  - split; [discriminate | vm_compute; reflexivity].
Defined.

Lemma smtp_dsn_set_orcpt_spec_witness :
  smtp_dsn_set_orcpt example_EXT_DSN 5%N 6%N 3%N
    (Some "rfc822"%string) (Some "rcpt@example.org"%string) example_state
  = Ok 1 (with_heap
            (<[1%N := OSession (Session.set_required_extensions example_EXT_DSN
                                  example_session)]>
               (<[3%N := ORecipient (Recipient.set_dsn_orcpt 6%N
                                       (Recipient.set_dsn_addrtype 5%N
                                          example_recipient))]>
                  (<[6%N := OString "rcpt@example.org"]>
                     (<[5%N := OString "rfc822"]> (heap example_state)))))
            example_state).
Proof.
  apply (smtp_dsn_set_orcpt_spec example_EXT_DSN example_state 5%N 6%N 3%N
           example_recipient example_message example_session
           "rfc822" "rcpt@example.org");
    first [discriminate | vm_compute; reflexivity | idtac].
  - split; [discriminate | vm_compute; reflexivity].
  - split; [discriminate | vm_compute; reflexivity].
Defined.

Lemma smtp_set_server_keeps_old_host_witness :
  exists st',
    smtp_set_server example_cfg example_services example_ntohs 6%N 1%N
      (Some "other.example.org"%string) example_ready_state = Ok 1 st'
    /\ heap st' !! 5%N
       = Some (OString ("mail.example.org" ++ String Ascii.zero "smtp"))
    /\ exists s', heap st' !! 1%N = Some (OSession s') /\ Session.host s' = 6%N.
Proof.
  pose (st' := state_after
                 (smtp_set_server example_cfg example_services example_ntohs 6%N 1%N
                    (Some "other.example.org"%string)) example_ready_state).
  assert (Hrun : smtp_set_server example_cfg example_services example_ntohs 6%N 1%N
                   (Some "other.example.org"%string) example_ready_state = Ok 1 st')
    by (vm_compute; reflexivity).
  destruct (smtp_set_server_keeps_old_host example_cfg example_services example_ntohs
              example_ready_state st' 6%N 1%N example_ready_session
              (Some "other.example.org"%string)
              ("mail.example.org" ++ String Ascii.zero "smtp"))
    as (Hold & s' & Hs' & Hhost & _).
  - vm_compute. reflexivity.
  - vm_compute. reflexivity.
  - exact Hrun.
  - exists st'. split; [exact Hrun |]. split; [exact Hold |].
    exists s'. split; [exact Hs' | exact Hhost].
Defined.

Lemma smtp_recipient_reset_status_spec_witness :
  exists st',
    smtp_recipient_reset_status 3%N example_state = Ok 1 st'
    /\ smtp_recipient_check_complete 3%N st' = Ok 0 st'.
Proof.
  destruct (smtp_recipient_reset_status_spec example_state 3%N example_recipient)
    as (Hrun & Hcheck & _).
  - discriminate.
  - vm_compute. reflexivity.
  - left. vm_compute. reflexivity.
  - eexists. split; [exact Hrun | exact Hcheck].
Defined.

Lemma smtp_message_reset_status_spec_witness :
  smtp_message_reset_status 2%N example_state
  = Ok 1 (with_heap
            (<[2%N := OMessage (Message.set_message_status Status.zero
                                  (Message.set_reverse_path_status Status.zero
                                     example_message))]>
               (heap example_state)) example_state).
Proof.
  apply (smtp_message_reset_status_spec example_state 2%N example_message).
  - discriminate.
  - vm_compute. reflexivity.
  - left. vm_compute. reflexivity.
  - left. vm_compute. reflexivity.
  - left. vm_compute. reflexivity.
Defined.

Lemma setters_keep_graph_witness :
  (exists st',
     smtp_dsn_set_envid example_EXT_DSN 5%N 2%N (Some "abc"%string) example_state
       = Ok 1 st'
     /\ graph_inv (heap st') 1%N [(2%N, [3%N])]
     /\ smtp_enumerate_messages 2 1%N 77%N NULL st'
        = Ok 1 (with_trace (trace st' ++ [EvMessageCb 77%N 2%N NULL]) st'))
  /\ (exists st',
     smtp_dsn_set_orcpt example_EXT_DSN 5%N NULL 3%N
       (Some "rfc822"%string) (Some "rcpt@example.org"%string) example_state
       = Ok 0 st'
     /\ graph_inv (heap st') 1%N [(2%N, [3%N])]
     /\ smtp_enumerate_recipients 2 2%N 77%N NULL st'
        = Ok 1 (with_trace (trace st' ++ [EvRecipientCb 77%N 3%N 4%N NULL]) st')).
Proof.
  split.
  - pose (c := Call_dsn_set_envid 5%N 2%N (Some "abc"%string)).
    pose (st' := state_after
                   (smtp_dsn_set_envid example_EXT_DSN 5%N 2%N (Some "abc"%string))
                   example_state).
    destruct (setters_keep_graph example_cfg example_EXT_DSN example_EXT_8BITMIME
                example_engine example_services example_ntohs c example_state st'
                (RInt 1) 1%N [(2%N, [3%N])])
      as (Hinv & Hmsgs & _).
    + reflexivity.
    + exact example_graph_inv.
    + vm_compute. reflexivity.
    + exists st'. split; [vm_compute; reflexivity |]. split; [exact Hinv |].
      apply (Hmsgs 2%nat 77%N NULL); [discriminate | cbn; lia].
  - pose (c := Call_dsn_set_orcpt 5%N NULL 3%N
                 (Some "rfc822"%string) (Some "rcpt@example.org"%string)).
    pose (st' := state_after
                   (smtp_dsn_set_orcpt example_EXT_DSN 5%N NULL 3%N
                      (Some "rfc822"%string) (Some "rcpt@example.org"%string))
                   example_state).
    destruct (setters_keep_graph example_cfg example_EXT_DSN example_EXT_8BITMIME
                example_engine example_services example_ntohs c example_state st'
                (RInt 0) 1%N [(2%N, [3%N])])
      as (Hinv & _ & Hrcpts).
    + reflexivity.
    + exact example_graph_inv.
    + vm_compute. reflexivity.
    + exists st'. split; [vm_compute; reflexivity |]. split; [exact Hinv |].
      apply (Hrcpts 2%N [3%N] 2%nat 77%N NULL);
        [by left | discriminate | cbn; lia].
Defined.

Lemma built_session_starts_witness :
  exists st3 st4,
    smtp_set_server example_cfg example_services example_ntohs 10%N 1%N
      (Some "mail.example.org"%string)
      (state_after (run_build 1%N example_script [])
         (state_after (smtp_create_session example_cfg 1%N) empty_state))
    = Ok 1 st3
    /\ set_all_messagecb 77%N NULL [2%N; 5%N] st3 = Ok 1 st4
    /\ smtp_start_session example_cfg example_engine 3 1%N st4
       = Ok 1 (with_trace (trace st4 ++ [EvDoSession 1%N]) st4).
Proof.
  pose (st1 := state_after (smtp_create_session example_cfg 1%N) empty_state).
  pose (st2 := state_after (run_build 1%N example_script []) st1).
  pose (st3 := state_after
                 (smtp_set_server example_cfg example_services example_ntohs 10%N 1%N
                    (Some "mail.example.org"%string)) st2).
  destruct (built_session_starts example_cfg example_engine example_services
              example_ntohs 1%N 10%N 1%N empty_state st1 st2 st3 example_script
              [(2%N, [3%N; 8%N]); (5%N, [6%N])] (Some "mail.example.org"%string)
              77%N NULL 3)
    as (st4 & Hset & Hstart).
  - reflexivity.
  - vm_compute. reflexivity.
  - discriminate.
  - vm_compute. reflexivity.
  - vm_compute. reflexivity.
  - discriminate.
  - cbn. lia.
  - exists st3, st4. split; [vm_compute; reflexivity |].
    split; [exact Hset | exact Hstart].
Defined.

Lemma smtp_add_recipient_appends_witness :
  exists st',
    smtp_add_recipient 5%N 6%N 2%N (Some "second@example.org"%string) example_state
      = Ok 5%N st'
    /\ heap st' !! 6%N = Some (OString "second@example.org")
    /\ smtp_enumerate_recipients 3 2%N 77%N NULL st'
       = Ok 1 (with_trace
                 (trace example_state
                    ++ [EvRecipientCb 77%N 3%N 4%N NULL; EvRecipientCb 77%N 5%N 6%N NULL])
                 st').
Proof.
  destruct (smtp_add_recipient_appends example_state 5%N 6%N 1%N 2%N
              [(2%N, [3%N])] 0 [3%N] "second@example.org")
    as (st' & Hrun & Hcopy & _ & Hvisit).
  - exact example_graph_inv.
  - reflexivity.
  - split; [discriminate | vm_compute; reflexivity].
  - split; [discriminate | vm_compute; reflexivity].
  - discriminate.
  - exists st'. split; [exact Hrun |]. split; [exact Hcopy |].
    apply (Hvisit 3%nat 77%N NULL); [discriminate | cbn; lia].
Defined.

Lemma built_session_teardown_witness :
  exists st3,
    smtp_destroy_session example_cfg 3 1%N
      (state_after (run_build 1%N example_script [])
         (state_after (smtp_create_session example_cfg 1%N) empty_state))
    = Ok 1 st3
    /\ heap st3 = ∅.
Proof.
  destruct (built_session_teardown example_cfg 1%N 1%N example_script
              [(2%N, [3%N; 8%N]); (5%N, [6%N])] empty_state
              (state_after (smtp_create_session example_cfg 1%N) empty_state)
              (state_after (run_build 1%N example_script [])
                 (state_after (smtp_create_session example_cfg 1%N) empty_state))
              3)
    as (st3 & Hrun & Hh & _).
  - vm_compute. reflexivity.
  - discriminate.
  - vm_compute. reflexivity.
  - cbn. lia.
  - repeat constructor; cbn; lia.
  - exists st3. split; [exact Hrun | exact Hh].
Defined.
